(** * KnowledgeHub VS Code extension: provider detector, live context buffer,
      prompt enhancement.

    Shallow embedding of
      - [ai-provider-detector.ts]  (class [AIProviderDetector]),
      - [live-context.ts]          (classes [LiveContextStream], [ContextBuffer]),
      - [ai-enhancement-layer.ts]  (class [AIEnhancementLayer]).

    Conventions.  Strings are [string] (8-bit characters; the case mapping is
    the ASCII one).  Array indices and lengths are [nat]; wall-clock readings
    of [Date.now()] are [Z] and are passed to the operation that reads the
    clock.  Promises are modelled by the order in which their callbacks run. *)

From Stdlib Require Import String Ascii List ZArith Bool Arith Lia.
From Stdlib Require Import Sorted Permutation DecimalString.
Import ListNotations.

Open Scope string_scope.
Open Scope list_scope.

(* ================================================================== *)
(** * Part I: the program                                               *)
(* ================================================================== *)

(** ** Host-language primitives used by the sources *)

Module Js.

(** [String.prototype.toLowerCase], on ASCII. *)
Definition lower_ascii (c : ascii) : ascii :=
  let n := nat_of_ascii c in
  if Nat.leb 65 n && Nat.leb n 90 then ascii_of_nat (n + 32) else c.

Fixpoint toLowerCase (s : string) : string :=
  match s with
  | EmptyString => EmptyString
  | String c s' => String (lower_ascii c) (toLowerCase s')
  end.

(** [s.includes(sub)]. *)
Fixpoint includes (s sub : string) : bool :=
  if String.prefix sub s then true
  else match s with
       | EmptyString => false
       | String _ s' => includes s' sub
       end.

(** [arr.join(sep)] on an array of strings. *)
Definition join (sep : string) (arr : list string) : string :=
  String.concat sep arr.

(** [arr.some(f)]. *)
Definition some {A : Type} (f : A -> bool) (arr : list A) : bool :=
  existsb f arr.

(** [x || d] for an optional string [x]: [undefined] and the empty string
    are falsy. *)
Definition or_else (x : option string) (d : string) : string :=
  match x with
  | Some (String c s) => String c s
  | _ => d
  end.

(** [x || []] for an optional array. *)
Definition or_nil {A : Type} (x : option (list A)) : list A :=
  match x with
  | Some l => l
  | None => []
  end.

(** Untyped values ([any]) that the sources only test for truthiness. *)
Inductive value : Type :=
  | undefined
  | null
  | boolean (b : bool)
  | number (z : Z)
  | text (s : string)
  | object.                     (* any object or array, also an empty one *)

Definition truthy (v : value) : bool :=
  match v with
  | undefined | null => false
  | boolean b => b
  | number z => negb (Z.eqb z 0)
  | text EmptyString => false
  | text (String _ _) => true
  | object => true
  end.

(** [arr.slice(-n)] for [n > 0]: the last [n] elements. *)
Definition slice_last {A : Type} (n : nat) (arr : list A) : list A :=
  skipn (length arr - n) arr.

(** [arr.slice(0, n)]. *)
Definition slice_to {A : Type} (n : nat) (arr : list A) : list A :=
  firstn n arr.

(** [arr.filter(Boolean).length] on an array of booleans. *)
Definition count_true (arr : list bool) : nat :=
  length (filter (fun b : bool => b) arr).

(** [arr.sort(cmp)] for a consistent comparator [cmp]: the stable sorted
    permutation, computed here by insertion from the right. *)
Section Sort.
Context {A : Type} (cmp : A -> A -> Z).

Fixpoint sort_insert (x : A) (l : list A) : list A :=
    match l with
    | [] => [x]
    | y :: l' => if (cmp x y <=? 0)%Z then x :: y :: l'
                 else y :: sort_insert x l'
    end.

Definition sort (l : list A) : list A := fold_right sort_insert [] l.
End Sort.

End Js.

(** [String.prototype.localeCompare] with no locale argument: the collation
    of the host's ICU library at its default (tertiary) strength, for a
    default locale that does not tailor ASCII (the root collation, as for
    English).  On ASCII text it compares first the primary weights of the two
    strings, where white space comes before punctuation and symbols, these
    before the digits, the digits before the letters, a letter has the same
    weight in both cases and the other control characters have none; when the
    primary weights agree throughout, the first difference of case decides,
    lower case first.  The result is -1, 0 or 1. *)
Module Collation.

(** Codes of the punctuation marks, symbols and the currency sign, in
    collation order: low line, hyphen, comma, semicolon, colon, exclamation
    mark, question mark, full stop, apostrophe, quotation mark, parentheses,
    square brackets, curly brackets, commercial at, asterisk, solidus,
    reverse solidus, ampersand, number sign, percent sign, grave accent,
    circumflex, plus, less-than, equals, greater-than, vertical line, tilde,
    dollar. *)
Definition punctuation : list nat :=
  [95; 45; 44; 59; 58; 33; 63; 46; 39; 34; 40; 41; 91; 93; 123; 125;
   64; 42; 47; 92; 38; 35; 37; 96; 94; 43; 60; 61; 62; 124; 126; 36].

Fixpoint index_of (n : nat) (l : list nat) : option nat :=
  match l with
  | [] => None
  | m :: l' => if Nat.eqb n m then Some 0 else option_map S (index_of n l')
  end.

(** The primary weight of a character, [None] for an ignorable one.  Code
    units above 127 are outside the table; they are kept after the letters, in
    code order. *)
Definition primary (c : ascii) : option nat :=
  let n := nat_of_ascii c in
  if Nat.leb 9 n && Nat.leb n 13 then Some (n - 8)           (* tab .. CR *)
  else if Nat.eqb n 32 then Some 6                           (* space *)
  else if Nat.leb 48 n && Nat.leb n 57 then Some (n - 8)     (* digits *)
  else if Nat.leb 65 n && Nat.leb n 90 then Some (n - 15)    (* A .. Z *)
  else if Nat.leb 97 n && Nat.leb n 122 then Some (n - 47)   (* a .. z *)
  else if Nat.leb 128 n then Some (n - 28)
  else option_map (Nat.add 7) (index_of n punctuation).

(** The tertiary weight of a character that is not ignorable: upper case
    after lower case. *)
Definition tertiary (c : ascii) : nat :=
  let n := nat_of_ascii c in
  if Nat.leb 65 n && Nat.leb n 90 then 1 else 0.

Fixpoint primary_key (s : string) : list nat :=
  match s with
  | EmptyString => []
  | String c s' =>
      match primary c with
      | Some w => w :: primary_key s'
      | None => primary_key s'
      end
  end.

Fixpoint tertiary_key (s : string) : list nat :=
  match s with
  | EmptyString => []
  | String c s' =>
      match primary c with
      | Some _ => tertiary c :: tertiary_key s'
      | None => tertiary_key s'
      end
  end.

Fixpoint compare_keys (a b : list nat) : Z :=
  match a, b with
  | [], [] => 0
  | [], _ :: _ => -1
  | _ :: _, [] => 1
  | x :: a', y :: b' =>
      match Nat.compare x y with
      | Lt => -1
      | Gt => 1
      | Eq => compare_keys a' b'
      end
  end.

Definition localeCompare (a b : string) : Z :=
  let p := compare_keys (primary_key a) (primary_key b) in
  if (p =? 0)%Z then compare_keys (tertiary_key a) (tertiary_key b) else p.

End Collation.

(** ** ai-provider-detector.ts *)

Module AIProviderInfo.
Record t : Type := mk
  { name : string;
    displayName : string;
    capabilities : list string;
    apiMethods : list string }.
End AIProviderInfo.

Module Command.
Record t : Type := mk
  { command : option string;
    title : option string }.
End Command.

Module Contributes.
Record t : Type := mk
  { commands : option (list Command.t);
    completionProviders : Js.value;
    inlineCompletionProviders : Js.value;
    languages : Js.value }.

(** The empty object [{}]. *)
Definition empty : t := mk None Js.undefined Js.undefined Js.undefined.
End Contributes.

Module PackageJSON.
Record t : Type := mk
  { displayName : option string;
    description : option string;
    keywords : option (list string);
    categories : option (list string);
    version : option string;
    contributes : option Contributes.t }.
End PackageJSON.

Module Extension.
Record t : Type := mk
  { id : string;
    isActive : bool;
    packageJSON : PackageJSON.t }.
End Extension.

Module DetectedAIProvider.
Record t : Type := mk
  { id : string;
    name : string;
    displayName : string;
    extension : Extension.t;
    isActive : bool;
    version : string;
    capabilities : list string }.
End DetectedAIProvider.

Module AIProviderDetector.

(** [initializeKnownProviders]: the [Map] in insertion order. *)
Definition knownProviders : list (string * AIProviderInfo.t) :=
  [ ("github.copilot",
     AIProviderInfo.mk "github.copilot" "GitHub Copilot"
       ["code-completion"; "inline-completion"; "chat"]
       ["getCompletions"; "getInlineCompletions"]);
    ("continue.continue",
     AIProviderInfo.mk "continue.continue" "Continue (Cline)"
       ["chat"; "code-generation"; "context-aware"]
       ["registerContextProvider"; "addContextProvider"]);
    ("anthropic.claude-dev",
     AIProviderInfo.mk "anthropic.claude-dev" "Claude Dev"
       ["chat"; "code-generation"; "file-operations"]
       ["addContextProvider"; "registerProvider"]);
    ("codeium.codeium",
     AIProviderInfo.mk "codeium.codeium" "Codeium"
       ["code-completion"; "inline-completion"]
       ["provideInlineCompletionItems"]);
    ("tabnine.tabnine-vscode",
     AIProviderInfo.mk "tabnine.tabnine-vscode" "TabNine"
       ["code-completion"; "inline-completion"]
       ["provideCompletionItems"]);
    ("visualstudioexptteam.vscodeintellicode",
     AIProviderInfo.mk "visualstudioexptteam.vscodeintellicode"
       "Visual Studio IntelliCode"
       ["code-completion"; "suggestions"]
       ["provideCompletionItems"]);
    ("kiteco.kite",
     AIProviderInfo.mk "kiteco.kite" "Kite"
       ["code-completion"; "documentation"]
       ["provideCompletionItems"]);
    ("amazonwebservices.aws-toolkit-vscode",
     AIProviderInfo.mk "amazonwebservices.aws-toolkit-vscode"
       "AWS CodeWhisperer"
       ["code-completion"; "inline-completion"]
       ["provideInlineCompletionItems"]);
    ("jetbrains.ai-assistant",
     AIProviderInfo.mk "jetbrains.ai-assistant" "JetBrains AI Assistant"
       ["chat"; "code-generation"]
       ["registerProvider"]);
    ("aider.aider-vscode",
     AIProviderInfo.mk "aider.aider-vscode" "Aider"
       ["chat"; "code-generation"; "git-aware"]
       ["registerContextProvider"]) ].

(** [knownProviders.get(providerId)]. *)
Fixpoint map_get (m : list (string * AIProviderInfo.t)) (k : string)
  : option AIProviderInfo.t :=
  match m with
  | [] => None
  | (k', v) :: m' => if String.eqb k' k then Some v else map_get m' k
  end.

Definition getProviderInfo (providerId : string) : option AIProviderInfo.t :=
  map_get knownProviders providerId.

(** [knownProviders.has(providerId)]. *)
Definition isKnownProvider (providerId : string) : bool :=
  match getProviderInfo providerId with
  | Some _ => true
  | None => false
  end.

Definition aiKeywords : list string :=
  [ "ai"; "artificial intelligence"; "machine learning"; "ml";
    "copilot"; "assistant"; "autocomplete"; "completion";
    "smart"; "intelligent"; "suggestion"; "predict";
    "claude"; "gpt"; "openai"; "anthropic"; "codeium";
    "tabnine"; "kite"; "intellicode"; "codewhisperer" ].

Definition containsAIKeywords (text : string) : bool :=
  let lowerText := Js.toLowerCase text in
  Js.some (fun keyword => Js.includes lowerText keyword) aiKeywords.

Definition aiCategories : list string :=
  [ "AI"; "Machine Learning"; "Artificial Intelligence";
    "Productivity"; "Code Completion"; "Assistant" ].

Definition hasAICategory (categories : list string) : bool :=
  Js.some (fun category =>
    Js.some (fun aiCat =>
      Js.includes (Js.toLowerCase category) (Js.toLowerCase aiCat))
      aiCategories)
    categories.

Definition aiCommandKeywords : list string :=
  [ "complete"; "suggest"; "ai"; "assistant"; "generate";
    "chat"; "ask"; "help"; "smart"; "auto" ].

Definition hasAICommands (commands : list Command.t) : bool :=
  Js.some (fun command =>
    Js.some (fun keyword =>
      Js.includes
        (Js.toLowerCase (Js.or_else (Command.command command) EmptyString))
        keyword
      || Js.includes
           (Js.toLowerCase (Js.or_else (Command.title command) EmptyString))
           keyword)
      aiCommandKeywords)
    commands.

Definition hasCompletionProviders (contributes : Contributes.t) : bool :=
  Js.truthy (Contributes.completionProviders contributes)
  || Js.truthy (Contributes.inlineCompletionProviders contributes)
  || Js.truthy (Contributes.languages contributes).

(** [packageJSON.contributes?.commands || []]. *)
Definition contributed_commands (packageJSON : PackageJSON.t)
  : list Command.t :=
  match PackageJSON.contributes packageJSON with
  | Some c => Js.or_nil (Contributes.commands c)
  | None => []
  end.

(** [packageJSON.contributes || {}]. *)
Definition contributes_or_empty (packageJSON : PackageJSON.t)
  : Contributes.t :=
  match PackageJSON.contributes packageJSON with
  | Some c => c
  | None => Contributes.empty
  end.

(** The [indicators] array of [isLikelyAIProvider]. *)
Definition indicators (extension : Extension.t) : list bool :=
  let packageJSON := Extension.packageJSON extension in
  [ containsAIKeywords
      (Js.or_else (PackageJSON.description packageJSON) EmptyString);
    containsAIKeywords
      (Js.or_else (PackageJSON.displayName packageJSON) EmptyString);
    containsAIKeywords
      (Js.join " " (Js.or_nil (PackageJSON.keywords packageJSON)));
    hasAICategory (Js.or_nil (PackageJSON.categories packageJSON));
    hasAICommands (contributed_commands packageJSON);
    hasCompletionProviders (contributes_or_empty packageJSON) ].

Definition isLikelyAIProvider (extension : Extension.t) : bool :=
  Nat.leb 2 (Js.count_true (indicators extension)).

Definition inferCapabilities (extension : Extension.t) : list string :=
  let packageJSON := Extension.packageJSON extension in
  let contributes := contributes_or_empty packageJSON in
  let capabilities :=
    (if Js.truthy (Contributes.completionProviders contributes)
        || Js.truthy (Contributes.inlineCompletionProviders contributes)
     then ["code-completion"] else [])
    ++
    (match Contributes.commands contributes with
     | Some commands =>
         if Js.some (fun cmd =>
              Js.includes
                (Js.toLowerCase (Js.or_else (Command.title cmd) EmptyString))
                "chat"
              || Js.includes
                   (Js.toLowerCase
                      (Js.or_else (Command.command cmd) EmptyString))
                   "chat")
              commands
         then ["chat"] else []
     | None => []
     end) in
  match capabilities with
  | [] => ["unknown"]
  | _ => capabilities
  end.

Definition unknown_descriptor (extension : Extension.t)
  : DetectedAIProvider.t :=
  DetectedAIProvider.mk
    (Extension.id extension)
    (Extension.id extension)
    (Js.or_else
       (PackageJSON.displayName (Extension.packageJSON extension))
       (Extension.id extension))
    extension
    (Extension.isActive extension)
    (Js.or_else
       (PackageJSON.version (Extension.packageJSON extension)) "unknown")
    (inferCapabilities extension).

Fixpoint detectUnknownAIProviders (extensions : list Extension.t)
  : list DetectedAIProvider.t :=
  match extensions with
  | [] => []
  | extension :: rest =>
      if isKnownProvider (Extension.id extension)
      then detectUnknownAIProviders rest
      else if isLikelyAIProvider extension
           then unknown_descriptor extension :: detectUnknownAIProviders rest
           else detectUnknownAIProviders rest
  end.

Definition known_descriptor (extensionId : string)
  (providerInfo : AIProviderInfo.t) (extension : Extension.t)
  : DetectedAIProvider.t :=
  DetectedAIProvider.mk
    extensionId
    (AIProviderInfo.name providerInfo)
    (AIProviderInfo.displayName providerInfo)
    extension
    (Extension.isActive extension)
    (Js.or_else
       (PackageJSON.version (Extension.packageJSON extension)) "unknown")
    (AIProviderInfo.capabilities providerInfo).

(** The first loop of [detectProviders], over any table. *)
Fixpoint detectKnown (table : list (string * AIProviderInfo.t))
  (allExtensions : list Extension.t) : list DetectedAIProvider.t :=
  match table with
  | [] => []
  | (extensionId, providerInfo) :: table' =>
      match find (fun ext => String.eqb (Extension.id ext) extensionId)
              allExtensions with
      | Some extension =>
          known_descriptor extensionId providerInfo extension
            :: detectKnown table' allExtensions
      | None => detectKnown table' allExtensions
      end
  end.

Section Detect.
(** [String.prototype.localeCompare]: the collation of the host's locale
    ([Collation.localeCompare] where the locale does not tailor ASCII). *)
Variable localeCompare : string -> string -> Z.

Definition byDisplayName (a b : DetectedAIProvider.t) : Z :=
    localeCompare (DetectedAIProvider.displayName a)
                  (DetectedAIProvider.displayName b).

(** [vscode.extensions.all] is the argument. *)
Definition detectProviders (allExtensions : list Extension.t)
    : list DetectedAIProvider.t :=
    let detectedProviders :=
      detectKnown knownProviders allExtensions
      ++ detectUnknownAIProviders allExtensions in
    Js.sort byDisplayName detectedProviders.
End Detect.

(** *** The four indicators as the specification words them *)

Definition spec_indicator_terms (extension : Extension.t) : bool :=
  let packageJSON := Extension.packageJSON extension in
  containsAIKeywords
    (Js.or_else (PackageJSON.description packageJSON) EmptyString)
  || containsAIKeywords
       (Js.or_else (PackageJSON.displayName packageJSON) EmptyString)
  || containsAIKeywords
       (Js.join " " (Js.or_nil (PackageJSON.keywords packageJSON))).

Definition spec_indicator_category (extension : Extension.t) : bool :=
  hasAICategory
    (Js.or_nil (PackageJSON.categories (Extension.packageJSON extension))).

Definition spec_indicator_commands (extension : Extension.t) : bool :=
  hasAICommands (contributed_commands (Extension.packageJSON extension)).

Definition spec_indicator_completion (extension : Extension.t) : bool :=
  let contributes := contributes_or_empty (Extension.packageJSON extension) in
  Js.truthy (Contributes.completionProviders contributes)
  || Js.truthy (Contributes.inlineCompletionProviders contributes).

Definition spec_indicators (extension : Extension.t) : list bool :=
  [ spec_indicator_terms extension;
    spec_indicator_category extension;
    spec_indicator_commands extension;
    spec_indicator_completion extension ].

End AIProviderDetector.

(** ** State passing for the mutable objects *)

Module St.

Definition M (S A : Type) : Type := S -> A * S.

Definition ret {S A : Type} (a : A) : M S A := fun s => (a, s).

Definition bind {S A B : Type} (c : M S A) (k : A -> M S B) : M S B :=
  fun s => let (a, s') := c s in k a s'.

Definition get {S : Type} : M S S := fun s => (s, s).

Definition put {S : Type} (s : S) : M S unit := fun _ => (tt, s).

Definition modify {S : Type} (f : S -> S) : M S unit := fun s => (tt, f s).

(** The state a computation leaves, and the value it returns. *)
Definition exec {S A : Type} (c : M S A) (s : S) : S := snd (c s).
Definition eval {S A : Type} (c : M S A) (s : S) : A := fst (c s).

(** Run a computation on a component [T] of the state [S]. *)
Definition zoom {S T A : Type} (proj : S -> T) (upd : T -> S -> S)
  (c : M T A) : M S A :=
  fun s => let (a, t') := c (proj s) in (a, upd t' s).

End St.

Declare Scope st_scope.
Delimit Scope st_scope with st.
Notation "x <- c ;; k" := (St.bind c (fun x => k))
  (at level 61, c at next level, right associativity) : st_scope.
Notation "c ;; k" := (St.bind c (fun _ => k))
  (at level 61, right associativity) : st_scope.

(** ** Calls that return or throw *)

Module Outcome.

Inductive t (A : Type) : Type :=
| returned (a : A)
| thrown (error : string).
Arguments returned {A} a.
Arguments thrown {A} error.

Definition bind {A B : Type} (c : t A) (k : A -> t B) : t B :=
  match c with
  | returned a => k a
  | thrown error => thrown error
  end.

(** [try { body } catch (error) { handler }]. *)
Definition try_catch {A : Type} (body : t A) (handler : string -> t A) : t A :=
  match body with
  | returned a => returned a
  | thrown error => handler error
  end.

End Outcome.

Declare Scope outcome_scope.
Delimit Scope outcome_scope with outcome.
Notation "x <- c ;; k" := (Outcome.bind c (fun x => k))
  (at level 61, c at next level, right associativity) : outcome_scope.

(** ** live-context.ts *)

Module TextDocumentContentChangeEvent.
Record t : Type := mk
  { rangeOffset : nat;
    rangeLength : nat;
    text : string }.
End TextDocumentContentChangeEvent.

Module DocumentChange.
Record t : Type := mk
  { file : string;
    changes : list TextDocumentContentChangeEvent.t;
    timestamp : Z;
    language : string }.
End DocumentChange.

Module SaveEvent.
Record t : Type := mk
  { file : string;
    timestamp : Z }.
End SaveEvent.

Module Position.
Record t : Type := mk
  { line : nat;
    character : nat }.
End Position.

Module Selection.
Record t : Type := mk
  { anchor : Position.t;
    active : Position.t }.
End Selection.

Module SelectionChange.
Record t : Type := mk
  { file : string;
    selection : option Selection.t;       (* [event.selections[0]] *)
    timestamp : Z }.
End SelectionChange.

Module ActivitySummary.
Record t : Type := mk
  { changesLastHour : nat;
    savesLastHour : nat;
    activeFiles : nat;
    currentFile : string }.
End ActivitySummary.

Module ContextBuffer.

Record t : Type := mk
  { changes : list DocumentChange.t;
    saves : list SaveEvent.t;
    selections : list SelectionChange.t;
    currentFile : string;
    maxBufferSize : nat }.

(** [new ContextBuffer()]: the field initialisers. *)
Definition new : t := mk [] [] [] EmptyString 100.

Definition set_changes (v : list DocumentChange.t) (b : t) : t :=
  mk v (saves b) (selections b) (currentFile b) (maxBufferSize b).
Definition set_saves (v : list SaveEvent.t) (b : t) : t :=
  mk (changes b) v (selections b) (currentFile b) (maxBufferSize b).
Definition set_selections (v : list SelectionChange.t) (b : t) : t :=
  mk (changes b) (saves b) v (currentFile b) (maxBufferSize b).
Definition set_currentFile (v : string) (b : t) : t :=
  mk (changes b) (saves b) (selections b) v (maxBufferSize b).

Local Open Scope st_scope.

Definition addChange (change : DocumentChange.t) : St.M t unit :=
  St.modify (fun b => set_changes (changes b ++ [change]) b) ;;
  b <- St.get ;;
  if Nat.ltb (maxBufferSize b) (length (changes b))
  then St.put (set_changes (Js.slice_last (maxBufferSize b) (changes b)) b)
  else St.ret tt.

(** [now] is the reading of [Date.now()]. *)
Definition addSaveEvent (now : Z) (file : string) : St.M t unit :=
  St.modify (fun b => set_saves (saves b ++ [SaveEvent.mk file now]) b) ;;
  b <- St.get ;;
  if Nat.ltb 50 (length (saves b))
  then St.put (set_saves (Js.slice_last 50 (saves b)) b)
  else St.ret tt.

Definition addSelectionChange (selection : SelectionChange.t)
  : St.M t unit :=
  St.modify (fun b => set_selections (selections b ++ [selection]) b) ;;
  b <- St.get ;;
  if Nat.ltb 20 (length (selections b))
  then St.put (set_selections (Js.slice_last 20 (selections b)) b)
  else St.ret tt.

Definition setCurrentFile (file : string) : St.M t unit :=
  St.modify (set_currentFile file).

(** [getRecentChanges(minutes)], called when the clock reads [now]. *)
Definition getRecentChanges (now : Z) (minutes : Z)
  : St.M t (list DocumentChange.t) :=
  b <- St.get ;;
  let cutoff := (now - minutes * 60 * 1000)%Z in
  St.ret (filter (fun change => (cutoff <? DocumentChange.timestamp change)%Z)
            (changes b)).

(** The default argument [minutes = 10]. *)
Definition getRecentChanges_default (now : Z)
  : St.M t (list DocumentChange.t) :=
  getRecentChanges now 10.

Definition getChangesForFile (file : string)
  : St.M t (list DocumentChange.t) :=
  b <- St.get ;;
  St.ret (filter (fun change => String.eqb (DocumentChange.file change) file)
            (changes b)).

(** [new Set(arr)] then [Array.from]: first occurrences, in order. *)
Fixpoint distinct_from (seen : list string) (arr : list string)
  : list string :=
  match arr with
  | [] => []
  | x :: arr' =>
      if existsb (String.eqb x) seen then distinct_from seen arr'
      else x :: distinct_from (x :: seen) arr'
  end.

Definition distinct (arr : list string) : list string :=
  distinct_from [] arr.

Definition getActivitySummary (now : Z) : St.M t ActivitySummary.t :=
  b <- St.get ;;
  let hour := (60 * 60 * 1000)%Z in
  St.ret
    (ActivitySummary.mk
       (length (filter (fun c => (now - hour <? DocumentChange.timestamp c)%Z)
                  (changes b)))
       (length (filter (fun s => (now - hour <? SaveEvent.timestamp s)%Z)
                  (saves b)))
       (length (distinct (map DocumentChange.file (changes b))))
       (currentFile b)).

(** The mutating operations, as data. *)
Inductive ingest : Type :=
| ingestChange (change : DocumentChange.t)
| ingestSave (now : Z) (file : string)
| ingestSelection (selection : SelectionChange.t)
| ingestCurrentFile (file : string).

Definition apply (op : ingest) : St.M t unit :=
  match op with
  | ingestChange change => addChange change
  | ingestSave now file => addSaveEvent now file
  | ingestSelection selection => addSelectionChange selection
  | ingestCurrentFile file => setCurrentFile file
  end.

Definition run (ops : list ingest) (b : t) : t :=
  fold_left (fun b op => St.exec (apply op) b) ops b.

End ContextBuffer.

Module TextDocument.
Record t : Type := mk
  { uri_scheme : string;                  (* [document.uri.scheme] *)
    fileName : string;
    languageId : string;
    lineCount : nat }.
End TextDocument.

Module TextEditor.
Record t : Type := mk
  { document : TextDocument.t;
    selection : Selection.t;
    (* the result of [document.getText(selection)] *)
    getText_selection : Outcome.t string }.
End TextEditor.

Module TextDocumentChangeEvent.
Record t : Type := mk
  { document : TextDocument.t;
    contentChanges : list TextDocumentContentChangeEvent.t }.
End TextDocumentChangeEvent.

Module TextEditorSelectionChangeEvent.
Record t : Type := mk
  { textEditor : TextEditor.t;
    selections : list Selection.t }.
End TextEditorSelectionChangeEvent.

Module WorkspaceFolder.
Record t : Type := mk
  { name : string;
    fsPath : string }.                    (* [uri.fsPath] *)
End WorkspaceFolder.

(** The built-in git extension, as [getCurrentGitBranch] reads it. *)
Module GitExtension.
Record t : Type := mk
  { isActive : bool;
    (* [exports.getAPI(1).repositories], each with its [state?.HEAD?.name] *)
    repositories : Outcome.t (list (option string)) }.
End GitExtension.

(** What the sources read from [vscode.window], [vscode.workspace] and
    [vscode.extensions]. *)
Module Host.
Record t : Type := mk
  { activeTextEditor : option TextEditor.t;
    workspaceFolders : list WorkspaceFolder.t;
    textDocuments : list TextDocument.t;
    gitExtension : option GitExtension.t }.
End Host.

Module ProjectState.
Inductive t : Type :=
| no_workspace                            (* [{ state: 'no-workspace' }] *)
| project (name path : string) (openFiles : nat) (languages : list string)
    (recentActivity : ActivitySummary.t).
End ProjectState.

Module LiveContext.
Record t : Type := mk
  { recentChanges : list DocumentChange.t;
    currentFocus : string;
    projectState : ProjectState.t;
    activePatterns : list string }.
End LiveContext.

Module LiveContextStream.

(** The five listeners registered by [startContextTracking]. *)
Inductive Disposable : Type :=
| onDidChangeTextDocument
| onDidChangeActiveTextEditor
| onDidSaveTextDocument
| onDidChangeWorkspaceFolders
| onDidChangeTextEditorSelection.

(** Calls made on the [KnowledgeHubClient]. *)
Inductive KnowledgeHubCall : Type :=
| trackCodeChange (file : string)
    (changes : list TextDocumentContentChangeEvent.t) (at_time : Z).

Record t : Type := mk
  { contextBuffer : ContextBuffer.t;
    disposables : list Disposable;
    isActive : bool;
    contextUpdateTimer : option nat;      (* the interval, in ms *)
    knowledgeHub : list KnowledgeHubCall  (* calls issued so far, oldest first *) }.

(** The constructor. *)
Definition new : t := mk ContextBuffer.new [] false None [].

Definition set_contextBuffer (v : ContextBuffer.t) (s : t) : t :=
  mk v (disposables s) (isActive s) (contextUpdateTimer s) (knowledgeHub s).
Definition set_disposables (v : list Disposable) (s : t) : t :=
  mk (contextBuffer s) v (isActive s) (contextUpdateTimer s) (knowledgeHub s).
Definition set_isActive (v : bool) (s : t) : t :=
  mk (contextBuffer s) (disposables s) v (contextUpdateTimer s) (knowledgeHub s).
Definition set_contextUpdateTimer (v : option nat) (s : t) : t :=
  mk (contextBuffer s) (disposables s) (isActive s) v (knowledgeHub s).
Definition call (c : KnowledgeHubCall) (s : t) : t :=
  mk (contextBuffer s) (disposables s) (isActive s) (contextUpdateTimer s)
     (knowledgeHub s ++ [c]).

Local Open Scope st_scope.

(** A method of [this.contextBuffer]. *)
Definition onBuffer {A : Type} (c : St.M ContextBuffer.t A) : St.M t A :=
  St.zoom contextBuffer set_contextBuffer c.

Definition push_disposable (d : Disposable) : St.M t unit :=
  St.modify (fun s => set_disposables (disposables s ++ [d]) s).

Definition startContextTracking : St.M t unit :=
  s <- St.get ;;
  if isActive s then St.ret tt
  else
    St.modify (set_isActive true) ;;
    push_disposable onDidChangeTextDocument ;;
    push_disposable onDidChangeActiveTextEditor ;;
    push_disposable onDidSaveTextDocument ;;
    push_disposable onDidChangeWorkspaceFolders ;;
    push_disposable onDidChangeTextEditorSelection ;;
    St.modify (set_contextUpdateTimer (Some 5000)).

Definition stop : St.M t unit :=
  St.modify (set_isActive false) ;;
  St.modify (set_disposables []) ;;
  s <- St.get ;;
  match contextUpdateTimer s with
  | Some _ => St.modify (set_contextUpdateTimer None)
  | None => St.ret tt
  end.

Definition getCurrentFocus (host : Host.t) : string :=
  match Host.activeTextEditor host with
  | None => "No active file"
  | Some activeEditor =>
      let fileName := TextDocument.fileName (TextEditor.document activeEditor) in
      let language := TextDocument.languageId (TextEditor.document activeEditor) in
      let lineCount := TextDocument.lineCount (TextEditor.document activeEditor) in
      String.concat EmptyString
        [ language; " file: "; fileName; " (";
          NilEmpty.string_of_uint (Nat.to_uint lineCount);
          " lines)" ]
  end.

Definition getActiveLanguages (host : Host.t) : list string :=
  ContextBuffer.distinct (map TextDocument.languageId (Host.textDocuments host)).

Definition getProjectState (host : Host.t) (now : Z) : St.M t ProjectState.t :=
  match Host.workspaceFolders host with
  | [] => St.ret ProjectState.no_workspace
  | workspaceFolder :: _ =>
      recentActivity <- onBuffer (ContextBuffer.getActivitySummary now) ;;
      St.ret (ProjectState.project
                (WorkspaceFolder.name workspaceFolder)
                (WorkspaceFolder.fsPath workspaceFolder)
                (length (Host.textDocuments host))
                (getActiveLanguages host)
                recentActivity)
  end.

(** [file.split('.').pop()]: what follows the last dot. *)
Fixpoint after_last_dot (acc : string) (s : string) : string :=
  match s with
  | EmptyString => acc
  | String c s' =>
      if Ascii.eqb c "."%char then after_last_dot EmptyString s'
      else after_last_dot (acc ++ String c EmptyString)%string s'
  end.

Definition getActivePatterns (now : Z) : St.M t (list string) :=
  recentChanges <- onBuffer (ContextBuffer.getRecentChanges_default now) ;;
  let languages :=
    ContextBuffer.distinct (map DocumentChange.language recentChanges) in
  let fileTypes :=
    ContextBuffer.distinct
      (map (fun change =>
              Js.or_else
                (Some (after_last_dot EmptyString (DocumentChange.file change)))
                "unknown")
         recentChanges) in
  St.ret (map (fun lang => (lang ++ " development")%string) languages
          ++ map (fun type => (type ++ " files")%string) fileTypes).

(** [getLatestContext], called when the clock reads [now]. *)
Definition getLatestContext (host : Host.t) (now : Z) : St.M t LiveContext.t :=
  recentChanges <- onBuffer (ContextBuffer.getRecentChanges_default now) ;;
  let currentFocus := getCurrentFocus host in
  projectState <- getProjectState host now ;;
  activePatterns <- getActivePatterns now ;;
  St.ret (LiveContext.mk recentChanges currentFocus projectState activePatterns).

(** [now] is the reading of [Date.now()] that stamps the buffered change,
    [sent] the later reading of [new Date()] whose ISO text stamps the
    forwarded call (the text is represented by the reading). *)
Definition onDocumentChange (now sent : Z) (event : TextDocumentChangeEvent.t)
  : St.M t unit :=
  s <- St.get ;;
  let document := TextDocumentChangeEvent.document event in
  if negb (isActive s) || negb (String.eqb (TextDocument.uri_scheme document) "file")
  then St.ret tt
  else
    let change :=
      DocumentChange.mk
        (TextDocument.fileName document)
        (TextDocumentChangeEvent.contentChanges event)
        now
        (TextDocument.languageId document) in
    onBuffer (ContextBuffer.addChange change) ;;
    St.modify
      (call (trackCodeChange (TextDocument.fileName document)
               (TextDocumentChangeEvent.contentChanges event) sent)).

(** [updateCurrentFocus], [analyzeChangesOnSave] and [updateProjectState]
    have no effect on the stream; [analyzeChangesOnSave] reads the buffer. *)
Definition updateCurrentFocus (fileName : string) : St.M t unit :=
  St.ret tt.

Definition analyzeChangesOnSave (fileName : string) : St.M t unit :=
  recentChanges <- onBuffer (ContextBuffer.getChangesForFile fileName) ;;
  if Nat.ltb 0 (length recentChanges) then St.ret tt else St.ret tt.

Definition updateProjectState : St.M t unit :=
  St.ret tt.

Definition onEditorChange (editor : option TextEditor.t) : St.M t unit :=
  s <- St.get ;;
  if negb (isActive s) then St.ret tt
  else
    match editor with
    | None => St.ret tt
    | Some editor' =>
        let fileName := TextDocument.fileName (TextEditor.document editor') in
        onBuffer (ContextBuffer.setCurrentFile fileName) ;;
        updateCurrentFocus fileName
    end.

Definition onDocumentSave (now : Z) (document : TextDocument.t)
  : St.M t unit :=
  s <- St.get ;;
  if negb (isActive s) || negb (String.eqb (TextDocument.uri_scheme document) "file")
  then St.ret tt
  else
    onBuffer (ContextBuffer.addSaveEvent now (TextDocument.fileName document)) ;;
    analyzeChangesOnSave (TextDocument.fileName document).

Definition onWorkspaceFolderChange : St.M t unit :=
  s <- St.get ;;
  if negb (isActive s) then St.ret tt else updateProjectState.

Definition onSelectionChange (now : Z)
  (event : TextEditorSelectionChangeEvent.t) : St.M t unit :=
  s <- St.get ;;
  if negb (isActive s) then St.ret tt
  else
    onBuffer
      (ContextBuffer.addSelectionChange
         (SelectionChange.mk
            (TextDocument.fileName
               (TextEditor.document
                  (TextEditorSelectionChangeEvent.textEditor event)))
            (hd_error (TextEditorSelectionChangeEvent.selections event))
            now)).

Definition updateContextPeriodically (host : Host.t) (now : Z)
  : St.M t unit :=
  s <- St.get ;;
  if negb (isActive s) then St.ret tt
  else
    _ <- getLatestContext host now ;;
    St.ret tt.

(** A notification delivered by the host, with the clock readings its
    handler makes. *)
Inductive notification : Type :=
| documentChanged (now sent : Z) (event : TextDocumentChangeEvent.t)
| activeEditorChanged (editor : option TextEditor.t)
| documentSaved (now : Z) (document : TextDocument.t)
| workspaceFoldersChanged
| selectionChanged (now : Z) (event : TextEditorSelectionChangeEvent.t)
| timerTick (host : Host.t) (now : Z).

Definition deliver (n : notification) : St.M t unit :=
  match n with
  | documentChanged now sent event => onDocumentChange now sent event
  | activeEditorChanged editor => onEditorChange editor
  | documentSaved now document => onDocumentSave now document
  | workspaceFoldersChanged => onWorkspaceFolderChange
  | selectionChanged now event => onSelectionChange now event
  | timerTick host now => updateContextPeriodically host now
  end.

Definition deliver_all (ns : list notification) (s : t) : t :=
  fold_left (fun s n => St.exec (deliver n) s) ns s.

End LiveContextStream.

(** ** ai-enhancement-layer.ts *)

Module AIRequest.
Record t : Type := mk
  { prompt : string;
    context : Js.value;
    provider : option string;
    model : option string }.
End AIRequest.

(** The response of the knowledge service, as the templates read it. *)
Module EnhancedContext.
Record t : Type := mk
  { projectSummary : string;
    relevantDecisions : list string;
    relevantPatterns : list string;
    currentBranch : string;
    suggestions : list string }.
End EnhancedContext.

Module VSCodeContext.
Record t : Type := mk
  { activeFile : string;
    workspaceRoot : string;
    gitBranch : string;
    openFiles : list string;
    recentChanges : list Js.value;
    cursorPosition : option Position.t;
    selectedText : option string }.
End VSCodeContext.

(** An [AIRequest] object, with the three fields of [EnhancedAIRequest] when
    they have been added. *)
Module EnhancedAIRequest.
Record t : Type := mk
  { request : AIRequest.t;
    enhancedPrompt : option string;
    knowledgeHubContext : option EnhancedContext.t;
    vscodeContext : option VSCodeContext.t }.
End EnhancedAIRequest.

(** The argument of [KnowledgeHubClient.getEnhancedContext]. *)
Module ContextQuery.
Record t : Type := mk
  { query : string;
    currentFile : string;
    workspaceRoot : string;
    recentChanges : list Js.value }.
End ContextQuery.

Module AIEnhancementLayer.

(** The remote knowledge service: each call returns or throws. *)
Definition KnowledgeHubClient : Type :=
  ContextQuery.t -> Outcome.t EnhancedContext.t.

Record t : Type := mk
  { knowledgeHub : KnowledgeHubClient;
    isActive : bool }.

Definition nl : string := String (ascii_of_nat 10) EmptyString.
Definition quote : string := String (ascii_of_nat 34) EmptyString.

(** A template literal: its pieces, concatenated. *)
Definition template (pieces : list string) : string :=
  String.concat EmptyString pieces.

(** [originalRequest as EnhancedAIRequest]: the same object. *)
Definition as_enhanced (originalRequest : AIRequest.t) : EnhancedAIRequest.t :=
  EnhancedAIRequest.mk originalRequest None None None.

Definition getCurrentGitBranch (host : Host.t) : string :=
  match
    Outcome.try_catch
      (match Host.gitExtension host with
       | Some gitExtension =>
           if GitExtension.isActive gitExtension
           then Outcome.bind (GitExtension.repositories gitExtension)
                  (fun repositories =>
                     Outcome.returned
                       (Some (Js.or_else
                                (match repositories with
                                 | [] => None
                                 | repo :: _ => repo
                                 end)
                                "main")))
           else Outcome.returned None
       | None => Outcome.returned None
       end)
      (fun _ => Outcome.returned None)
  with
  | Outcome.returned (Some branch) => branch
  | _ => "main"
  end.

Definition getRecentChanges : list Js.value := [].

Definition gatherVSCodeContext (host : Host.t) : Outcome.t VSCodeContext.t :=
  let activeEditor := Host.activeTextEditor host in
  let workspaceFolder := hd_error (Host.workspaceFolders host) in
  Outcome.bind
    (match activeEditor with
     | Some editor =>
         Outcome.bind (TextEditor.getText_selection editor)
           (fun text => Outcome.returned (Some text))
     | None => Outcome.returned None
     end)
    (fun selectedText =>
       Outcome.returned
         (VSCodeContext.mk
            (Js.or_else
               (option_map
                  (fun e => TextDocument.fileName (TextEditor.document e))
                  activeEditor)
               EmptyString)
            (Js.or_else (option_map WorkspaceFolder.fsPath workspaceFolder)
               EmptyString)
            (getCurrentGitBranch host)
            (map TextDocument.fileName (Host.textDocuments host))
            getRecentChanges
            (option_map (fun e => Selection.active (TextEditor.selection e))
               activeEditor)
            selectedText)).

(** [config.get('ai.enhancementLevel', 'maximum')]. *)
Definition enhancementLevel_of (configured : option string) : string :=
  match configured with
  | Some level => level
  | None => "maximum"
  end.

Definition minimal_template (originalPrompt : string)
  (vscodeContext : VSCodeContext.t) : string :=
  template
    [ originalPrompt; nl; nl;
      "[Project: "; VSCodeContext.workspaceRoot vscodeContext; "]" ].

Definition standard_template (originalPrompt : string)
  (knowledgeHubContext : EnhancedContext.t)
  (vscodeContext : VSCodeContext.t) : string :=
  template
    [ nl;
      "# Context from KnowledgeHub AI Intelligence"; nl;
      nl;
      "## Current File: "; VSCodeContext.activeFile vscodeContext; nl;
      "## Git Branch: "; VSCodeContext.gitBranch vscodeContext; nl;
      nl;
      "## Recent Project Patterns:"; nl;
      Js.join nl
        (Js.slice_to 3 (EnhancedContext.relevantPatterns knowledgeHubContext));
      nl;
      nl;
      "## Original Request:"; nl;
      originalPrompt; nl ].

Definition bullet (item : string) : string := ("- " ++ item)%string.

Definition maximum_template (originalPrompt : string)
  (knowledgeHubContext : EnhancedContext.t)
  (vscodeContext : VSCodeContext.t) : string :=
  template
    [ nl;
      "# Enhanced Context from KnowledgeHub AI Intelligence"; nl;
      nl;
      "## Project Context:"; nl;
      EnhancedContext.projectSummary knowledgeHubContext; nl;
      nl;
      "## Relevant Past Decisions:"; nl;
      Js.join nl
        (map bullet
           (Js.slice_to 3
              (EnhancedContext.relevantDecisions knowledgeHubContext)));
      nl;
      nl;
      "## Known Patterns for This Task:"; nl;
      Js.join nl
        (map bullet
           (Js.slice_to 5
              (EnhancedContext.relevantPatterns knowledgeHubContext)));
      nl;
      nl;
      "## Current Development Context:"; nl;
      "- **File**: "; VSCodeContext.activeFile vscodeContext; nl;
      "- **Git Branch**: "; VSCodeContext.gitBranch vscodeContext; nl;
      "- **Workspace**: "; VSCodeContext.workspaceRoot vscodeContext; nl;
      "- **Selected Text**: ";
      match VSCodeContext.selectedText vscodeContext with
      | Some (String c s) => template [ quote; String c s; quote ]
      | _ => "None"
      end;
      nl;
      nl;
      "## AI Suggestions:"; nl;
      Js.join nl
        (map bullet
           (Js.slice_to 3 (EnhancedContext.suggestions knowledgeHubContext)));
      nl;
      nl;
      "## Original Request:"; nl;
      originalPrompt; nl;
      nl;
      "---"; nl;
      "Please provide a response that considers the full project context, learned patterns, and past decisions. Focus on consistency with existing codebase patterns and architectural decisions.";
      nl ].

(** [configured] is the stored value of [knowledgehub.ai.enhancementLevel]. *)
Definition createEnhancedPrompt (configured : option string)
  (originalPrompt : string) (knowledgeHubContext : EnhancedContext.t)
  (vscodeContext : VSCodeContext.t) : string :=
  let enhancementLevel := enhancementLevel_of configured in
  if String.eqb enhancementLevel "minimal"
  then minimal_template originalPrompt vscodeContext
  else if String.eqb enhancementLevel "standard"
  then standard_template originalPrompt knowledgeHubContext vscodeContext
  else maximum_template originalPrompt knowledgeHubContext vscodeContext.

Local Open Scope outcome_scope.

Definition enhanceAIRequest (this : t) (host : Host.t)
  (configured : option string) (originalRequest : AIRequest.t)
  : Outcome.t EnhancedAIRequest.t :=
  if negb (isActive this)
  then Outcome.returned (as_enhanced originalRequest)
  else
    Outcome.try_catch
      (vscodeContext <- gatherVSCodeContext host ;;
       knowledgeHubContext <-
         knowledgeHub this
           (ContextQuery.mk
              (AIRequest.prompt originalRequest)
              (VSCodeContext.activeFile vscodeContext)
              (VSCodeContext.workspaceRoot vscodeContext)
              (VSCodeContext.recentChanges vscodeContext)) ;;
       let enhancedPrompt :=
         createEnhancedPrompt configured (AIRequest.prompt originalRequest)
           knowledgeHubContext vscodeContext in
       Outcome.returned
         (EnhancedAIRequest.mk originalRequest (Some enhancedPrompt)
            (Some knowledgeHubContext) (Some vscodeContext)))
      (fun error => Outcome.returned (as_enhanced originalRequest)).

End AIEnhancementLayer.

(** ** ai-provider-detector.ts: [waitForProviderActivation] *)

Module Promise.

Inductive state (A : Type) : Type :=
| pending
| fulfilled (a : A)
| rejected (reason : string).
Arguments pending {A}.
Arguments fulfilled {A} a.
Arguments rejected {A} reason.

(** The [resolve] function of a promise: the first call settles it. *)
Definition resolve {A : Type} (a : A) (p : state A) : state A :=
  match p with
  | pending => fulfilled a
  | _ => p
  end.

End Promise.

Module Activation.

(** The callbacks [waitForProviderActivation] registers. *)
Inductive callback : Type :=
| timerFired                              (* [() => resolve(false)] *)
| activateFulfilled                       (* the [then] callback *)
| activateRejected.                       (* the [catch] callback *)

Record t : Type := mk
  { result : Promise.state bool;
    timer : bool }.                       (* the timeout is still scheduled *)

(** After the executor ran: timer scheduled, [activate()] started. *)
Definition started : t := mk Promise.pending true.

Definition clearTimeout (w : t) : t := mk (result w) false.

Definition resolve (b : bool) (w : t) : t :=
  mk (Promise.resolve b (result w)) (timer w).

(** A cleared timeout never runs its callback. *)
Definition run (w : t) (cb : callback) : t :=
  match cb with
  | timerFired => if timer w then resolve false (clearTimeout w) else w
  | activateFulfilled => resolve true (clearTimeout w)
  | activateRejected => resolve false (clearTimeout w)
  end.

(** [vscode.extensions.getExtension(providerId)]. *)
Definition getExtension (allExtensions : list Extension.t)
  (providerId : string) : option Extension.t :=
  find (fun ext => String.eqb (Extension.id ext) providerId) allExtensions.

(** [callbacks]: the callbacks the event loop runs, in order. *)
Definition waitForProviderActivation (allExtensions : list Extension.t)
  (providerId : string) (callbacks : list callback) : Promise.state bool :=
  match getExtension allExtensions providerId with
  | None => Promise.fulfilled false
  | Some extension =>
      if Extension.isActive extension then Promise.fulfilled true
      else result (fold_left run callbacks started)
  end.

(** What [extension.activate()] does, on a clock in milliseconds that starts
    at the call. *)
Inductive activation : Type :=
| fulfilsAt (ms : nat)
| rejectsAt (ms : nat)
| neverSettles.

(** The order in which the event loop runs the callbacks for a timeout of
    [timeout] ms; [timerFirst] decides a tie. *)
Definition schedule (timeout : nat) (a : activation) (timerFirst : bool)
  : list callback :=
  let ordered (ms : nat) (cb : callback) :=
    if Nat.ltb ms timeout then [cb; timerFired]
    else if Nat.ltb timeout ms then [timerFired; cb]
    else if timerFirst then [timerFired; cb] else [cb; timerFired] in
  match a with
  | fulfilsAt ms => ordered ms activateFulfilled
  | rejectsAt ms => ordered ms activateRejected
  | neverSettles => [timerFired]
  end.

End Activation.

(** ** State passing for methods that may throw *)

Module Se.

Definition M (S A : Type) : Type := S -> Outcome.t A * S.

Definition ret {S A : Type} (a : A) : M S A :=
  fun s => (Outcome.returned a, s).

Definition throw {S A : Type} (error : string) : M S A :=
  fun s => (Outcome.thrown error, s).

Definition bind {S A B : Type} (c : M S A) (k : A -> M S B) : M S B :=
  fun s =>
    match c s with
    | (Outcome.returned a, s') => k a s'
    | (Outcome.thrown error, s') => (Outcome.thrown error, s')
    end.

(** A call on the host or on another extension. *)
Definition call {S A : Type} (o : Outcome.t A) : M S A := fun s => (o, s).

Definition get {S : Type} : M S S := fun s => (Outcome.returned s, s).

Definition modify {S : Type} (f : S -> S) : M S unit :=
  fun s => (Outcome.returned tt, f s).

(** A method that cannot throw. *)
Definition total {S A : Type} (c : St.M S A) : M S A :=
  fun s => let (a, s') := c s in (Outcome.returned a, s').

(** [try { body } catch (error) { handler }]: the handler runs in the state
    the body left. *)
Definition try_catch {S A : Type} (body : M S A) (handler : string -> M S A)
  : M S A :=
  fun s =>
    match body s with
    | (Outcome.returned a, s') => (Outcome.returned a, s')
    | (Outcome.thrown error, s') => handler error s'
    end.

(** Run a computation on a component [T] of the state [S]. *)
Definition zoom {S T A : Type} (proj : S -> T) (upd : T -> S -> S)
  (c : M T A) : M S A :=
  fun s => let (o, t') := c (proj s) in (o, upd t' s).

Definition exec {S A : Type} (c : M S A) (s : S) : S := snd (c s).
Definition eval {S A : Type} (c : M S A) (s : S) : Outcome.t A := fst (c s).

End Se.

Declare Scope se_scope.
Delimit Scope se_scope with se.
Notation "x <- c ;; k" := (Se.bind c (fun x => k))
  (at level 61, c at next level, right associativity) : se_scope.
Notation "c ;; k" := (Se.bind c (fun _ => k))
  (at level 61, right associativity) : se_scope.

(** ** A [Map] with string keys, in insertion order *)

Module JsMap.

Definition t (V : Type) : Type := list (string * V).

(** [m.set(k, v)]: an existing key keeps its place. *)
Fixpoint set {V : Type} (k : string) (v : V) (m : t V) : t V :=
  match m with
  | [] => [(k, v)]
  | (k', v') :: m' =>
      if String.eqb k' k then (k, v) :: m' else (k', v') :: set k v m'
  end.

(** [m.get(k)]. *)
Fixpoint get {V : Type} (k : string) (m : t V) : option V :=
  match m with
  | [] => None
  | (k', v') :: m' => if String.eqb k' k then Some v' else get k m'
  end.

(** [m.has(k)]. *)
Definition has {V : Type} (k : string) (m : t V) : bool :=
  match get k m with
  | Some _ => true
  | None => false
  end.

(** [Array.from(m.values())]. *)
Definition values {V : Type} (m : t V) : list V := map snd m.

Definition keys {V : Type} (m : t V) : list string := map fst m.

End JsMap.

(** ** ai-provider-detector.ts: [getProviderAPI] *)

Module ProviderAPI.

(** [activate] is what [extension.activate()] does, [exports] the value of
    [extension.exports]; [None] is [null]. *)
Definition getProviderAPI {A : Type} (allExtensions : list Extension.t)
  (providerId : string) (activate : Outcome.t unit) (exports : A)
  : Outcome.t (option A) :=
  match Activation.getExtension allExtensions providerId with
  | None => Outcome.returned None
  | Some extension =>
      Outcome.bind
        (if negb (Extension.isActive extension)
         then Outcome.try_catch
                (Outcome.bind activate (fun _ => Outcome.returned true))
                (fun _ => Outcome.returned false)
         else Outcome.returned true)
        (fun activated =>
           Outcome.returned (if activated then Some exports else None))
  end.

End ProviderAPI.

(** ** ai-enhancement-layer.ts: [start] and [stop] *)

Module EnhancementLifecycle.

Definition set_isActive (v : bool) (this : AIEnhancementLayer.t)
  : AIEnhancementLayer.t :=
  AIEnhancementLayer.mk (AIEnhancementLayer.knowledgeHub this) v.

(** What the host does when the layer registers with it:
    [registerCompletionItemProvider] for Copilot and
    [registerInlineCompletionItemProvider] for the generic interceptor. *)
Record Registrar : Type := mkRegistrar
  { registerCompletionItemProvider : Outcome.t unit;
    registerInlineCompletionItemProvider : Outcome.t unit }.

Local Open Scope se_scope.

(** [registerCopilotInterceptor]: its own [try] swallows a failure. *)
Definition registerCopilotInterceptor (allExtensions : list Extension.t)
  (host : Registrar) : Se.M AIEnhancementLayer.t unit :=
  Se.try_catch
    (match Activation.getExtension allExtensions "github.copilot" with
     | Some copilotExtension =>
         if Extension.isActive copilotExtension
         then Se.call (registerCompletionItemProvider host)
         else Se.ret tt
     | None => Se.ret tt
     end)
    (fun _ => Se.ret tt).

(** [registerClineInterceptor] and [registerClaudeDevInterceptor] only look
    the extension up and log. *)
Definition registerClineInterceptor (allExtensions : list Extension.t)
  : Se.M AIEnhancementLayer.t unit :=
  Se.try_catch
    (match Activation.getExtension allExtensions "continue.continue" with
     | Some clineExtension => Se.ret tt
     | None => Se.ret tt
     end)
    (fun _ => Se.ret tt).

Definition registerClaudeDevInterceptor (allExtensions : list Extension.t)
  : Se.M AIEnhancementLayer.t unit :=
  Se.try_catch
    (match Activation.getExtension allExtensions "anthropic.claude-dev" with
     | Some claudeDevExtension => Se.ret tt
     | None => Se.ret tt
     end)
    (fun _ => Se.ret tt).

(** [registerGenericAIInterceptor]: the host call is not guarded. *)
Definition registerGenericAIInterceptor (host : Registrar)
  : Se.M AIEnhancementLayer.t unit :=
  Se.call (registerInlineCompletionItemProvider host).

Definition start (allExtensions : list Extension.t) (host : Registrar)
  : Se.M AIEnhancementLayer.t unit :=
  Se.modify (set_isActive true) ;;
  registerCopilotInterceptor allExtensions host ;;
  registerClineInterceptor allExtensions ;;
  registerClaudeDevInterceptor allExtensions ;;
  registerGenericAIInterceptor host.

(** [stop]; the interceptor map it clears is never written. *)
Definition stop : St.M AIEnhancementLayer.t unit :=
  St.modify (set_isActive false).

(** [enhanceCompletionItems] on the [detail] of each item. *)
Definition enhanceCompletionItems (details : list (option string))
  : list (option string) :=
  map (fun detail =>
         Some (Js.or_else detail EmptyString ++ " (Enhanced by KnowledgeHub)")%string)
    details.

End EnhancementLifecycle.

(** ** context-bridge.ts *)

Module AIProviderExtension.
Record t : Type := mk
  { id : string;
    name : string;
    displayName : string;
    extension : Extension.t;
    apiVersion : option string }.
End AIProviderExtension.

(** What the host and the bridged extension do during one bridging: the
    outcome of [vscode.languages.registerInlineCompletionItemProvider], and of
    the two methods of [extension.exports] ([None]: no exports, or no such
    method). *)
Module BridgeHost.
Record t : Type := mk
  { registerInlineCompletionItemProvider : Outcome.t unit;
    registerContextProvider : option (Outcome.t unit);
    addContextProvider : option (Outcome.t unit) }.
End BridgeHost.

Module ContextBridge.

Record t : Type := mk
  { bridgedProviders : JsMap.t AIProviderExtension.t }.

(** The constructor. *)
Definition new : t := mk [].

Definition set_bridged (k : string) (v : AIProviderExtension.t) (this : t) : t :=
  mk (JsMap.set k v (bridgedProviders this)).

Local Open Scope se_scope.

Definition bridgeToCopilot (host : BridgeHost.t) (extension : Extension.t)
  : Se.M t bool :=
  Se.try_catch
    (Se.call (BridgeHost.registerInlineCompletionItemProvider host) ;;
     Se.modify
       (set_bridged "github.copilot"
          (AIProviderExtension.mk "github.copilot" "copilot" "GitHub Copilot"
             extension (Some "1.0"))) ;;
     Se.ret true)
    (fun _ => Se.ret false).

Definition bridgeToCline (host : BridgeHost.t) (extension : Extension.t)
  : Se.M t bool :=
  Se.try_catch
    (match BridgeHost.registerContextProvider host with
     | Some registered => Se.call registered
     | None => Se.ret tt
     end ;;
     Se.modify
       (set_bridged "continue.continue"
          (AIProviderExtension.mk "continue.continue" "cline" "Cline"
             extension (Some "1.0"))) ;;
     Se.ret true)
    (fun _ => Se.ret false).

Definition bridgeToClaudeDev (host : BridgeHost.t) (extension : Extension.t)
  : Se.M t bool :=
  Se.try_catch
    (match BridgeHost.addContextProvider host with
     | Some added => Se.call added
     | None => Se.ret tt
     end ;;
     Se.modify
       (set_bridged "anthropic.claude-dev"
          (AIProviderExtension.mk "anthropic.claude-dev" "claude-dev"
             "Claude Dev" extension (Some "1.0"))) ;;
     Se.ret true)
    (fun _ => Se.ret false).

Definition bridgeToGenericAI (providerName : string) (extension : Extension.t)
  : Se.M t bool :=
  Se.try_catch
    (Se.modify
       (set_bridged providerName
          (AIProviderExtension.mk
             providerName
             (Js.or_else
                (Some (LiveContextStream.after_last_dot EmptyString providerName))
                providerName)
             (Js.or_else
                (PackageJSON.displayName (Extension.packageJSON extension))
                providerName)
             extension
             (Some "generic"))) ;;
     Se.ret true)
    (fun _ => Se.ret false).

Definition bridgeContextToAI (host : BridgeHost.t) (providerName : string)
  (extension : Extension.t) : Se.M t bool :=
  Se.try_catch
    (if String.eqb providerName "github.copilot"
     then bridgeToCopilot host extension
     else if String.eqb providerName "continue.continue"
     then bridgeToCline host extension
     else if String.eqb providerName "anthropic.claude-dev"
     then bridgeToClaudeDev host extension
     else bridgeToGenericAI providerName extension)
    (fun _ => Se.ret false).

Definition getBridgedProviders (this : t) : list AIProviderExtension.t :=
  JsMap.values (bridgedProviders this).

Definition isBridged (this : t) (providerId : string) : bool :=
  JsMap.has providerId (bridgedProviders this).

End ContextBridge.

(** ** The extension's entry points ([KnowledgeHubExtension])

    The output channel and the message boxes are not part of the state. *)

Module KnowledgeHubExtension.

Record t : Type := mk
  { aiEnhancementLayer : AIEnhancementLayer.t;
    contextBridge : ContextBridge.t;
    liveContextStream : LiveContextStream.t }.

(** What the knowledge service, the configuration and the host do during
    [activate]. *)
Record Environment : Type := mkEnvironment
  { testConnection : Outcome.t bool;
    initializeAISession : Outcome.t unit;
    registerCommand : Outcome.t unit;     (* the five [registerCommand] calls *)
    autoEnhance : bool;                   (* [config.get('ai.autoEnhance', true)] *)
    registrar : EnhancementLifecycle.Registrar;
    allExtensions : list Extension.t;     (* [vscode.extensions.all] *)
    localeCompare : string -> string -> Z;
    (* [Some error]: a manifest the detection pass reads holds a field whose
       type is not the one the detector's helpers declare (commands that is
       one object, keywords that is a string, ...), and reading it throws
       [error]; [None]: the manifests are as [allExtensions] has them *)
    detectionFault : option string;
    bridgeHost : DetectedAIProvider.t -> BridgeHost.t }.

(** The constructor, for a given client. *)
Definition new (knowledgeHubClient : AIEnhancementLayer.KnowledgeHubClient)
  : t :=
  mk (AIEnhancementLayer.mk knowledgeHubClient false)
     ContextBridge.new
     LiveContextStream.new.

Definition set_aiEnhancementLayer (v : AIEnhancementLayer.t) (this : t) : t :=
  mk v (contextBridge this) (liveContextStream this).
Definition set_contextBridge (v : ContextBridge.t) (this : t) : t :=
  mk (aiEnhancementLayer this) v (liveContextStream this).
Definition set_liveContextStream (v : LiveContextStream.t) (this : t) : t :=
  mk (aiEnhancementLayer this) (contextBridge this) v.

Local Open Scope se_scope.

Definition onLayer {A : Type} (c : Se.M AIEnhancementLayer.t A) : Se.M t A :=
  Se.zoom aiEnhancementLayer set_aiEnhancementLayer c.
Definition onBridge {A : Type} (c : Se.M ContextBridge.t A) : Se.M t A :=
  Se.zoom contextBridge set_contextBridge c.
Definition onStream {A : Type} (c : Se.M LiveContextStream.t A) : Se.M t A :=
  Se.zoom liveContextStream set_liveContextStream c.

Definition initializeKnowledgeHub (env : Environment) : Se.M t unit :=
  isConnected <- Se.call (testConnection env) ;;
  if negb isConnected
  then Se.throw
         "Cannot connect to KnowledgeHub server. Please check configuration."
  else Se.call (initializeAISession env).

Definition registerCommands (env : Environment) : Se.M t unit :=
  Se.call (registerCommand env).

Definition startAIEnhancement (env : Environment) : Se.M t unit :=
  if autoEnhance env
  then onLayer (EnhancementLifecycle.start (allExtensions env) (registrar env))
  else Se.ret tt.

Definition startContextTracking : Se.M t unit :=
  onStream (Se.total LiveContextStream.startContextTracking).

(** The loop of [registerAIInterceptors] over the detected providers. *)
Fixpoint bridgeAll (env : Environment)
  (providers : list DetectedAIProvider.t) : Se.M t unit :=
  match providers with
  | [] => Se.ret tt
  | provider :: rest =>
      Se.try_catch
        (_ <- onBridge
                (ContextBridge.bridgeContextToAI (bridgeHost env provider)
                   (DetectedAIProvider.name provider)
                   (DetectedAIProvider.extension provider)) ;;
         Se.ret tt)
        (fun _ => Se.ret tt) ;;
      bridgeAll env rest
  end.

(** [await this.aiProviderDetector.detectProviders()]. *)
Definition detectProviders_awaited (env : Environment)
  : Outcome.t (list DetectedAIProvider.t) :=
  match detectionFault env with
  | Some error => Outcome.thrown error
  | None =>
      Outcome.returned
        (AIProviderDetector.detectProviders (localeCompare env)
           (allExtensions env))
  end.

(** The awaited detection is outside the [try] of the loop. *)
Definition registerAIInterceptors (env : Environment) : Se.M t unit :=
  availableProviders <- Se.call (detectProviders_awaited env) ;;
  bridgeAll env availableProviders.

Definition activate (env : Environment) : Se.M t unit :=
  Se.try_catch
    (initializeKnowledgeHub env ;;
     registerCommands env ;;
     startAIEnhancement env ;;
     startContextTracking ;;
     registerAIInterceptors env)
    (fun _ => Se.ret tt).

Definition deactivate : St.M t unit :=
  St.bind (St.zoom liveContextStream set_liveContextStream LiveContextStream.stop)
    (fun _ =>
       St.zoom aiEnhancementLayer set_aiEnhancementLayer
         EnhancementLifecycle.stop).

End KnowledgeHubExtension.

(* ================================================================== *)
(** * Part II: vocabulary of the statements, and example inputs         *)
(* ================================================================== *)

Module Terms.

(** [sub] occurs in [s]. *)
Definition occurs (sub s : string) : Prop :=
  exists pre post, s = (pre ++ sub ++ post)%string.

(** [a] is not after [b] for the comparator [cmp]. *)
Definition le {A : Type} (cmp : A -> A -> Z) (a b : A) : Prop :=
  (cmp a b <= 0)%Z.

Definition b2n (b : bool) : nat := if b then 1 else 0.

(** The detection pass lists [extension] among the providers. *)
Definition classified (localeCompare : string -> string -> Z)
  (allExtensions : list Extension.t) (extension : Extension.t) : Prop :=
  exists d, In d (AIProviderDetector.detectProviders localeCompare allExtensions)
            /\ DetectedAIProvider.extension d = extension.

(** Boolean test for distinct strings, to settle tables by evaluation. *)
Fixpoint distinctb (l : list string) : bool :=
  match l with
  | [] => true
  | x :: l' => negb (existsb (String.eqb x) l') && distinctb l'
  end.

(** A case-insensitive collation: code-unit order of the lower-cased
    strings. *)
Fixpoint compare_codes (a b : string) : Z :=
  match a, b with
  | EmptyString, EmptyString => 0
  | EmptyString, String _ _ => -1
  | String _ _, EmptyString => 1
  | String x a', String y b' =>
      let d := (Z.of_nat (nat_of_ascii x) - Z.of_nat (nat_of_ascii y))%Z in
      if (d =? 0)%Z then compare_codes a' b' else d
  end.

Definition caseInsensitiveCompare (a b : string) : Z :=
  compare_codes (Js.toLowerCase a) (Js.toLowerCase b).

(** Strings of ASCII letters, digits, spaces and parentheses. *)
Definition plain_char (c : ascii) : bool :=
  let n := nat_of_ascii c in
  Nat.eqb n 32 || Nat.eqb n 40 || Nat.eqb n 41
  || (Nat.leb 48 n && Nat.leb n 57)
  || (Nat.leb 65 n && Nat.leb n 90)
  || (Nat.leb 97 n && Nat.leb n 122).

Fixpoint plain (s : string) : bool :=
  match s with
  | EmptyString => true
  | String c s' => plain_char c && plain s'
  end.

(** What a sequence of buffer operations ingested, list by list. *)
Definition ingested_changes (ops : list ContextBuffer.ingest)
  : list DocumentChange.t :=
  flat_map (fun op => match op with
                      | ContextBuffer.ingestChange change => [change]
                      | _ => []
                      end) ops.

Definition ingested_saves (ops : list ContextBuffer.ingest)
  : list SaveEvent.t :=
  flat_map (fun op => match op with
                      | ContextBuffer.ingestSave now file =>
                          [SaveEvent.mk file now]
                      | _ => []
                      end) ops.

Definition ingested_selections (ops : list ContextBuffer.ingest)
  : list SelectionChange.t :=
  flat_map (fun op => match op with
                      | ContextBuffer.ingestSelection selection => [selection]
                      | _ => []
                      end) ops.

(** The listeners of a tracking stream, in registration order. *)
Definition five_listeners : list LiveContextStream.Disposable :=
  [ LiveContextStream.onDidChangeTextDocument;
    LiveContextStream.onDidChangeActiveTextEditor;
    LiveContextStream.onDidSaveTextDocument;
    LiveContextStream.onDidChangeWorkspaceFolders;
    LiveContextStream.onDidChangeTextEditorSelection ].

(** What can happen to a stream: its two public methods and the host's
    notifications. *)
Inductive stream_command : Type :=
| doStart
| doStop
| doNotify (n : LiveContextStream.notification).

Definition stream_step (s : LiveContextStream.t) (c : stream_command)
  : LiveContextStream.t :=
  match c with
  | doStart => St.exec LiveContextStream.startContextTracking s
  | doStop => St.exec LiveContextStream.stop s
  | doNotify n => St.exec (LiveContextStream.deliver n) s
  end.

Definition drive (cs : list stream_command) (s : LiveContextStream.t)
  : LiveContextStream.t :=
  fold_left stream_step cs s.

(** The file and the edits of a buffered change, and of a forwarded call. *)
Definition edit_of (change : DocumentChange.t)
  : string * list TextDocumentContentChangeEvent.t :=
  (DocumentChange.file change, DocumentChange.changes change).

Definition forwarded_edit (c : LiveContextStream.KnowledgeHubCall)
  : string * list TextDocumentContentChangeEvent.t :=
  match c with
  | LiveContextStream.trackCodeChange file changes _ => (file, changes)
  end.

(** The file of the last [setCurrentFile] among [ops], if any. *)
Definition last_current_file (ops : list ContextBuffer.ingest) : string :=
  fold_left (fun acc op => match op with
                           | ContextBuffer.ingestCurrentFile file => file
                           | _ => acc
                           end) ops EmptyString.

(** [s] contains a dot. *)
Fixpoint has_dot (s : string) : bool :=
  match s with
  | EmptyString => false
  | String c s' => Ascii.eqb c "."%char || has_dot s'
  end.

(** The last character of a string. *)
Fixpoint last_char (s : string) : option ascii :=
  match s with
  | EmptyString => None
  | String c EmptyString => Some c
  | String _ s' => last_char s'
  end.

(** The host lets the bridging of [providerName] through: the call the
    bridge makes for that provider, if any, returns. *)
Definition host_accepts (host : BridgeHost.t) (providerName : string) : bool :=
  let returns (o : Outcome.t unit) :=
    match o with
    | Outcome.returned _ => true
    | Outcome.thrown _ => false
    end in
  if String.eqb providerName "github.copilot"
  then returns (BridgeHost.registerInlineCompletionItemProvider host)
  else if String.eqb providerName "continue.continue"
  then match BridgeHost.registerContextProvider host with
       | Some o => returns o
       | None => true
       end
  else if String.eqb providerName "anthropic.claude-dev"
  then match BridgeHost.addContextProvider host with
       | Some o => returns o
       | None => true
       end
  else true.

(** A sequence of [bridgeContextToAI] calls. *)
Definition bridge_call : Type := (BridgeHost.t * string * Extension.t)%type.

Definition bridge_step (this : ContextBridge.t) (c : bridge_call)
  : ContextBridge.t :=
  let '(host, providerName, extension) := c in
  Se.exec (ContextBridge.bridgeContextToAI host providerName extension) this.

Definition bridge_run (cs : list bridge_call) (this : ContextBridge.t)
  : ContextBridge.t :=
  fold_left bridge_step cs this.

(** The invariant that ties the buffer to the forwarded calls. *)
Definition forwarded (s : LiveContextStream.t) : Prop :=
  ContextBuffer.maxBufferSize (LiveContextStream.contextBuffer s) = 100
  /\ length (ContextBuffer.changes (LiveContextStream.contextBuffer s)) <= 100
  /\ length (ContextBuffer.saves (LiveContextStream.contextBuffer s)) <= 50
  /\ length (ContextBuffer.selections (LiveContextStream.contextBuffer s)) <= 20
  /\ map edit_of (ContextBuffer.changes (LiveContextStream.contextBuffer s))
     = Js.slice_last 100 (map forwarded_edit (LiveContextStream.knowledgeHub s)).

(** The entry that [bridgeContextToAI] stores for [providerName]. *)
Definition bridge_entry (providerName : string) (extension : Extension.t)
  : AIProviderExtension.t :=
  if String.eqb providerName "github.copilot"
  then AIProviderExtension.mk "github.copilot" "copilot" "GitHub Copilot"
         extension (Some "1.0")
  else if String.eqb providerName "continue.continue"
  then AIProviderExtension.mk "continue.continue" "cline" "Cline"
         extension (Some "1.0")
  else if String.eqb providerName "anthropic.claude-dev"
  then AIProviderExtension.mk "anthropic.claude-dev" "claude-dev" "Claude Dev"
         extension (Some "1.0")
  else AIProviderExtension.mk providerName
         (Js.or_else
            (Some (LiveContextStream.after_last_dot EmptyString providerName))
            providerName)
         (Js.or_else
            (PackageJSON.displayName (Extension.packageJSON extension))
            providerName)
         extension (Some "generic").

(** Every key of the map is the id of its entry, and no key is repeated. *)
Definition well_keyed (this : ContextBridge.t) : Prop :=
  NoDup (JsMap.keys (ContextBridge.bridgedProviders this))
  /\ forall k v, In (k, v) (ContextBridge.bridgedProviders this) ->
                 AIProviderExtension.id v = k.

(** One turn of the loop of [registerAIInterceptors], on the bridge. *)
Definition bridge_provider (env : KnowledgeHubExtension.Environment)
  (bridge : ContextBridge.t) (provider : DetectedAIProvider.t)
  : ContextBridge.t :=
  Se.exec
    (ContextBridge.bridgeContextToAI
       (KnowledgeHubExtension.bridgeHost env provider)
       (DetectedAIProvider.name provider)
       (DetectedAIProvider.extension provider))
    bridge.

(** A call returns. *)
Definition returns {A : Type} (o : Outcome.t A) : bool :=
  match o with
  | Outcome.returned _ => true
  | Outcome.thrown _ => false
  end.

(** The first two steps of [activate] go through: the service is reachable,
    the session is initialised and the commands are registered. *)
Definition prelude_ok (env : KnowledgeHubExtension.Environment) : bool :=
  match KnowledgeHubExtension.testConnection env with
  | Outcome.returned true =>
      returns (KnowledgeHubExtension.initializeAISession env)
      && returns (KnowledgeHubExtension.registerCommand env)
  | _ => false
  end.

(** The enhancement layer starts without throwing, or is not started. *)
Definition layer_ok (env : KnowledgeHubExtension.Environment) : bool :=
  negb (KnowledgeHubExtension.autoEnhance env)
  || returns
       (EnhancementLifecycle.registerInlineCompletionItemProvider
          (KnowledgeHubExtension.registrar env)).

End Terms.

Module Examples.

(** An extension whose description and display name both mention AI, and
    nothing else. *)
Definition two_text_fields : Extension.t :=
  Extension.mk "acme.helper" false
    (PackageJSON.mk (Some "AI Helper") (Some "An AI tool")
       None None None None).

(** An extension with an AI category that contributes a language. *)
Definition category_and_language : Extension.t :=
  Extension.mk "acme.syntax" false
    (PackageJSON.mk (Some "Acme Syntax") (Some "Syntax colours for Acme")
       None (Some ["Productivity"]) None
       (Some (Contributes.mk None Js.undefined Js.undefined Js.object))).

(** An allow-listed extension whose own metadata says nothing of AI. *)
Definition copilot_installed : Extension.t :=
  Extension.mk "github.copilot" false
    (PackageJSON.mk (Some "Copilot") None (Some ["keymap"])
       (Some ["Themes"]) None None).

(** Two allow-listed extensions and two unknown ones, in no particular
    order. *)
Definition installed : list Extension.t :=
  [ category_and_language;
    Extension.mk "codeium.codeium" true
      (PackageJSON.mk None None None None (Some "1.2.3") None);
    two_text_fields;
    copilot_installed ].



(** One installed, inactive extension. *)
Definition dormant : list Extension.t :=
  [Extension.mk "acme.helper" false
     (PackageJSON.mk None None None None None None)].

(** The change event ingested at clock reading [i]. *)
Definition change_at (i : nat) : DocumentChange.t :=
  DocumentChange.mk "/work/app.ts" [] (Z.of_nat i) "typescript".

(** A buffer holding one change, made at clock reading 1000. *)
Definition one_change : ContextBuffer.t :=
  St.exec
    (ContextBuffer.addChange
       (DocumentChange.mk "/work/app.ts" [] 1000 "typescript"))
    ContextBuffer.new.

(** A file-backed document and an edit to it. *)
Definition app_ts : TextDocument.t :=
  TextDocument.mk "file" "/work/app.ts" "typescript" 40.

Definition an_edit : TextDocumentChangeEvent.t :=
  TextDocumentChangeEvent.mk app_ts
    [TextDocumentContentChangeEvent.mk 12 0 "x"].

(** A stream that was started and has buffered one edit. *)
Definition tracking : LiveContextStream.t :=
  St.exec (LiveContextStream.onDocumentChange 1000 1001 an_edit)
    (St.exec LiveContextStream.startContextTracking LiveContextStream.new).

(** A stream that was switched off while its listeners stay registered. *)
Definition flag_cleared : LiveContextStream.t :=
  LiveContextStream.set_isActive false tracking.

(** No editor, no folder, no document, no git. *)
Definition empty_host : Host.t := Host.mk None [] [] None.

(** The context of the repository's enhancement test. *)
Definition example_context : EnhancedContext.t :=
  EnhancedContext.mk "E-commerce platform using Node.js and React"
    ["Use bcrypt for password hashing"]
    ["JWT authentication"; "Express middleware"]
    "main"
    ["Consider rate limiting for login attempts"].

Definition example_vscode : VSCodeContext.t :=
  VSCodeContext.mk "test.js" "/opt/projects/test" "main" [] [] None None.

(** A service that cannot be reached. *)
Definition unreachable : AIEnhancementLayer.KnowledgeHubClient :=
  fun _ => Outcome.thrown "connect ECONNREFUSED".

Definition add_two_numbers : AIRequest.t :=
  AIRequest.mk "Create a function to add two numbers" Js.object None None.

(** A host on which every registration succeeds, and one on which the
    inline-completion registration fails. *)
Definition willing_host : BridgeHost.t :=
  BridgeHost.mk (Outcome.returned tt) (Some (Outcome.returned tt)) None.

Definition refusing_host : BridgeHost.t :=
  BridgeHost.mk (Outcome.thrown "registration refused")
    (Some (Outcome.returned tt)) None.

(** An environment in which the service answers and the host cooperates. *)
Definition friendly_environment : KnowledgeHubExtension.Environment :=
  KnowledgeHubExtension.mkEnvironment
    (Outcome.returned true) (Outcome.returned tt) (Outcome.returned tt)
    true
    (EnhancementLifecycle.mkRegistrar (Outcome.returned tt) (Outcome.returned tt))
    installed
    Collation.localeCompare
    None
    (fun _ => willing_host).

(** The same, with a host whose inline-completion registration throws. *)
Definition hostile_registrar_environment : KnowledgeHubExtension.Environment :=
  KnowledgeHubExtension.mkEnvironment
    (Outcome.returned true) (Outcome.returned tt) (Outcome.returned tt)
    true
    (EnhancementLifecycle.mkRegistrar (Outcome.returned tt)
       (Outcome.thrown "registration refused"))
    installed
    Collation.localeCompare
    None
    (fun _ => willing_host).

(** The same as [friendly_environment], with a service that is down. *)
Definition offline_environment : KnowledgeHubExtension.Environment :=
  KnowledgeHubExtension.mkEnvironment
    (Outcome.returned false) (Outcome.returned tt) (Outcome.returned tt)
    true
    (EnhancementLifecycle.mkRegistrar (Outcome.returned tt) (Outcome.returned tt))
    installed
    Collation.localeCompare
    None
    (fun _ => willing_host).

(** An editor on [app_ts] whose selected text cannot be read. *)
Definition broken_editor : TextEditor.t :=
  TextEditor.mk app_ts
    (Selection.mk (Position.mk 0 0) (Position.mk 0 4))
    (Outcome.thrown "document closed").

(** A git extension with one repository on branch [feature/login]. *)
Definition on_feature_branch : Host.t :=
  Host.mk None [] []
    (Some (GitExtension.mk true (Outcome.returned [Some "feature/login"]))).

(** An edit to a document that is not on disk. *)
Definition untitled_edit : TextDocumentChangeEvent.t :=
  TextDocumentChangeEvent.mk
    (TextDocument.mk "untitled" "Untitled-1" "plaintext" 1)
    [TextDocumentContentChangeEvent.mk 0 0 "x"].

(** An extension that declares a completion provider and a chat command. *)
Definition completion_provider : Extension.t :=
  Extension.mk "acme.complete" true
    (PackageJSON.mk (Some "Acme Complete") None None None None
       (Some (Contributes.mk
                (Some [Command.mk (Some "acme.openChat") (Some "Open Chat")])
                Js.object Js.undefined Js.undefined))).

(** A workspace with two TypeScript documents and one JSON document open. *)
Definition three_documents : Host.t :=
  Host.mk None [WorkspaceFolder.mk "work" "/work"]
    [ TextDocument.mk "file" "/work/a.ts" "typescript" 10;
      TextDocument.mk "file" "/work/package.json" "json" 20;
      TextDocument.mk "file" "/work/b.ts" "typescript" 30 ]
    None.

(** The same as [friendly_environment], with a manifest that makes the
    detection pass throw. *)
Definition wrong_typed_environment : KnowledgeHubExtension.Environment :=
  KnowledgeHubExtension.mkEnvironment
    (Outcome.returned true) (Outcome.returned tt) (Outcome.returned tt)
    true
    (EnhancementLifecycle.mkRegistrar (Outcome.returned tt) (Outcome.returned tt))
    installed
    Collation.localeCompare
    (Some "TypeError: commands.some is not a function")
    (fun _ => willing_host).

End Examples.

(* ================================================================== *)
(** * Part III: properties                                              *)
(* ================================================================== *)

(** ** Strings and arrays *)

Module JsFacts.

Import Terms.

Lemma append_assoc (a b c : string) :
  ((a ++ b) ++ c = a ++ (b ++ c))%string.
Proof.
  induction a as [|x a IH]; simpl; [reflexivity | now rewrite IH].
Qed.

Lemma append_empty_r (a : string) : (a ++ EmptyString)%string = a.
Proof.
  induction a as [|x a IH]; simpl; [reflexivity | now rewrite IH].
Qed.

Lemma prefix_iff (p s : string) :
  String.prefix p s = true <-> exists r, s = (p ++ r)%string.
Proof.
  revert s; induction p as [|x p IH]; intros s.
  - destruct s; simpl; split; intros; eauto.
  - destruct s as [|y s]; simpl.
    + split; [discriminate | intros [r Hr]; discriminate].
    + destruct (ascii_dec x y) as [->|Hxy].
      * rewrite IH. split; intros [r Hr]; exists r; congruence.
      * split; [discriminate | intros [r Hr]; congruence].
Qed.

Lemma includes_unfold (s sub : string) :
  Js.includes s sub =
  if String.prefix sub s then true
  else match s with
       | EmptyString => false
       | String _ s' => Js.includes s' sub
       end.
Proof. destruct s; reflexivity. Qed.

Lemma includes_iff (s sub : string) :
  Js.includes s sub = true <-> occurs sub s.
Proof.
  induction s as [|c s IH]; rewrite includes_unfold.
  - destruct (String.prefix sub EmptyString) eqn:Hp.
    + split; [intros _ | reflexivity].
      apply prefix_iff in Hp. destruct Hp as [r Hr].
      exists EmptyString, r. exact Hr.
    + split; [discriminate |].
      intros [pre [post H]].
      destruct pre; [|discriminate].
      assert (String.prefix sub EmptyString = true) as Hq
        by (apply prefix_iff; exists post; exact H).
      congruence.
  - destruct (String.prefix sub (String c s)) eqn:Hp.
    + split; [intros _ | reflexivity].
      apply prefix_iff in Hp. destruct Hp as [r Hr].
      exists EmptyString, r. exact Hr.
    + rewrite IH. split.
      * intros [pre [post H]]. exists (String c pre), post.
        simpl. now rewrite H.
      * intros [pre [post H]]. destruct pre as [|x pre].
        -- assert (String.prefix sub (String c s) = true) as Hq
             by (apply prefix_iff; exists post; exact H).
           congruence.
        -- simpl in H. injection H as _ H. exists pre, post. exact H.
Qed.

Lemma occurs_refl (s : string) : occurs s s.
Proof.
  exists EmptyString, EmptyString. simpl. now rewrite append_empty_r.
Qed.

Lemma occurs_trans (a b c : string) : occurs a b -> occurs b c -> occurs a c.
Proof.
  intros [p1 [q1 H1]] [p2 [q2 H2]]. subst.
  exists (p2 ++ p1)%string, (q1 ++ q2)%string.
  now rewrite !append_assoc.
Qed.

Lemma occurs_append_l (x a b : string) : occurs x a -> occurs x (a ++ b)%string.
Proof.
  intros [p [q H]]. subst. exists p, (q ++ b)%string.
  now rewrite !append_assoc.
Qed.

Lemma occurs_append_r (x a b : string) : occurs x b -> occurs x (a ++ b)%string.
Proof.
  intros [p [q H]]. subst. exists (a ++ p)%string, q.
  now rewrite !append_assoc.
Qed.

(** Every element of a joined array occurs in the result. *)
Lemma occurs_concat (sep x : string) (l : list string) :
  In x l -> occurs x (String.concat sep l).
Proof.
  induction l as [|y l IH]; intros Hin; [contradiction|].
  destruct l as [|z l].
  - destruct Hin as [->|[]]. apply occurs_refl.
  - change (String.concat sep (y :: z :: l))
      with (y ++ sep ++ String.concat sep (z :: l))%string.
    destruct Hin as [->|Hin].
    + apply occurs_append_l, occurs_refl.
    + apply occurs_append_r, occurs_append_r, IH, Hin.
Qed.

Lemma slice_last_length {A : Type} (n : nat) (l : list A) :
  length (Js.slice_last n l) = Nat.min n (length l).
Proof.
  unfold Js.slice_last. rewrite length_skipn. lia.
Qed.

Lemma slice_last_all {A : Type} (n : nat) (l : list A) :
  length l <= n -> Js.slice_last n l = l.
Proof.
  intros H. unfold Js.slice_last.
  replace (length l - n) with 0 by lia. reflexivity.
Qed.

(** The last [n] of the last [n + k]. *)
Lemma slice_last_app {A : Type} (n : nat) (l : list A) (x : A) :
  0 < n ->
  Js.slice_last n (Js.slice_last n l ++ [x]) = Js.slice_last n (l ++ [x]).
Proof.
  intros Hn. unfold Js.slice_last.
  rewrite !length_app, length_skipn. simpl.
  destruct (Nat.le_gt_cases (length l) n) as [Hle|Hgt].
  - replace (length l - n) with 0 by lia. simpl.
    now replace (length l - 0) with (length l) by lia.
  - set (k := length l - n).
    replace (length l - k + 1 - n) with 1 by lia.
    replace (length l + 1 - n) with (1 + k) by lia.
    rewrite <- (skipn_skipn 1 k (l ++ [x])). f_equal.
    rewrite skipn_app. replace (k - length l) with 0 by lia. reflexivity.
Qed.

Section SortFacts.
Context {A : Type} (cmp : A -> A -> Z).

Lemma sort_insert_perm (x : A) (l : list A) :
  Permutation (Js.sort_insert cmp x l) (x :: l).
Proof.
  induction l as [|y l IH]; simpl; [reflexivity|].
  destruct (cmp x y <=? 0)%Z; [reflexivity|].
  rewrite IH. apply perm_swap.
Qed.

Lemma sort_perm (l : list A) : Permutation (Js.sort cmp l) l.
Proof.
  induction l as [|x l IH]; simpl; [reflexivity|].
  rewrite sort_insert_perm. now constructor.
Qed.

(** A consistent comparator. *)
Hypothesis cmp_total : forall a b, (0 < cmp a b)%Z -> (cmp b a <= 0)%Z.
Hypothesis cmp_trans :
  forall a b c, (cmp a b <= 0)%Z -> (cmp b c <= 0)%Z -> (cmp a c <= 0)%Z.



End SortFacts.

End JsFacts.

(** ** The host collation *)

Module CollationFacts.

Import Collation Terms.












(** The display names of the allow-list are plain. *)
Lemma known_display_names_plain :
  forallb (fun entry => plain (AIProviderInfo.displayName (snd entry)))
    AIProviderDetector.knownProviders = true.
Proof. reflexivity. Qed.

End CollationFacts.

(** ** The provider detector *)

Module DetectorFacts.

Import AIProviderDetector Terms.

Lemma count_true_sum (l : list bool) :
  Js.count_true l = list_sum (map b2n l).
Proof.
  unfold Js.count_true.
  induction l as [|b l IH]; simpl; [reflexivity|].
  destruct b; simpl; now rewrite IH.
Qed.

Lemma map_get_In (m : list (string * AIProviderInfo.t)) (k : string)
  (v : AIProviderInfo.t) :
  map_get m k = Some v -> In (k, v) m.
Proof.
  induction m as [|[k' v'] m IH]; simpl; [discriminate|].
  destruct (String.eqb_spec k' k) as [->|Hne].
  - intros [= ->]. now left.
  - intros H. right. now apply IH.
Qed.

Lemma In_map_get (m : list (string * AIProviderInfo.t)) (k : string)
  (v : AIProviderInfo.t) :
  NoDup (map fst m) -> In (k, v) m -> map_get m k = Some v.
Proof.
  induction m as [|[k' v'] m IH]; simpl; [contradiction|].
  intros Hnd [Heq|Hin].
  - injection Heq as -> ->. now rewrite String.eqb_refl.
  - inversion Hnd as [|? ? Hnotin Hnd']; subst.
    destruct (String.eqb_spec k' k) as [->|Hne].
    + exfalso. apply Hnotin. change k with (fst (k, v)). now apply in_map.
    + now apply IH.
Qed.

Lemma distinctb_NoDup (l : list string) : distinctb l = true -> NoDup l.
Proof.
  induction l as [|x l IH]; simpl; intros H; constructor.
  - apply andb_prop in H. destruct H as [H _].
    intros Hin. apply negb_true_iff in H.
    assert (existsb (String.eqb x) l = true) as E.
    { apply existsb_exists. exists x. split; [exact Hin|].
      apply String.eqb_refl. }
    congruence.
  - apply IH. apply andb_prop in H. tauto.
Qed.

Lemma knownProviders_keys_distinct : NoDup (map fst knownProviders).
Proof. apply distinctb_NoDup. vm_compute. reflexivity. Qed.

Lemma detectKnown_In (table : list (string * AIProviderInfo.t))
  (exts : list Extension.t) (d : DetectedAIProvider.t) :
  In d (detectKnown table exts) <->
  exists k info ext,
    In (k, info) table
    /\ find (fun e => String.eqb (Extension.id e) k) exts = Some ext
    /\ d = known_descriptor k info ext.
Proof.
  induction table as [|[k info] table IH]; simpl.
  - split; [contradiction | intros (?&?&?&[]&_)].
  - destruct (find (fun e => String.eqb (Extension.id e) k) exts)
      as [ext|] eqn:F; simpl; rewrite IH; split.
    + intros [<-|(k'&i'&e'&H1&H2&H3)].
      * exists k, info, ext. auto.
      * exists k', i', e'. auto.
    + intros (k'&i'&e'&[Heq|H1]&H2&H3).
      * injection Heq as <- <-. left. rewrite F in H2. congruence.
      * right. exists k', i', e'. auto.
    + intros (k'&i'&e'&H1&H2&H3). exists k', i', e'. auto.
    + intros (k'&i'&e'&[Heq|H1]&H2&H3).
      * injection Heq as <- <-. rewrite F in H2. discriminate.
      * exists k', i', e'. auto.
Qed.

Lemma detectUnknown_In (exts : list Extension.t) (d : DetectedAIProvider.t) :
  In d (detectUnknownAIProviders exts) <->
  exists ext,
    In ext exts
    /\ isKnownProvider (Extension.id ext) = false
    /\ isLikelyAIProvider ext = true
    /\ d = unknown_descriptor ext.
Proof.
  induction exts as [|e exts IH]; simpl.
  - split; [contradiction | intros (?&[]&_)].
  - destruct (isKnownProvider (Extension.id e)) eqn:K;
      [|destruct (isLikelyAIProvider e) eqn:L]; simpl; rewrite IH; split.
    + intros (x&H1&H2). exists x. tauto.
    + intros (x&[->|H1]&H2&H3); [congruence | exists x; tauto].
    + intros [<-|(x&H1&H2)]; [exists e; tauto | exists x; tauto].
    + intros (x&[->|H1]&H2&H3&H4); [now left | right; exists x; tauto].
    + intros (x&H1&H2). exists x. tauto.
    + intros (x&[->|H1]&H2&H3&H4); [congruence | exists x; tauto].
Qed.

Lemma detectProviders_In (cmp : string -> string -> Z)
  (exts : list Extension.t) (d : DetectedAIProvider.t) :
  In d (detectProviders cmp exts) <->
  In d (detectKnown knownProviders exts)
  \/ In d (detectUnknownAIProviders exts).
Proof.
  unfold detectProviders. rewrite <- in_app_iff. split; intros H.
  - eapply Permutation_in; [apply JsFacts.sort_perm | exact H].
  - eapply Permutation_in; [symmetry; apply JsFacts.sort_perm | exact H].
Qed.

Lemma find_id_some (exts : list Extension.t) (k : string) (ext : Extension.t) :
  find (fun e => String.eqb (Extension.id e) k) exts = Some ext ->
  In ext exts /\ Extension.id ext = k.
Proof.
  intros H. apply find_some in H. destruct H as [H1 H2].
  split; [exact H1 | now apply String.eqb_eq].
Qed.

Lemma find_id_present (exts : list Extension.t) (ext : Extension.t) :
  In ext exts ->
  exists ext', find (fun e => String.eqb (Extension.id e) (Extension.id ext))
                 exts = Some ext'.
Proof.
  intros Hin.
  destruct (find (fun e => String.eqb (Extension.id e) (Extension.id ext)) exts)
    as [ext'|] eqn:F; [eauto|].
  exfalso. pose proof (find_none _ _ F ext Hin) as H. simpl in H.
  now rewrite String.eqb_refl in H.
Qed.

Lemma known_key_isKnown (k : string) (info : AIProviderInfo.t) :
  In (k, info) knownProviders -> isKnownProvider k = true.
Proof.
  intros H. unfold isKnownProvider, getProviderInfo.
  now rewrite (In_map_get _ _ _ knownProviders_keys_distinct H).
Qed.



Lemma NoDup_app_disjoint {A : Type} (l1 l2 : list A) :
  NoDup l1 -> NoDup l2 -> (forall x, In x l1 -> In x l2 -> False) ->
  NoDup (l1 ++ l2).
Proof.
  induction l1 as [|a l1 IH]; simpl; intros H1 H2 Hd; [exact H2|].
  inversion H1 as [|? ? Hnotin H1']; subst. constructor.
  - rewrite in_app_iff. intros [H|H]; [now apply Hnotin|].
    apply (Hd a); [now left | exact H].
  - apply IH; auto. intros x Hx. apply Hd. now right.
Qed.

End DetectorFacts.

Module DetectorSpec.

Import AIProviderDetector Terms Examples DetectorFacts.

Lemma classified_unknown_iff (cmp : string -> string -> Z)
  (exts : list Extension.t) (ext : Extension.t) :
  In ext exts ->
  isKnownProvider (Extension.id ext) = false ->
  (classified cmp exts ext <-> isLikelyAIProvider ext = true).
Proof.
  intros Hin Hk. unfold classified. split.
  - intros (d&Hd&He). apply detectProviders_In in Hd. destruct Hd as [Hd|Hd].
    + apply detectKnown_In in Hd. destruct Hd as (k&info&e&H1&H2&->).
      simpl in He. subst e. apply find_id_some in H2. destruct H2 as [_ H2].
      apply known_key_isKnown in H1. congruence.
    + apply detectUnknown_In in Hd. destruct Hd as (e&_&_&HL&->).
      simpl in He. now subst e.
  - intros HL. exists (unknown_descriptor ext). split; [|reflexivity].
    apply detectProviders_In. right. apply detectUnknown_In.
    exists ext. auto.
Qed.

(** Claim C1, as the code has it.  An extension outside the allow-list is
    listed by the detection pass exactly when at least two of the six entries
    of the [indicators] array hold: an AI term in the description, in the
    display name, in the joined keywords (each counted on its own), an AI
    category, an AI command, and a [completionProviders],
    [inlineCompletionProviders] or [languages] contribution.  Hence an
    extension with two or more of the four indicators of the specification is
    always listed. *)
Theorem unknown_classified_iff_two_of_six
  (localeCompare : string -> string -> Z)
  (allExtensions : list Extension.t) (extension : Extension.t) :
  In extension allExtensions ->
  isKnownProvider (Extension.id extension) = false ->
  let packageJSON := Extension.packageJSON extension in
  (classified localeCompare allExtensions extension <->
   2 <= b2n (containsAIKeywords
               (Js.or_else (PackageJSON.description packageJSON) EmptyString))
        + b2n (containsAIKeywords
                 (Js.or_else (PackageJSON.displayName packageJSON) EmptyString))
        + b2n (containsAIKeywords
                 (Js.join " " (Js.or_nil (PackageJSON.keywords packageJSON))))
        + b2n (hasAICategory (Js.or_nil (PackageJSON.categories packageJSON)))
        + b2n (hasAICommands (contributed_commands packageJSON))
        + b2n (hasCompletionProviders (contributes_or_empty packageJSON)))
  /\ (2 <= Js.count_true (spec_indicators extension) ->
      classified localeCompare allExtensions extension).
Proof.
  intros Hin Hk packageJSON.
  rewrite (classified_unknown_iff localeCompare _ _ Hin Hk).
  unfold isLikelyAIProvider. rewrite Nat.leb_le, !count_true_sum.
  unfold indicators, spec_indicators, spec_indicator_terms,
    spec_indicator_category, spec_indicator_commands,
    spec_indicator_completion, hasCompletionProviders.
  subst packageJSON. cbn [map list_sum].
  set (packageJSON := Extension.packageJSON extension).
  destruct (containsAIKeywords
              (Js.or_else (PackageJSON.description packageJSON) EmptyString)),
    (containsAIKeywords
       (Js.or_else (PackageJSON.displayName packageJSON) EmptyString)),
    (containsAIKeywords
       (Js.join " " (Js.or_nil (PackageJSON.keywords packageJSON)))),
    (hasAICategory (Js.or_nil (PackageJSON.categories packageJSON))),
    (hasAICommands (contributed_commands packageJSON)),
    (Js.truthy
       (Contributes.completionProviders (contributes_or_empty packageJSON))),
    (Js.truthy
       (Contributes.inlineCompletionProviders
          (contributes_or_empty packageJSON))),
    (Js.truthy (Contributes.languages (contributes_or_empty packageJSON)));
    cbn; split; lia.
Qed.

Lemma unknown_classified_iff_two_of_six_witness :
  classified caseInsensitiveCompare
    [two_text_fields; category_and_language] category_and_language.
Proof.
  apply (proj1 (unknown_classified_iff_two_of_six caseInsensitiveCompare
                  [two_text_fields; category_and_language]
                  category_and_language
                  (or_intror (or_introl eq_refl)) eq_refl)).
  vm_compute. lia.
Defined.

(** Claim C1, as stated, fails: [two_text_fields] is outside the allow-list
    and has exactly one true indicator of the four (its text mentions AI), and
    the detection pass lists it. *)
Lemma one_spec_indicator_is_classified :
  isKnownProvider (Extension.id two_text_fields) = false
  /\ spec_indicators two_text_fields = [true; false; false; false]
  /\ Js.count_true (spec_indicators two_text_fields) = 1
  /\ detectUnknownAIProviders [two_text_fields]
     = [unknown_descriptor two_text_fields]
  /\ forall localeCompare,
       classified localeCompare [two_text_fields] two_text_fields.
Proof.
  repeat split; try reflexivity.
  intros cmp. exists (unknown_descriptor two_text_fields).
  split; [now left | reflexivity].
Qed.




(** Claim C3.  For every installed extension whose id is in the allow-list,
    whatever its own metadata, the detection pass emits a descriptor with that
    id whose capabilities are the table entry's, and every descriptor it emits
    with that id carries the entry's capabilities and display name. *)
Theorem known_extension_gets_table_capabilities
  (localeCompare : string -> string -> Z)
  (allExtensions : list Extension.t) (extension : Extension.t)
  (providerInfo : AIProviderInfo.t) :
  In extension allExtensions ->
  getProviderInfo (Extension.id extension) = Some providerInfo ->
  (exists d, In d (detectProviders localeCompare allExtensions)
             /\ DetectedAIProvider.id d = Extension.id extension
             /\ DetectedAIProvider.capabilities d
                = AIProviderInfo.capabilities providerInfo)
  /\ (forall d, In d (detectProviders localeCompare allExtensions) ->
                DetectedAIProvider.id d = Extension.id extension ->
                DetectedAIProvider.capabilities d
                = AIProviderInfo.capabilities providerInfo
                /\ DetectedAIProvider.displayName d
                   = AIProviderInfo.displayName providerInfo).
Proof.
  intros Hin Hget. split.
  - destruct (find_id_present _ _ Hin) as [ext' F].
    exists (known_descriptor (Extension.id extension) providerInfo ext').
    split; [|split; reflexivity].
    apply detectProviders_In. left. apply detectKnown_In.
    exists (Extension.id extension), providerInfo, ext'.
    split; [|split; [exact F | reflexivity]].
    now apply map_get_In.
  - intros d Hd Hid. apply detectProviders_In in Hd. destruct Hd as [Hd|Hd].
    + apply detectKnown_In in Hd. destruct Hd as (k&info&e&K&_&->).
      simpl in Hid. subst k.
      apply (In_map_get _ _ _ knownProviders_keys_distinct) in K.
      unfold getProviderInfo in Hget. rewrite K in Hget.
      injection Hget as ->. split; reflexivity.
    + apply detectUnknown_In in Hd. destruct Hd as (e&_&K&_&->).
      simpl in Hid. unfold isKnownProvider in K.
      rewrite Hid, Hget in K. discriminate.
Qed.

Lemma known_extension_gets_table_capabilities_witness :
  exists d, In d (detectProviders caseInsensitiveCompare installed)
            /\ DetectedAIProvider.id d = "github.copilot"
            /\ DetectedAIProvider.capabilities d
               = ["code-completion"; "inline-completion"; "chat"].
Proof.
  exact (proj1 (known_extension_gets_table_capabilities
                  caseInsensitiveCompare installed
                  copilot_installed
                  (AIProviderInfo.mk "github.copilot" "GitHub Copilot"
                     ["code-completion"; "inline-completion"; "chat"]
                     ["getCompletions"; "getInlineCompletions"])
                  (or_intror (or_intror (or_intror (or_introl eq_refl))))
                  eq_refl)).
Defined.

End DetectorSpec.

(** ** The context buffer *)

Module BufferFacts.

Import ContextBuffer Terms.

Ltac run_st :=
  cbv [St.exec St.eval St.bind St.modify St.get St.put St.ret St.zoom
       snd fst].

Lemma set_changes_twice (v w : list DocumentChange.t) (b : t) :
  set_changes v (set_changes w b) = set_changes v b.
Proof. reflexivity. Qed.

Lemma addChange_exec (change : DocumentChange.t) (b : t) :
  St.exec (addChange change) b
  = set_changes
      (Js.slice_last (maxBufferSize b) (changes b ++ [change])) b.
Proof.
  unfold addChange. run_st.
  cbv [set_changes changes maxBufferSize saves selections currentFile].
  destruct b as [cs ss sels cf m].
  destruct (Nat.ltb_spec m (length (cs ++ [change]))) as [H|H].
  - reflexivity.
  - now rewrite JsFacts.slice_last_all.
Qed.

Lemma addSaveEvent_exec (now : Z) (file : string) (b : t) :
  St.exec (addSaveEvent now file) b
  = set_saves (Js.slice_last 50 (saves b ++ [SaveEvent.mk file now])) b.
Proof.
  unfold addSaveEvent. run_st.
  cbv [set_saves changes maxBufferSize saves selections currentFile].
  destruct b as [cs ss sels cf m].
  destruct (Nat.ltb_spec 50 (length (ss ++ [SaveEvent.mk file now]))) as [H|H].
  - reflexivity.
  - now rewrite JsFacts.slice_last_all.
Qed.

Lemma addSelectionChange_exec (selection : SelectionChange.t) (b : t) :
  St.exec (addSelectionChange selection) b
  = set_selections (Js.slice_last 20 (selections b ++ [selection])) b.
Proof.
  unfold addSelectionChange. run_st.
  cbv [set_selections changes maxBufferSize saves selections currentFile].
  destruct b as [cs ss sels cf m].
  destruct (Nat.ltb_spec 20 (length (sels ++ [selection]))) as [H|H].
  - reflexivity.
  - now rewrite JsFacts.slice_last_all.
Qed.

Lemma setCurrentFile_exec (file : string) (b : t) :
  St.exec (setCurrentFile file) b = set_currentFile file b.
Proof. reflexivity. Qed.

Lemma run_snoc (ops : list ingest) (op : ingest) (b : t) :
  run (ops ++ [op]) b = St.exec (apply op) (run ops b).
Proof. unfold run. now rewrite fold_left_app. Qed.

Lemma slice_last_nil {A : Type} (n : nat) : Js.slice_last n (@nil A) = [].
Proof. unfold Js.slice_last. now rewrite skipn_nil. Qed.

(** The buffer after [ops], from a new buffer, field by field. *)
Lemma run_new_fields (ops : list ingest) :
  maxBufferSize (run ops new) = 100
  /\ changes (run ops new) = Js.slice_last 100 (ingested_changes ops)
  /\ saves (run ops new) = Js.slice_last 50 (ingested_saves ops)
  /\ selections (run ops new) = Js.slice_last 20 (ingested_selections ops).
Proof.
  induction ops as [|op ops IH] using rev_ind.
  - cbv [run fold_left new maxBufferSize changes saves selections
           ingested_changes ingested_saves ingested_selections flat_map].
    rewrite !slice_last_nil. auto.
  - destruct IH as (Hm & Hc & Hs & Hsel).
    rewrite run_snoc.
    unfold ingested_changes, ingested_saves, ingested_selections.
    rewrite !flat_map_app.
    fold (ingested_changes ops) (ingested_saves ops) (ingested_selections ops).
    destruct op as [change|now file|selection|file];
      cbv [apply flat_map]; rewrite ?app_nil_r.
    + rewrite addChange_exec, Hm.
      cbv [set_changes maxBufferSize changes saves selections].
      fold (maxBufferSize (run ops new)) (changes (run ops new))
        (saves (run ops new)) (selections (run ops new)).
      rewrite Hc, JsFacts.slice_last_app by lia. auto.
    + rewrite addSaveEvent_exec.
      cbv [set_saves maxBufferSize changes saves selections].
      fold (maxBufferSize (run ops new)) (changes (run ops new))
        (saves (run ops new)) (selections (run ops new)).
      rewrite Hs, JsFacts.slice_last_app by lia. auto.
    + rewrite addSelectionChange_exec.
      cbv [set_selections maxBufferSize changes saves selections].
      fold (maxBufferSize (run ops new)) (changes (run ops new))
        (saves (run ops new)) (selections (run ops new)).
      rewrite Hsel, JsFacts.slice_last_app by lia. auto.
    + rewrite setCurrentFile_exec.
      cbv [set_currentFile maxBufferSize changes saves selections].
      fold (maxBufferSize (run ops new)) (changes (run ops new))
        (saves (run ops new)) (selections (run ops new)).
      auto.
Qed.

Lemma ingested_changes_map (cs : list DocumentChange.t) :
  ingested_changes (map ingestChange cs) = cs.
Proof.
  unfold ingested_changes.
  induction cs as [|c cs IH]; simpl; [reflexivity | now rewrite IH].
Qed.

Lemma getRecentChanges_exec (now minutes : Z) (b : t) :
  St.exec (getRecentChanges now minutes) b = b.
Proof. reflexivity. Qed.

Lemma getRecentChanges_eval (now minutes : Z) (b : t) :
  St.eval (getRecentChanges now minutes) b
  = filter (fun change =>
              (now - minutes * 60 * 1000 <? DocumentChange.timestamp change)%Z)
      (changes b).
Proof. reflexivity. Qed.

Lemma filter_filter {A : Type} (f g : A -> bool) (l : list A) :
  filter f (filter g l) = filter (fun x => g x && f x) l.
Proof.
  induction l as [|x l IH]; simpl; [reflexivity|].
  destruct (g x); simpl; [destruct (f x)|]; now rewrite IH.
Qed.

End BufferFacts.

Module BufferSpec.

Import ContextBuffer Terms Examples BufferFacts.

(** Claim C4.  After any sequence of ingest operations on a new buffer the
    changes list holds at most 100 entries, the saves list at most 50 and the
    selections list at most 20; each list is the most recent part of what was
    ingested into it, in ingestion order; and ingesting 101 change events
    leaves all but the first of them. *)
Theorem buffer_capacity_fifo (ops : list ingest) :
  (length (changes (run ops new)) <= 100
   /\ length (saves (run ops new)) <= 50
   /\ length (selections (run ops new)) <= 20)
  /\ (changes (run ops new) = Js.slice_last 100 (ingested_changes ops)
      /\ saves (run ops new) = Js.slice_last 50 (ingested_saves ops)
      /\ selections (run ops new)
         = Js.slice_last 20 (ingested_selections ops))
  /\ (forall (first : DocumentChange.t) (rest : list DocumentChange.t),
        length rest = 100 ->
        changes (run (map ingestChange (first :: rest)) new) = rest).
Proof.
  destruct (run_new_fields ops) as (_ & Hc & Hs & Hsel).
  split; [|split].
  - rewrite Hc, Hs, Hsel, !JsFacts.slice_last_length. lia.
  - auto.
  - intros first rest Hlen.
    destruct (run_new_fields (map ingestChange (first :: rest)))
      as (_ & Hc' & _).
    rewrite Hc', ingested_changes_map.
    unfold Js.slice_last.
    replace (length (first :: rest) - 100) with 1
      by (cbn [length]; lia).
    reflexivity.
Qed.

Lemma buffer_capacity_fifo_witness :
  changes (run (map ingestChange (map change_at (seq 0 101))) new)
  = map change_at (seq 1 100).
Proof.
  exact (proj2 (proj2 (buffer_capacity_fifo []))
           (change_at 0) (map change_at (seq 1 100)) eq_refl).
Defined.

(** Claim C5, as the code has it.  [getRecentChanges] leaves the buffer as it
    found it; two calls that read the same clock value return equal results;
    and a second call at a later clock value returns those results of the
    first that are still inside its window. *)
Theorem getRecentChanges_pure (b : t) (minutes now1 now2 : Z) :
  St.exec (getRecentChanges now1 minutes) b = b
  /\ St.eval (getRecentChanges now1 minutes)
       (St.exec (getRecentChanges now1 minutes) b)
     = St.eval (getRecentChanges now1 minutes) b
  /\ ((now1 <= now2)%Z ->
      St.eval (getRecentChanges now2 minutes)
        (St.exec (getRecentChanges now1 minutes) b)
      = filter (fun change =>
                  (now2 - minutes * 60 * 1000
                   <? DocumentChange.timestamp change)%Z)
          (St.eval (getRecentChanges now1 minutes) b)).
Proof.
  rewrite !getRecentChanges_exec, !getRecentChanges_eval.
  split; [reflexivity | split; [reflexivity|]].
  intros Hle. rewrite filter_filter. apply filter_ext.
  intros c.
  destruct (Z.ltb_spec (now2 - minutes * 60 * 1000) (DocumentChange.timestamp c));
    destruct (Z.ltb_spec (now1 - minutes * 60 * 1000) (DocumentChange.timestamp c));
    simpl; try reflexivity; lia.
Qed.

Lemma getRecentChanges_pure_witness :
  St.eval (getRecentChanges_default 601000)
    (St.exec (getRecentChanges_default 600999) one_change)
  = filter (fun change => (1000 <? DocumentChange.timestamp change)%Z)
      (St.eval (getRecentChanges_default 600999) one_change).
Proof.
  exact (proj2 (proj2 (getRecentChanges_pure one_change 10 600999 601000))
           ltac:(lia)).
Defined.

(** Claim C5, as stated, fails: nothing is ingested between the two calls,
    yet the first returns the buffered change and the second, one millisecond
    later, returns nothing. *)
Lemma getRecentChanges_twice_differs :
  St.eval (getRecentChanges_default 600999) one_change
  = [DocumentChange.mk "/work/app.ts" [] 1000 "typescript"]
  /\ St.eval (getRecentChanges_default 601000)
       (St.exec (getRecentChanges_default 600999) one_change)
     = []
  /\ St.eval (getRecentChanges_default 601000)
       (St.exec (getRecentChanges_default 600999) one_change)
     <> St.eval (getRecentChanges_default 600999) one_change.
Proof.
  split; [reflexivity | split; [reflexivity | discriminate]].
Qed.

End BufferSpec.

(** ** The live context stream *)

Module StreamSpec.

Import LiveContextStream Examples.

Lemma stop_exec (s : t) :
  St.exec stop s
  = mk (contextBuffer s) [] false None (knowledgeHub s).
Proof.
  destruct s as [b ds a timer calls].
  unfold stop. BufferFacts.run_st.
  cbv [set_isActive set_disposables set_contextUpdateTimer contextBuffer
       disposables isActive contextUpdateTimer knowledgeHub].
  destruct timer; reflexivity.
Qed.

(** An inactive stream ignores every notification. *)
Lemma inactive_ignores (s : t) (n : notification) :
  isActive s = false -> St.exec (deliver n) s = s.
Proof.
  intros Hoff.
  destruct n as [now sent event|editor|now document| |now event|host now];
    cbv [deliver onDocumentChange onEditorChange onDocumentSave
         onWorkspaceFolderChange onSelectionChange updateContextPeriodically];
    BufferFacts.run_st; rewrite Hoff; reflexivity.
Qed.

Lemma inactive_stays_inactive (s : t) (n : notification) :
  isActive s = false -> isActive (St.exec (deliver n) s) = false.
Proof.
  intros Hoff. now rewrite inactive_ignores.
Qed.

(** Claim C6.  [stop] clears the [isActive] flag; a stream whose flag is
    clear is left unchanged by every handler, whether or not its listeners
    are still registered; so every sequence of notifications delivered after
    [stop] leaves the whole state, the buffer included, as [stop] left it. *)
Theorem events_after_stop_ignored (s : t) :
  isActive (St.exec stop s) = false
  /\ (forall (s' : t) (n : notification),
        isActive s' = false -> St.exec (deliver n) s' = s')
  /\ (forall ns : list notification,
        deliver_all ns (St.exec stop s) = St.exec stop s)
  /\ (forall ns : list notification,
        contextBuffer (deliver_all ns (St.exec stop s)) = contextBuffer s).
Proof.
  assert (forall ns, deliver_all ns (St.exec stop s) = St.exec stop s) as Hall.
  { intros ns. rewrite stop_exec.
    set (s0 := mk (contextBuffer s) [] false None (knowledgeHub s)).
    assert (isActive s0 = false) as Hoff by reflexivity.
    clearbody s0. unfold deliver_all.
    induction ns as [|n ns IH]; simpl; [reflexivity|].
    now rewrite inactive_ignores. }
  split; [now rewrite stop_exec|].
  split; [exact inactive_ignores|].
  split; [exact Hall|].
  intros ns. rewrite Hall, stop_exec. reflexivity.
Qed.

Lemma events_after_stop_ignored_witness :
  length (ContextBuffer.changes (contextBuffer tracking)) = 1
  /\ length (disposables flag_cleared) = 5
  /\ St.exec (deliver (documentChanged 2000 2001 an_edit)) flag_cleared
     = flag_cleared.
Proof.
  split; [reflexivity | split; [reflexivity|]].
  exact (proj1 (proj2 (events_after_stop_ignored new))
           flag_cleared (documentChanged 2000 2001 an_edit) eq_refl).
Defined.

(** Claim C10.  [stop] leaves the context buffer as it was: its changes,
    saves and selections lists and its current-file pointer; so the snapshot
    queries answer after [stop] what they answered before it. *)
Theorem stop_keeps_history (s : t) (host : Host.t) (now minutes : Z) :
  contextBuffer (St.exec stop s) = contextBuffer s
  /\ (ContextBuffer.changes (contextBuffer (St.exec stop s))
      = ContextBuffer.changes (contextBuffer s)
      /\ ContextBuffer.saves (contextBuffer (St.exec stop s))
         = ContextBuffer.saves (contextBuffer s)
      /\ ContextBuffer.selections (contextBuffer (St.exec stop s))
         = ContextBuffer.selections (contextBuffer s)
      /\ ContextBuffer.currentFile (contextBuffer (St.exec stop s))
         = ContextBuffer.currentFile (contextBuffer s))
  /\ St.eval (ContextBuffer.getRecentChanges now minutes)
       (contextBuffer (St.exec stop s))
     = St.eval (ContextBuffer.getRecentChanges now minutes) (contextBuffer s)
  /\ St.eval (getLatestContext host now) (St.exec stop s)
     = St.eval (getLatestContext host now) s.
Proof.
  rewrite stop_exec. destruct s as [b ds a timer calls].
  repeat split.
  unfold getLatestContext, getProjectState, getActivePatterns, onBuffer.
  BufferFacts.run_st. cbv [contextBuffer].
  destruct (Host.workspaceFolders host); reflexivity.
Qed.

(** After [stop], the edit buffered by [tracking] is still reported. *)
Example snapshot_after_stop :
  LiveContext.recentChanges
    (St.eval (getLatestContext empty_host 2000)
       (St.exec stop tracking))
  = [DocumentChange.mk "/work/app.ts"
       [TextDocumentContentChangeEvent.mk 12 0 "x"] 1000 "typescript"].
Proof. reflexivity. Qed.

End StreamSpec.

(** ** The enhancement layer *)

Module EnhancementSpec.

Import AIEnhancementLayer Terms Examples.

Lemma occurs_template (piece : string) (pieces : list string) :
  In piece pieces -> occurs piece (template pieces).
Proof. apply JsFacts.occurs_concat. Qed.




Ltac in_pieces := cbn [In]; repeat (first [left; reflexivity | right]).



(** Claim C9.  [enhanceAIRequest] always returns and never throws.  With the
    layer inactive, or when gathering the editor context throws, or when the
    call to the knowledge service throws, it returns the original request as
    it was; otherwise it returns the original request with the three
    enhancement fields added. *)
Theorem enhanceAIRequest_total (this : t) (host : Host.t)
  (configured : option string) (originalRequest : AIRequest.t) :
  (exists r, enhanceAIRequest this host configured originalRequest
             = Outcome.returned r
             /\ EnhancedAIRequest.request r = originalRequest)
  /\ (isActive this = false ->
      enhanceAIRequest this host configured originalRequest
      = Outcome.returned (as_enhanced originalRequest))
  /\ (forall error,
        gatherVSCodeContext host = Outcome.thrown error ->
        enhanceAIRequest this host configured originalRequest
        = Outcome.returned (as_enhanced originalRequest))
  /\ (forall vscodeContext error,
        gatherVSCodeContext host = Outcome.returned vscodeContext ->
        knowledgeHub this
          (ContextQuery.mk (AIRequest.prompt originalRequest)
             (VSCodeContext.activeFile vscodeContext)
             (VSCodeContext.workspaceRoot vscodeContext)
             (VSCodeContext.recentChanges vscodeContext))
        = Outcome.thrown error ->
        enhanceAIRequest this host configured originalRequest
        = Outcome.returned (as_enhanced originalRequest)).
Proof.
  unfold enhanceAIRequest.
  split; [|split; [|split]].
  - destruct (isActive this); cbn [negb].
    + destruct (gatherVSCodeContext host) as [vs|e]; cbn.
      * destruct (knowledgeHub this _) as [kh|e]; cbn; eauto.
      * eauto.
    + eauto.
  - intros ->. reflexivity.
  - intros error ->. destruct (isActive this); reflexivity.
  - intros vs error -> Hkh. destruct (isActive this); cbn; [|reflexivity].
    now rewrite Hkh.
Qed.

Lemma enhanceAIRequest_total_witness :
  enhanceAIRequest (mk unreachable true) empty_host None add_two_numbers
  = Outcome.returned (as_enhanced add_two_numbers).
Proof.
  exact (proj2 (proj2 (proj2
           (enhanceAIRequest_total (mk unreachable true)
              empty_host None add_two_numbers)))
           (VSCodeContext.mk EmptyString EmptyString "main" [] [] None None)
           "connect ECONNREFUSED" eq_refl eq_refl).
Defined.

End EnhancementSpec.

(** ** Waiting for a provider to activate *)

Module ActivationSpec.

Import Activation Examples.

(** A settled wait stays as it is, whatever callback runs. *)
Lemma settled_is_final (callbacks : list callback) (w : t) (b : bool) :
  result w = Promise.fulfilled b ->
  result (fold_left run callbacks w) = Promise.fulfilled b.
Proof.
  revert w; induction callbacks as [|cb callbacks IH]; intros w Hw;
    [exact Hw|].
  cbn [fold_left]. apply IH.
  destruct w as [r armed]; cbn [result] in Hw; subst r.
  destruct cb, armed; reflexivity.
Qed.

Lemma first_callback_decides (cb : callback) (rest : list callback) :
  result (fold_left run (cb :: rest) started)
  = Promise.fulfilled
      (match cb with
       | activateFulfilled => true
       | timerFired | activateRejected => false
       end).
Proof.
  cbn [fold_left]. apply settled_is_final. destruct cb; reflexivity.
Qed.

(** Claim C8.  [waitForProviderActivation] never rejects, and it resolves to
    a boolean as soon as one callback has run: [false] for an extension that
    is not installed, [true] for one already active, and otherwise what the
    first callback to run says ([true] for a fulfilled activation, which also
    clears the timer; [false] for a rejected activation or for the timer),
    whatever runs after it.  So an activation fulfilled before the timeout
    gives [true]; one rejected before it, one that settles after it, and one
    that never settles give [false]. *)
Theorem waitForProviderActivation_boolean
  (allExtensions : list Extension.t) (providerId : string) :
  (forall callbacks reason,
     waitForProviderActivation allExtensions providerId callbacks
     <> Promise.rejected reason)
  /\ (forall cb rest, exists b,
        waitForProviderActivation allExtensions providerId (cb :: rest)
        = Promise.fulfilled b)
  /\ (forall callbacks,
        getExtension allExtensions providerId = None ->
        waitForProviderActivation allExtensions providerId callbacks
        = Promise.fulfilled false)
  /\ (forall extension cb rest,
        getExtension allExtensions providerId = Some extension ->
        waitForProviderActivation allExtensions providerId (cb :: rest)
        = Promise.fulfilled
            (if Extension.isActive extension then true
             else match cb with
                  | activateFulfilled => true
                  | timerFired | activateRejected => false
                  end))
  /\ timer (run started activateFulfilled) = false
  /\ (forall extension timeout a timerFirst,
        getExtension allExtensions providerId = Some extension ->
        Extension.isActive extension = false ->
        waitForProviderActivation allExtensions providerId
          (schedule timeout a timerFirst)
        = Promise.fulfilled
            (match a with
             | fulfilsAt ms =>
                 Nat.ltb ms timeout || (Nat.eqb ms timeout && negb timerFirst)
             | rejectsAt _ | neverSettles => false
             end)).
Proof.
  unfold waitForProviderActivation.
  split; [|split; [|split; [|split; [|split]]]].
  - intros callbacks reason.
    destruct (getExtension allExtensions providerId) as [ext|];
      [|discriminate].
    destruct (Extension.isActive ext); [discriminate|].
    destruct callbacks as [|cb rest].
    + discriminate.
    + rewrite first_callback_decides. discriminate.
  - intros cb rest.
    destruct (getExtension allExtensions providerId) as [ext|]; [|eauto].
    destruct (Extension.isActive ext); [eauto|].
    rewrite first_callback_decides. eauto.
  - intros callbacks ->. reflexivity.
  - intros ext cb rest ->.
    destruct (Extension.isActive ext); [reflexivity|].
    apply first_callback_decides.
  - reflexivity.
  - intros ext timeout a timerFirst -> ->. unfold schedule.
    destruct a as [ms|ms|]; [| |reflexivity].
    + destruct (Nat.ltb ms timeout) eqn:L1;
        [rewrite first_callback_decides; reflexivity|].
      apply Nat.ltb_ge in L1.
      destruct (Nat.ltb timeout ms) eqn:L2.
      * apply Nat.ltb_lt in L2. rewrite first_callback_decides.
        replace (Nat.eqb ms timeout) with false
          by (symmetry; apply Nat.eqb_neq; lia).
        reflexivity.
      * apply Nat.ltb_ge in L2.
        replace (Nat.eqb ms timeout) with true
          by (symmetry; apply Nat.eqb_eq; lia).
        destruct timerFirst; rewrite first_callback_decides; reflexivity.
    + destruct (Nat.ltb ms timeout), (Nat.ltb timeout ms), timerFirst;
        rewrite first_callback_decides; reflexivity.
Qed.

Lemma waitForProviderActivation_boolean_witness :
  waitForProviderActivation dormant "acme.helper"
    (schedule 5000 (fulfilsAt 10) true) = Promise.fulfilled true
  /\ waitForProviderActivation dormant "acme.helper"
       (schedule 50 neverSettles true) = Promise.fulfilled false
  /\ waitForProviderActivation dormant "acme.helper"
       (schedule 50 (fulfilsAt 80) true) = Promise.fulfilled false.
Proof.
  pose proof (waitForProviderActivation_boolean dormant "acme.helper")
    as (_ & _ & _ & _ & _ & H).
  split; [|split].
  - exact (H _ 5000 (fulfilsAt 10) true eq_refl eq_refl).
  - exact (H _ 50 neverSettles true eq_refl eq_refl).
  - exact (H _ 50 (fulfilsAt 80) true eq_refl eq_refl).
Defined.

End ActivationSpec.

(* ================================================================== *)
(** * Part IV: further properties of the sources                        *)
(* ================================================================== *)

(** ** More on the provider detector *)

Module DetectorExtras.

Import AIProviderDetector Terms Examples DetectorFacts.

(** X1.  [inferCapabilities] returns one of four lists, never an empty one
    and never one with a repeated tag; [code-completion] is in it exactly
    when the extension declares [completionProviders] or
    [inlineCompletionProviders] (a [languages] contribution does not count);
    and [unknown] is in it only as the single default. *)
Theorem inferCapabilities_shape (extension : Extension.t) :
  let capabilities := inferCapabilities extension in
  (capabilities = ["code-completion"]
   \/ capabilities = ["chat"]
   \/ capabilities = ["code-completion"; "chat"]
   \/ capabilities = ["unknown"])
  /\ (In "code-completion" capabilities <->
      spec_indicator_completion extension = true)
  /\ (In "unknown" capabilities <-> capabilities = ["unknown"]).
Proof.
  unfold inferCapabilities, spec_indicator_completion.
  destruct (Js.truthy _ || Js.truthy _);
    destruct (Contributes.commands _) as [commands|];
    try destruct (Js.some _ commands);
    cbn [app]; (split; [tauto|split]); cbn [In]; split; intros H;
    try reflexivity; try discriminate;
    repeat match goal with
           | H : _ \/ _ |- _ => destruct H
           | H : False |- _ => destruct H
           | H : _ = _ |- _ => discriminate H
           end; auto.
Qed.

Lemma inferCapabilities_shape_witness :
  inferCapabilities completion_provider = ["code-completion"; "chat"]
  /\ In "code-completion" (inferCapabilities completion_provider).
Proof.
  split; [reflexivity|].
  exact (proj2 (proj1 (proj2 (inferCapabilities_shape completion_provider)))
           eq_refl).
Defined.

Lemma table_names_are_keys (k : string) (info : AIProviderInfo.t) :
  In (k, info) knownProviders -> AIProviderInfo.name info = k.
Proof.
  intros H.
  assert (forallb (fun kv => String.eqb (AIProviderInfo.name (snd kv)) (fst kv))
            knownProviders = true) as Hall by (vm_compute; reflexivity).
  rewrite forallb_forall in Hall. specialize (Hall _ H).
  now apply String.eqb_eq in Hall.
Qed.

Lemma or_else_nonempty (x : option string) (d : string) :
  d <> EmptyString -> Js.or_else x d <> EmptyString.
Proof.
  intros Hd. destruct x as [[|c s]|]; simpl; try exact Hd. discriminate.
Qed.

Lemma detected_names_installed (localeCompare : string -> string -> Z)
  (allExtensions : list Extension.t) (d : DetectedAIProvider.t) :
  In d (detectProviders localeCompare allExtensions) ->
  exists extension,
    In extension allExtensions
    /\ Extension.id extension = DetectedAIProvider.name d.
Proof.
  intros Hd. exists (DetectedAIProvider.extension d).
  apply detectProviders_In in Hd. destruct Hd as [Hd|Hd].
  - apply detectKnown_In in Hd. destruct Hd as (k&info&e&K&F&->).
    apply find_id_some in F. destruct F as [Hin Hid]. cbn.
    split; [exact Hin|]. rewrite Hid. symmetry.
    now apply table_names_are_keys.
  - apply detectUnknown_In in Hd. destruct Hd as (e&Hin&_&_&->). cbn. auto.
Qed.

(** X2.  Every descriptor the detection pass returns stands for an installed
    extension: its [extension] is one of the input records, its [id] and its
    [name] are that record's id, its [isActive] is that record's, and its
    [version] is never empty.  So nothing is reported that is not
    installed. *)
Theorem detected_is_installed (localeCompare : string -> string -> Z)
  (allExtensions : list Extension.t) (d : DetectedAIProvider.t) :
  In d (detectProviders localeCompare allExtensions) ->
  In (DetectedAIProvider.extension d) allExtensions
  /\ DetectedAIProvider.id d = Extension.id (DetectedAIProvider.extension d)
  /\ DetectedAIProvider.name d = DetectedAIProvider.id d
  /\ DetectedAIProvider.isActive d
     = Extension.isActive (DetectedAIProvider.extension d)
  /\ DetectedAIProvider.version d <> EmptyString.
Proof.
  intros Hd. apply detectProviders_In in Hd. destruct Hd as [Hd|Hd].
  - apply detectKnown_In in Hd. destruct Hd as (k&info&e&K&F&->).
    apply find_id_some in F. destruct F as [Hin Hid]. cbn.
    repeat split; auto.
    + now apply table_names_are_keys.
    + apply or_else_nonempty. discriminate.
  - apply detectUnknown_In in Hd. destruct Hd as (e&Hin&_&_&->). cbn.
    repeat split; auto.
    apply or_else_nonempty. discriminate.
Qed.

Lemma detected_is_installed_witness :
  In (unknown_descriptor two_text_fields)
    (detectProviders caseInsensitiveCompare installed)
  /\ In two_text_fields installed.
Proof.
  assert (In (unknown_descriptor two_text_fields)
            (detectProviders caseInsensitiveCompare installed)) as Hd
    by (vm_compute; right; left; reflexivity).
  split; [exact Hd|].
  exact (proj1 (detected_is_installed caseInsensitiveCompare installed
                  (unknown_descriptor two_text_fields) Hd)).
Defined.

Lemma filter_or_length {A : Type} (p q : A -> bool) (l : list A) :
  (forall x, p x = true -> q x = true -> False) ->
  length (filter (fun x => p x || q x) l)
  = length (filter p l) + length (filter q l).
Proof.
  intros Hdis. induction l as [|x l IH]; simpl; [reflexivity|].
  destruct (p x) eqn:P, (q x) eqn:Q; simpl; rewrite IH; try lia.
  exfalso. exact (Hdis x P Q).
Qed.

Lemma detectKnown_length (table : list (string * AIProviderInfo.t))
  (exts : list Extension.t) :
  NoDup (map fst table) ->
  length (detectKnown table exts)
  <= length (filter (fun e => existsb (String.eqb (Extension.id e))
                                (map fst table)) exts).
Proof.
  induction table as [|[k info] table IH]; simpl; intros Hnd; [lia|].
  inversion Hnd as [|? ? Hnotin Hnd']; subst.
  rewrite (filter_or_length
             (fun e => String.eqb (Extension.id e) k)
             (fun e => existsb (String.eqb (Extension.id e)) (map fst table))).
  - specialize (IH Hnd').
    destruct (find (fun e => String.eqb (Extension.id e) k) exts)
      as [ext|] eqn:F; simpl; [|lia].
    apply find_some in F. destruct F as [Hin Hp].
    assert (In ext (filter (fun e => String.eqb (Extension.id e) k) exts))
      as Hf by (apply filter_In; auto).
    destruct (filter (fun e => String.eqb (Extension.id e) k) exts);
      [contradiction | simpl; lia].
  - intros e P Q. apply String.eqb_eq in P.
    apply existsb_exists in Q. destruct Q as (k'&Hk'&E).
    apply String.eqb_eq in E. apply Hnotin. congruence.
Qed.

Lemma isKnown_existsb (k : string) :
  existsb (String.eqb k) (map fst knownProviders) = isKnownProvider k.
Proof.
  unfold isKnownProvider, getProviderInfo.
  induction knownProviders as [|[k' v] m IH]; simpl; [reflexivity|].
  rewrite (String.eqb_sym k k').
  destruct (String.eqb k' k); simpl; [reflexivity | exact IH].
Qed.

Lemma detectUnknown_length (exts : list Extension.t) :
  length (detectUnknownAIProviders exts)
  <= length (filter (fun e => negb (isKnownProvider (Extension.id e))) exts).
Proof.
  induction exts as [|e exts IH]; simpl; [lia|].
  destruct (isKnownProvider (Extension.id e)); simpl; [exact IH|].
  destruct (isLikelyAIProvider e); simpl; lia.
Qed.

Lemma filter_split_length {A : Type} (p : A -> bool) (l : list A) :
  length (filter p l) + length (filter (fun x => negb (p x)) l) = length l.
Proof.
  induction l as [|x l IH]; simpl; [reflexivity|].
  destruct (p x); simpl; lia.
Qed.

(** X3.  The detection pass never returns more descriptors than there are
    installed extensions, whatever the input (repeated ids included); in
    particular it returns nothing when nothing is installed. *)
Theorem detected_at_most_installed (localeCompare : string -> string -> Z)
  (allExtensions : list Extension.t) :
  length (detectProviders localeCompare allExtensions)
  <= length allExtensions.
Proof.
  unfold detectProviders.
  rewrite (Permutation_length (JsFacts.sort_perm _ _)), length_app.
  pose proof (detectKnown_length knownProviders allExtensions
                knownProviders_keys_distinct) as HK.
  pose proof (detectUnknown_length allExtensions) as HU.
  pose proof (filter_split_length
                (fun e => isKnownProvider (Extension.id e)) allExtensions) as HS.
  rewrite (filter_ext _ (fun e => isKnownProvider (Extension.id e))) in HK
    by (intros e; apply isKnown_existsb).
  lia.
Qed.

Lemma lower_ascii_idempotent (c : ascii) :
  Js.lower_ascii (Js.lower_ascii c) = Js.lower_ascii c.
Proof.
  destruct c as [[] [] [] [] [] [] [] []]; reflexivity.
Qed.

Lemma toLowerCase_idempotent (s : string) :
  Js.toLowerCase (Js.toLowerCase s) = Js.toLowerCase s.
Proof.
  induction s as [|c s IH]; simpl; [reflexivity|].
  now rewrite lower_ascii_idempotent, IH.
Qed.

Lemma toLowerCase_append (a b : string) :
  Js.toLowerCase (a ++ b) = (Js.toLowerCase a ++ Js.toLowerCase b)%string.
Proof.
  induction a as [|c a IH]; simpl; [reflexivity | now rewrite IH].
Qed.

(** X4.  The AI-term test is a case-insensitive substring test: lower-casing
    the text does not change its answer, and a text that contains a matching
    text matches too, wherever the term sits (inside a longer word as
    well). *)
Theorem containsAIKeywords_substring (text : string) :
  containsAIKeywords (Js.toLowerCase text) = containsAIKeywords text
  /\ (forall pre post,
        containsAIKeywords text = true ->
        containsAIKeywords (pre ++ text ++ post) = true).
Proof.
  unfold containsAIKeywords. split.
  - now rewrite toLowerCase_idempotent.
  - intros pre post H. unfold Js.some in *.
    apply existsb_exists in H. destruct H as (kw&Hkw&Hinc).
    apply existsb_exists. exists kw. split; [exact Hkw|].
    apply JsFacts.includes_iff. apply JsFacts.includes_iff in Hinc.
    rewrite !toLowerCase_append.
    eapply JsFacts.occurs_trans; [exact Hinc|].
    exists (Js.toLowerCase pre), (Js.toLowerCase post). reflexivity.
Qed.

Lemma containsAIKeywords_substring_witness :
  containsAIKeywords "Air" = true
  /\ containsAIKeywords ("Rep" ++ "Air" ++ " shop") = true.
Proof.
  split; [reflexivity|].
  exact (proj2 (containsAIKeywords_substring "Air") "Rep" " shop" eq_refl).
Defined.

End DetectorExtras.

(** ** More on the context buffer *)

Module BufferExtras.

Import ContextBuffer Terms Examples BufferFacts.

Lemma distinct_from_spec (seen arr : list string) (x : string) :
  In x (distinct_from seen arr) <-> In x arr /\ ~ In x seen.
Proof.
  revert seen; induction arr as [|y arr IH]; intros seen; simpl.
  - tauto.
  - destruct (existsb (String.eqb y) seen) eqn:E.
    + apply existsb_exists in E. destruct E as (z&Hz&Ez).
      apply String.eqb_eq in Ez. subst z. rewrite IH.
      split; [tauto|]. intros [[->|H] Hn]; tauto.
    + assert (~ In y seen) as Hy.
      { intros Hin.
        assert (existsb (String.eqb y) seen = true) as E'.
        { apply existsb_exists. exists y. split; [exact Hin|].
          apply String.eqb_refl. }
        congruence. }
      simpl. rewrite IH. simpl. split.
      * intros [->|[H Hn]]; [tauto|]. split; [tauto|]. tauto.
      * intros [[->|H] Hn]; [tauto|].
        destruct (string_dec y x) as [->|Hne]; [tauto|]. right. tauto.
Qed.

Lemma distinct_from_NoDup (seen arr : list string) :
  NoDup (distinct_from seen arr).
Proof.
  revert seen; induction arr as [|y arr IH]; intros seen; simpl.
  - constructor.
  - destruct (existsb (String.eqb y) seen); [apply IH|].
    constructor; [|apply IH].
    rewrite distinct_from_spec. simpl. tauto.
Qed.

Lemma distinct_from_length (seen arr : list string) :
  length (distinct_from seen arr) <= length arr.
Proof.
  revert seen; induction arr as [|y arr IH]; intros seen; simpl; [lia|].
  destruct (existsb (String.eqb y) seen); simpl.
  - specialize (IH seen). lia.
  - specialize (IH (y :: seen)). lia.
Qed.

Lemma distinct_is_a_set (arr : list string) :
  NoDup (distinct arr)
  /\ (forall x, In x (distinct arr) <-> In x arr)
  /\ length (distinct arr) <= length arr
  /\ (distinct arr = [] <-> arr = []).
Proof.
  unfold distinct. repeat split.
  - apply distinct_from_NoDup.
  - intros H. apply distinct_from_spec in H. tauto.
  - intros H. apply distinct_from_spec. simpl. tauto.
  - apply distinct_from_length.
  - intros H. destruct arr as [|y arr]; [reflexivity|].
    simpl in H. discriminate.
  - intros ->. reflexivity.
Qed.

Lemma run_new_currentFile (ops : list ingest) :
  currentFile (run ops new) = last_current_file ops.
Proof.
  unfold run, last_current_file.
  assert (currentFile new = EmptyString) as H0 by reflexivity.
  revert H0. generalize new. generalize EmptyString.
  induction ops as [|op ops IH]; intros f b Hf; simpl; [exact Hf|].
  apply IH.
  destruct op as [change|now file|selection|file]; cbn [apply].
  - rewrite addChange_exec. exact Hf.
  - rewrite addSaveEvent_exec. exact Hf.
  - rewrite addSelectionChange_exec. exact Hf.
  - reflexivity.
Qed.

Lemma filter_length_le {A : Type} (p : A -> bool) (l : list A) :
  length (filter p l) <= length l.
Proof.
  induction l as [|x l IH]; simpl; [lia|]. destruct (p x); simpl; lia.
Qed.

(** X5.  After any sequence of operations on a new buffer, at any clock
    reading, the activity summary reports at most 100 changes and at most 50
    saves in the last hour, at most as many active files as buffered changes
    (none exactly when no change is buffered), and as current file the file of
    the last [setCurrentFile], or the empty string; and asking for the summary
    leaves the buffer as it was. *)
Theorem activity_summary_bounds (ops : list ingest) (now : Z) :
  let summary := St.eval (getActivitySummary now) (run ops new) in
  ActivitySummary.changesLastHour summary <= 100
  /\ ActivitySummary.savesLastHour summary <= 50
  /\ ActivitySummary.activeFiles summary <= length (changes (run ops new))
  /\ (ActivitySummary.activeFiles summary = 0 <-> changes (run ops new) = [])
  /\ ActivitySummary.currentFile summary = last_current_file ops
  /\ St.exec (getActivitySummary now) (run ops new) = run ops new.
Proof.
  destruct (run_new_fields ops) as (_ & Hc & Hs & _).
  pose proof (JsFacts.slice_last_length 100 (ingested_changes ops)) as Lc.
  pose proof (JsFacts.slice_last_length 50 (ingested_saves ops)) as Ls.
  rewrite <- Hc in Lc. rewrite <- Hs in Ls.
  cbv [St.eval St.exec getActivitySummary St.bind St.get St.ret fst snd
       ActivitySummary.changesLastHour ActivitySummary.savesLastHour
       ActivitySummary.activeFiles ActivitySummary.currentFile].
  set (b := run ops new) in *.
  pose proof (filter_length_le
                (fun c => (now - 60 * 60 * 1000 <? DocumentChange.timestamp c)%Z)
                (changes b)) as F1.
  pose proof (filter_length_le
                (fun s => (now - 60 * 60 * 1000 <? SaveEvent.timestamp s)%Z)
                (saves b)) as F2.
  destruct (distinct_is_a_set (map DocumentChange.file (changes b)))
    as (_ & _ & D1 & D2).
  rewrite length_map in D1.
  repeat split.
  - lia.
  - lia.
  - exact D1.
  - intros H. apply length_zero_iff_nil in H. apply D2 in H.
    now apply map_eq_nil in H.
  - intros ->. reflexivity.
  - apply run_new_currentFile.
Qed.

Lemma activity_summary_bounds_witness :
  ActivitySummary.activeFiles
    (St.eval (getActivitySummary 5000) (run [ingestCurrentFile "/work/a.ts"] new))
  = 0
  /\ ActivitySummary.currentFile
       (St.eval (getActivitySummary 5000)
          (run [ingestCurrentFile "/work/a.ts"] new))
     = "/work/a.ts".
Proof.
  destruct (activity_summary_bounds [ingestCurrentFile "/work/a.ts"] 5000)
    as (_ & _ & _ & H & Hfile & _).
  cbv zeta in H, Hfile. split; [|exact Hfile].
  apply (proj2 H). reflexivity.
Defined.

(** X6.  The hour of the activity summary is the 60-minute window of
    [getRecentChanges]: [changesLastHour] counts exactly the changes that
    [getRecentChanges(60)] returns at the same clock reading; and a narrower
    window returns a part of what a wider one returns, so the default
    10-minute snapshot never holds more than [changesLastHour] changes. *)
Theorem recent_windows_nest (b : t) (now : Z) :
  ActivitySummary.changesLastHour (St.eval (getActivitySummary now) b)
  = length (St.eval (getRecentChanges now 60) b)
  /\ (forall narrow wide : Z,
        (narrow <= wide)%Z ->
        St.eval (getRecentChanges now narrow) b
        = filter (fun change =>
                    (now - narrow * 60 * 1000
                     <? DocumentChange.timestamp change)%Z)
            (St.eval (getRecentChanges now wide) b))
  /\ length (St.eval (getRecentChanges_default now) b)
     <= ActivitySummary.changesLastHour (St.eval (getActivitySummary now) b).
Proof.
  assert (forall narrow wide : Z,
             (narrow <= wide)%Z ->
             St.eval (getRecentChanges now narrow) b
             = filter (fun change =>
                         (now - narrow * 60 * 1000
                          <? DocumentChange.timestamp change)%Z)
                 (St.eval (getRecentChanges now wide) b)) as Hnest.
  { intros narrow wide Hle. rewrite !getRecentChanges_eval, filter_filter.
    apply filter_ext. intros c.
    destruct (Z.ltb_spec (now - narrow * 60 * 1000)
                (DocumentChange.timestamp c));
      destruct (Z.ltb_spec (now - wide * 60 * 1000)
                  (DocumentChange.timestamp c));
      simpl; try reflexivity; lia. }
  split; [reflexivity | split; [exact Hnest|]].
  change (ActivitySummary.changesLastHour (St.eval (getActivitySummary now) b))
    with (length (St.eval (getRecentChanges now 60) b)).
  unfold getRecentChanges_default.
  rewrite (Hnest 10%Z 60%Z) by lia.
  apply filter_length_le.
Qed.

Lemma recent_windows_nest_witness :
  St.eval (getRecentChanges 601000 10) one_change = []
  /\ St.eval (getRecentChanges 601000 10) one_change
     = filter (fun change => (1000 <? DocumentChange.timestamp change)%Z)
         (St.eval (getRecentChanges 601000 60) one_change).
Proof.
  split; [reflexivity|].
  exact (proj1 (proj2 (recent_windows_nest one_change 601000)) 10%Z 60%Z
           ltac:(lia)).
Defined.

Lemma filter_all {A : Type} (p : A -> bool) (l : list A) :
  Forall (fun x => p x = true) l -> filter p l = l.
Proof.
  induction 1 as [|x l Hx _ IH]; simpl; [reflexivity|].
  now rewrite Hx, IH.
Qed.

Lemma recent_is_suffix (cutoff : Z) (l : list DocumentChange.t) :
  StronglySorted Z.le (map DocumentChange.timestamp l) ->
  exists k, filter (fun c => (cutoff <? DocumentChange.timestamp c)%Z) l
            = skipn k l.
Proof.
  induction l as [|c l IH]; simpl; intros Hs.
  - exists 0. reflexivity.
  - inversion Hs as [|? ? Hs' Hall]; subst.
    destruct (Z.ltb_spec cutoff (DocumentChange.timestamp c)) as [Hlt|Hge].
    + exists 0. simpl. f_equal. apply filter_all.
      rewrite Forall_map in Hall.
      eapply Forall_impl; [|exact Hall].
      intros c' Hc'. cbv beta in Hc'. apply Z.ltb_lt. lia.
    + destruct (IH Hs') as [k Hk]. exists (S k). exact Hk.
Qed.

Lemma StronglySorted_skipn {A : Type} (R : A -> A -> Prop) (n : nat)
  (l : list A) :
  StronglySorted R l -> StronglySorted R (skipn n l).
Proof.
  revert l; induction n as [|n IH]; intros l Hs; [exact Hs|].
  destruct l as [|x l]; [exact Hs|].
  inversion Hs; subst. simpl. now apply IH.
Qed.

(** X7.  When changes are ingested with clock readings that never go back,
    the buffer keeps them in order of time, and every snapshot is the most
    recent stretch of the buffer: [getRecentChanges] returns the buffer
    without some number of its oldest entries. *)
Theorem recent_changes_are_newest (ops : list ingest) (now minutes : Z) :
  StronglySorted Z.le
    (map DocumentChange.timestamp (ingested_changes ops)) ->
  StronglySorted Z.le
    (map DocumentChange.timestamp (changes (run ops new)))
  /\ exists k,
       St.eval (getRecentChanges now minutes) (run ops new)
       = skipn k (changes (run ops new)).
Proof.
  intros Hs.
  assert (StronglySorted Z.le
            (map DocumentChange.timestamp (changes (run ops new)))) as Hb.
  { destruct (run_new_fields ops) as (_ & Hc & _). rewrite Hc.
    unfold Js.slice_last. rewrite <- skipn_map.
    now apply StronglySorted_skipn. }
  split; [exact Hb|].
  rewrite getRecentChanges_eval. now apply recent_is_suffix.
Qed.

Lemma recent_changes_are_newest_witness :
  St.eval (getRecentChanges 600002 10)
    (run (map ingestChange (map change_at [1; 2; 3])) new)
  = [change_at 3]
  /\ exists k,
       St.eval (getRecentChanges 600002 10)
         (run (map ingestChange (map change_at [1; 2; 3])) new)
       = skipn k
           (changes (run (map ingestChange (map change_at [1; 2; 3])) new)).
Proof.
  split; [reflexivity|].
  apply (recent_changes_are_newest
           (map ingestChange (map change_at [1; 2; 3])) 600002 10).
  cbn. repeat constructor; lia.
Defined.

End BufferExtras.

(** ** More on the live context stream *)

Module StreamFacts.

Import LiveContextStream Terms.

Lemma exec_bind {S A B : Type} (c : St.M S A) (k : A -> St.M S B) (s : S) :
  St.exec (St.bind c k) s = St.exec (k (St.eval c s)) (St.exec c s).
Proof. unfold St.exec, St.eval, St.bind. now destruct (c s). Qed.

Lemma eval_bind {S A B : Type} (c : St.M S A) (k : A -> St.M S B) (s : S) :
  St.eval (St.bind c k) s = St.eval (k (St.eval c s)) (St.exec c s).
Proof. unfold St.exec, St.eval, St.bind. now destruct (c s). Qed.

Lemma exec_zoom {S T A : Type} (proj : S -> T) (upd : T -> S -> S)
  (c : St.M T A) (s : S) :
  St.exec (St.zoom proj upd c) s = upd (St.exec c (proj s)) s.
Proof. unfold St.exec, St.zoom. now destruct (c (proj s)). Qed.

Lemma eval_zoom {S T A : Type} (proj : S -> T) (upd : T -> S -> S)
  (c : St.M T A) (s : S) :
  St.eval (St.zoom proj upd c) s = St.eval c (proj s).
Proof. unfold St.eval, St.zoom. now destruct (c (proj s)). Qed.

Lemma set_contextBuffer_same (s : t) : set_contextBuffer (contextBuffer s) s = s.
Proof. now destruct s. Qed.

Lemma start_exec (s : t) :
  St.exec startContextTracking s
  = if isActive s then s
    else mk (contextBuffer s) (disposables s ++ five_listeners) true
           (Some 5000) (knowledgeHub s).
Proof.
  destruct s as [b ds a timer calls].
  unfold startContextTracking, push_disposable. BufferFacts.run_st.
  cbv [set_isActive set_disposables set_contextUpdateTimer contextBuffer
       disposables isActive contextUpdateTimer knowledgeHub].
  destruct a; [reflexivity|].
  unfold five_listeners. now rewrite <- !app_assoc.
Qed.

Lemma onDocumentChange_exec (now sent : Z)
  (event : TextDocumentChangeEvent.t) (s : t) :
  St.exec (onDocumentChange now sent event) s
  = let document := TextDocumentChangeEvent.document event in
    if isActive s && String.eqb (TextDocument.uri_scheme document) "file"
    then call (trackCodeChange (TextDocument.fileName document)
                 (TextDocumentChangeEvent.contentChanges event) sent)
           (set_contextBuffer
              (St.exec
                 (ContextBuffer.addChange
                    (DocumentChange.mk (TextDocument.fileName document)
                       (TextDocumentChangeEvent.contentChanges event) now
                       (TextDocument.languageId document)))
                 (contextBuffer s))
              s)
    else s.
Proof.
  unfold onDocumentChange. rewrite exec_bind. cbv [St.eval St.get fst].
  change (St.exec St.get s) with s.
  destruct (isActive s); cbn [negb orb andb]; [|reflexivity].
  destruct (String.eqb _ "file"); cbn [negb]; [|reflexivity].
  rewrite exec_bind. unfold onBuffer. rewrite exec_zoom. reflexivity.
Qed.

Lemma onDocumentSave_exec (now : Z) (document : TextDocument.t) (s : t) :
  St.exec (onDocumentSave now document) s
  = if isActive s && String.eqb (TextDocument.uri_scheme document) "file"
    then set_contextBuffer
           (St.exec
              (ContextBuffer.addSaveEvent now (TextDocument.fileName document))
              (contextBuffer s))
           s
    else s.
Proof.
  unfold onDocumentSave. rewrite exec_bind. cbv [St.eval St.get fst].
  change (St.exec St.get s) with s.
  destruct (isActive s); cbn [negb orb andb]; [|reflexivity].
  destruct (String.eqb _ "file"); cbn [negb]; [|reflexivity].
  rewrite exec_bind. unfold onBuffer at 1. rewrite exec_zoom.
  unfold analyzeChangesOnSave. rewrite exec_bind.
  unfold onBuffer. rewrite exec_zoom, eval_zoom.
  change (St.exec (ContextBuffer.getChangesForFile ?f) ?b) with b.
  match goal with
  | |- St.exec (if ?c then _ else _) _ = _ => destruct c
  end; cbv [St.exec St.ret snd]; destruct s; reflexivity.
Qed.

Lemma onSelectionChange_exec (now : Z)
  (event : TextEditorSelectionChangeEvent.t) (s : t) :
  St.exec (onSelectionChange now event) s
  = if isActive s
    then set_contextBuffer
           (St.exec
              (ContextBuffer.addSelectionChange
                 (SelectionChange.mk
                    (TextDocument.fileName
                       (TextEditor.document
                          (TextEditorSelectionChangeEvent.textEditor event)))
                    (hd_error (TextEditorSelectionChangeEvent.selections event))
                    now))
              (contextBuffer s))
           s
    else s.
Proof.
  unfold onSelectionChange. rewrite exec_bind. cbv [St.eval St.get fst].
  change (St.exec St.get s) with s.
  destruct (isActive s); cbn [negb]; [|reflexivity].
  unfold onBuffer. now rewrite exec_zoom.
Qed.

Lemma onEditorChange_exec (editor : option TextEditor.t) (s : t) :
  St.exec (onEditorChange editor) s
  = match editor with
    | Some editor' =>
        if isActive s
        then set_contextBuffer
               (ContextBuffer.set_currentFile
                  (TextDocument.fileName (TextEditor.document editor'))
                  (contextBuffer s))
               s
        else s
    | None => s
    end.
Proof.
  unfold onEditorChange. rewrite exec_bind. cbv [St.eval St.get fst].
  change (St.exec St.get s) with s.
  destruct (isActive s), editor as [editor'|]; reflexivity.
Qed.

Lemma getLatestContext_exec (host : Host.t) (now : Z) (s : t) :
  St.exec (getLatestContext host now) s = s.
Proof.
  unfold getLatestContext, getProjectState, getActivePatterns, onBuffer.
  destruct s as [b ds a timer calls]. BufferFacts.run_st.
  cbv [contextBuffer set_contextBuffer disposables isActive
       contextUpdateTimer knowledgeHub].
  destruct (Host.workspaceFolders host); reflexivity.
Qed.

Lemma timer_exec (host : Host.t) (now : Z) (s : t) :
  St.exec (updateContextPeriodically host now) s = s.
Proof.
  unfold updateContextPeriodically. rewrite exec_bind.
  cbv [St.eval St.get fst]. change (St.exec St.get s) with s.
  destruct (isActive s); cbn [negb]; [|reflexivity].
  rewrite exec_bind, getLatestContext_exec. reflexivity.
Qed.

Lemma folders_exec (s : t) : St.exec onWorkspaceFolderChange s = s.
Proof.
  unfold onWorkspaceFolderChange. rewrite exec_bind.
  cbv [St.eval St.get fst]. change (St.exec St.get s) with s.
  destruct (isActive s); reflexivity.
Qed.

(** No notification touches the flag, the listeners or the timer. *)
Lemma deliver_frame (n : notification) (s : t) :
  isActive (St.exec (deliver n) s) = isActive s
  /\ disposables (St.exec (deliver n) s) = disposables s
  /\ contextUpdateTimer (St.exec (deliver n) s) = contextUpdateTimer s.
Proof.
  destruct n as [now sent event|editor|now document| |now event|host now];
    cbn [deliver].
  - rewrite onDocumentChange_exec. cbv zeta.
    destruct (isActive s && _); auto.
  - rewrite onEditorChange_exec.
    destruct editor; [destruct (isActive s) eqn:E|]; auto.
  - rewrite onDocumentSave_exec. destruct (isActive s && _); auto.
  - rewrite folders_exec. auto.
  - rewrite onSelectionChange_exec. destruct (isActive s) eqn:E; auto.
  - rewrite timer_exec. auto.
Qed.

Lemma slice_last_map {A B : Type} (f : A -> B) (n : nat) (l : list A) :
  map f (Js.slice_last n l) = Js.slice_last n (map f l).
Proof. unfold Js.slice_last. now rewrite skipn_map, length_map. Qed.

End StreamFacts.

Module StreamExtras.

Import LiveContextStream Terms Examples StreamFacts.

Lemma drive_snoc (cs : list stream_command) (c : stream_command) (s : t) :
  drive (cs ++ [c]) s = stream_step (drive cs s) c.
Proof. unfold drive. now rewrite fold_left_app. Qed.

(** X8.  Whatever is done to a new stream (starts, stops, notifications, in
    any order), it has the five listeners and the 5-second timer exactly while
    its flag is set, and neither of them while it is clear: listeners are
    never registered twice and none outlives a stop.  Starting a started
    stream and stopping a stopped one change nothing. *)
Theorem stream_lifecycle (cs : list stream_command) :
  let s := drive cs new in
  disposables s = (if isActive s then five_listeners else [])
  /\ contextUpdateTimer s = (if isActive s then Some 5000 else None)
  /\ St.exec startContextTracking (St.exec startContextTracking s)
     = St.exec startContextTracking s
  /\ St.exec stop (St.exec stop s) = St.exec stop s.
Proof.
  cbv zeta.
  assert (disposables (drive cs new)
          = (if isActive (drive cs new) then five_listeners else [])
          /\ contextUpdateTimer (drive cs new)
             = (if isActive (drive cs new) then Some 5000 else None)) as Inv.
  { induction cs as [|c cs IH] using rev_ind; [split; reflexivity|].
    rewrite drive_snoc. destruct IH as [Hd Ht].
    destruct c as [| |n]; cbn [stream_step].
    - rewrite start_exec.
      destruct (isActive (drive cs new)) eqn:E.
      + rewrite E. auto.
      + cbn [isActive disposables contextUpdateTimer]. rewrite Hd. auto.
    - rewrite StreamSpec.stop_exec. auto.
    - destruct (deliver_frame n (drive cs new)) as (-> & -> & ->). auto. }
  destruct Inv as [Hd Ht]. repeat split; auto.
  - rewrite !start_exec. destruct (isActive (drive cs new)) eqn:E.
    + now rewrite E.
    + reflexivity.
  - now rewrite !StreamSpec.stop_exec.
Qed.

Lemma forwarded_step (s : t) (c : stream_command) :
  forwarded s -> forwarded (stream_step s c).
Proof.
  intros (Hm & Hc & Hs & Hsel & Hf). destruct c as [| |n]; cbn [stream_step].
  - rewrite start_exec. destruct (isActive s); repeat split; auto.
  - rewrite StreamSpec.stop_exec. repeat split; auto.
  - destruct n as [now sent event|editor|now document| |now event|host now];
      cbn [deliver].
    + rewrite onDocumentChange_exec. cbv zeta.
      destruct (isActive s && _); [|repeat split; auto].
      unfold forwarded.
      cbn [call set_contextBuffer contextBuffer knowledgeHub].
      rewrite BufferFacts.addChange_exec, Hm.
      cbn [ContextBuffer.set_changes ContextBuffer.maxBufferSize
           ContextBuffer.changes ContextBuffer.saves ContextBuffer.selections].
      repeat split; auto.
      * rewrite JsFacts.slice_last_length. lia.
      * rewrite slice_last_map, !map_app, Hf.
        cbn [map edit_of forwarded_edit DocumentChange.file
             DocumentChange.changes].
        apply JsFacts.slice_last_app. lia.
    + rewrite onEditorChange_exec.
      destruct editor; [destruct (isActive s)|]; repeat split; auto.
    + rewrite onDocumentSave_exec.
      destruct (isActive s && _); [|repeat split; auto].
      unfold forwarded.
      cbn [set_contextBuffer contextBuffer knowledgeHub].
      rewrite BufferFacts.addSaveEvent_exec.
      cbn [ContextBuffer.set_saves ContextBuffer.maxBufferSize
           ContextBuffer.changes ContextBuffer.saves ContextBuffer.selections].
      repeat split; auto.
      rewrite JsFacts.slice_last_length. lia.
    + rewrite folders_exec. repeat split; auto.
    + rewrite onSelectionChange_exec.
      destruct (isActive s); [|repeat split; auto].
      unfold forwarded.
      cbn [set_contextBuffer contextBuffer knowledgeHub].
      rewrite BufferFacts.addSelectionChange_exec.
      cbn [ContextBuffer.set_selections ContextBuffer.maxBufferSize
           ContextBuffer.changes ContextBuffer.saves ContextBuffer.selections].
      repeat split; auto.
      rewrite JsFacts.slice_last_length. lia.
    + rewrite timer_exec. repeat split; auto.
Qed.

(** X9.  Through the stream's own interface the buffer stays within its
    capacities (100 changes, 50 saves, 20 selections) after any starts, stops
    and notifications; and the buffered changes are, in order and as to file
    and edits, the last 100 changes forwarded to the knowledge service, so
    every buffered change was forwarded (with a time stamp of its own, read
    separately). *)
Theorem stream_buffer_bounded_and_forwarded (cs : list stream_command) :
  let s := drive cs new in
  length (ContextBuffer.changes (contextBuffer s)) <= 100
  /\ length (ContextBuffer.saves (contextBuffer s)) <= 50
  /\ length (ContextBuffer.selections (contextBuffer s)) <= 20
  /\ map edit_of (ContextBuffer.changes (contextBuffer s))
     = Js.slice_last 100 (map forwarded_edit (knowledgeHub s)).
Proof.
  cbv zeta.
  assert (forwarded (drive cs new)) as (_ & H).
  { induction cs as [|c cs IH] using rev_ind.
    - unfold forwarded, drive, new, ContextBuffer.new.
      cbn [fold_left contextBuffer knowledgeHub ContextBuffer.maxBufferSize
           ContextBuffer.changes ContextBuffer.saves ContextBuffer.selections
           length map].
      rewrite BufferFacts.slice_last_nil. repeat split; auto; lia.
    - rewrite drive_snoc. now apply forwarded_step. }
  exact H.
Qed.

(** X10.  A document change alters the stream exactly when the stream is
    tracking and the document has the [file] scheme; it then forwards one
    call, stamped with the reading of [new Date()], and touches neither the
    saves nor the selections.  A save alters the saves list under the same
    condition and forwards nothing. *)
Theorem only_file_documents_are_tracked (s : t) (now sent : Z)
  (event : TextDocumentChangeEvent.t) (document : TextDocument.t) :
  let s1 := St.exec (onDocumentChange now sent event) s in
  let s2 := St.exec (onDocumentSave now document) s in
  let changed := TextDocumentChangeEvent.document event in
  (s1 <> s <->
   isActive s = true /\ TextDocument.uri_scheme changed = "file")
  /\ (isActive s = true -> TextDocument.uri_scheme changed = "file" ->
      knowledgeHub s1
      = knowledgeHub s
        ++ [trackCodeChange (TextDocument.fileName changed)
              (TextDocumentChangeEvent.contentChanges event) sent]
      /\ ContextBuffer.saves (contextBuffer s1)
         = ContextBuffer.saves (contextBuffer s)
      /\ ContextBuffer.selections (contextBuffer s1)
         = ContextBuffer.selections (contextBuffer s))
  /\ (s2 <> s ->
      isActive s = true /\ TextDocument.uri_scheme document = "file")
  /\ knowledgeHub s2 = knowledgeHub s
  /\ ContextBuffer.changes (contextBuffer s2)
     = ContextBuffer.changes (contextBuffer s).
Proof.
  cbv zeta. rewrite onDocumentChange_exec, onDocumentSave_exec. cbv zeta.
  split; [|split; [|split; [|split]]].
  - destruct (isActive s) eqn:A; cbn [andb].
    + destruct (String.eqb_spec
                  (TextDocument.uri_scheme (TextDocumentChangeEvent.document event))
                  "file") as [E|E].
      * split; [auto|]. intros _ H.
        apply (f_equal (fun x => length (knowledgeHub x))) in H.
        cbn beta in H. cbn [call knowledgeHub set_contextBuffer] in H.
        rewrite length_app in H.
        cbn [length] in H. lia.
      * split; [congruence | intros [_ H]; contradiction].
    + split; [congruence | intros [H _]; discriminate].
  - intros A E. rewrite A, E.
    change (String.eqb "file" "file") with true. cbn [andb].
    cbn [call set_contextBuffer contextBuffer knowledgeHub].
    rewrite BufferFacts.addChange_exec. auto.
  - destruct (isActive s) eqn:A; cbn [andb]; [|congruence].
    destruct (String.eqb_spec (TextDocument.uri_scheme document) "file");
      [auto | congruence].
  - destruct (isActive s && _); reflexivity.
  - destruct (isActive s && _); [|reflexivity].
    cbn [set_contextBuffer contextBuffer].
    now rewrite BufferFacts.addSaveEvent_exec.
Qed.

Lemma only_file_documents_are_tracked_witness :
  St.exec (onDocumentChange 2000 2001 untitled_edit) tracking = tracking
  /\ length
       (knowledgeHub (St.exec (onDocumentChange 2000 2001 an_edit) tracking))
     = 2.
Proof.
  split; [reflexivity|].
  destruct (only_file_documents_are_tracked tracking 2000 2001 an_edit app_ts)
    as (_ & H & _).
  cbv zeta in H. destruct (H eq_refl eq_refl) as (-> & _). reflexivity.
Defined.

End StreamExtras.

(** ** Snapshots of the stream *)

Module SnapshotExtras.

Import LiveContextStream Terms Examples StreamFacts.

Lemma after_last_dot_no_dot (acc s : string) :
  has_dot s = false -> after_last_dot acc s = (acc ++ s)%string.
Proof.
  revert acc; induction s as [|c s IH]; intros acc H; simpl in *.
  - now rewrite JsFacts.append_empty_r.
  - apply orb_false_iff in H. destruct H as [Hc Hs]. rewrite Hc.
    rewrite IH by exact Hs. now rewrite JsFacts.append_assoc.
Qed.

Lemma after_last_dot_skips (acc base rest : string) :
  after_last_dot acc (base ++ String "."%char rest)
  = after_last_dot EmptyString rest.
Proof.
  revert acc; induction base as [|c base IH]; intros acc; simpl.
  - reflexivity.
  - destruct (Ascii.eqb c "."%char); apply IH.
Qed.

Lemma has_dot_append (a b : string) :
  has_dot (a ++ b) = has_dot a || has_dot b.
Proof.
  induction a as [|c a IH]; simpl; [reflexivity|].
  now rewrite IH, orb_assoc.
Qed.

Lemma after_last_dot_has_no_dot (acc s : string) :
  has_dot acc = false -> has_dot (after_last_dot acc s) = false.
Proof.
  revert acc; induction s as [|c s IH]; intros acc H; simpl; [exact H|].
  destruct (Ascii.eqb c "."%char) eqn:E.
  - now apply IH.
  - apply IH. rewrite has_dot_append, H. simpl. now rewrite E.
Qed.

(** X11.  The file type behind a pattern, [file.split('.').pop()], is what
    follows the last dot of the path: the whole path when it has no dot, the
    extension otherwise, and never a text that contains a dot.  So a dot in a
    directory name cuts the path of a file that has no extension. *)
Theorem file_type_is_after_last_dot (path : string) :
  (has_dot path = false -> after_last_dot EmptyString path = path)
  /\ (forall base extension,
        has_dot extension = false ->
        after_last_dot EmptyString (base ++ "." ++ extension) = extension)
  /\ has_dot (after_last_dot EmptyString path) = false.
Proof.
  split; [|split].
  - intros H. now rewrite after_last_dot_no_dot.
  - intros base extension H.
    change ("." ++ extension)%string with (String "."%char extension).
    rewrite after_last_dot_skips. now rewrite after_last_dot_no_dot.
  - now apply after_last_dot_has_no_dot.
Qed.

Lemma file_type_is_after_last_dot_witness :
  after_last_dot EmptyString "/work/src/app.test.ts" = "ts"
  /\ after_last_dot EmptyString "/my.dir/Makefile" = "dir/Makefile".
Proof.
  split.
  - exact (proj1 (proj2 (file_type_is_after_last_dot EmptyString))
             "/work/src/app.test" "ts" eq_refl).
  - exact (proj1 (proj2 (file_type_is_after_last_dot EmptyString))
             "/my" "dir/Makefile" eq_refl).
Defined.

(** X12.  The languages the project state reports are exactly the languages
    of the open documents, each once. *)
Theorem active_languages_are_open_languages (host : Host.t) :
  NoDup (getActiveLanguages host)
  /\ (forall language,
        In language (getActiveLanguages host) <->
        exists document,
          In document (Host.textDocuments host)
          /\ TextDocument.languageId document = language)
  /\ length (getActiveLanguages host) <= length (Host.textDocuments host).
Proof.
  unfold getActiveLanguages.
  destruct (BufferExtras.distinct_is_a_set
              (map TextDocument.languageId (Host.textDocuments host)))
    as (Hn & Hin & Hlen & _).
  split; [exact Hn | split].
  - intros language. rewrite Hin, in_map_iff.
    split; intros (d & H1 & H2); exists d; auto.
  - now rewrite length_map in Hlen.
Qed.

Lemma active_languages_are_open_languages_witness :
  getActiveLanguages three_documents = ["typescript"; "json"]
  /\ In "json" (getActiveLanguages three_documents).
Proof.
  split; [reflexivity|].
  apply (proj1 (proj2 (active_languages_are_open_languages three_documents))).
  exists (TextDocument.mk "file" "/work/package.json" "json" 20).
  split; [right; left; reflexivity | reflexivity].
Defined.

Lemma getActivePatterns_eval (now : Z) (s : t) :
  St.eval (getActivePatterns now) s
  = let recentChanges :=
      St.eval (ContextBuffer.getRecentChanges_default now) (contextBuffer s) in
    map (fun lang => (lang ++ " development")%string)
      (ContextBuffer.distinct (map DocumentChange.language recentChanges))
    ++ map (fun type => (type ++ " files")%string)
         (ContextBuffer.distinct
            (map (fun change =>
                    Js.or_else
                      (Some (after_last_dot EmptyString
                               (DocumentChange.file change)))
                      "unknown")
               recentChanges)).
Proof. destruct s. reflexivity. Qed.

(** X13.  The active patterns come from the recent changes alone: every
    recent change contributes the pattern of its language and the pattern of
    its file type, there are at most two patterns per recent change, and
    there is none exactly when no change is recent. *)
Theorem active_patterns_cover_recent_changes (s : t) (now : Z) :
  let recentChanges :=
    St.eval (ContextBuffer.getRecentChanges_default now) (contextBuffer s) in
  let patterns := St.eval (getActivePatterns now) s in
  (forall change,
     In change recentChanges ->
     In (DocumentChange.language change ++ " development")%string patterns
     /\ In (Js.or_else
              (Some (after_last_dot EmptyString (DocumentChange.file change)))
              "unknown" ++ " files")%string patterns)
  /\ length patterns <= 2 * length recentChanges
  /\ (patterns = [] <-> recentChanges = []).
Proof.
  cbv zeta. rewrite getActivePatterns_eval. cbv zeta.
  set (recent := St.eval (ContextBuffer.getRecentChanges_default now)
                   (contextBuffer s)).
  set (types := map (fun change =>
                       Js.or_else
                         (Some (after_last_dot EmptyString
                                  (DocumentChange.file change)))
                         "unknown") recent).
  destruct (BufferExtras.distinct_is_a_set (map DocumentChange.language recent))
    as (_ & L1 & L2 & L3).
  destruct (BufferExtras.distinct_is_a_set types) as (_ & T1 & T2 & T3).
  split; [|split].
  - intros change Hc. split; apply in_or_app; [left|right];
      apply in_map_iff.
    + exists (DocumentChange.language change). split; [reflexivity|].
      apply L1. now apply in_map.
    + exists (Js.or_else
                (Some (after_last_dot EmptyString (DocumentChange.file change)))
                "unknown").
      split; [reflexivity|]. apply T1. unfold types.
      apply in_map_iff. exists change. auto.
  - rewrite length_app, !length_map.
    assert (length types = length recent) as E
      by (unfold types; apply length_map).
    rewrite length_map in L2. lia.
  - split.
    + intros H. apply app_eq_nil in H. destruct H as [H _].
      apply map_eq_nil in H. apply L3 in H. now apply map_eq_nil in H.
    + intros H. unfold types. rewrite H. reflexivity.
Qed.

Lemma active_patterns_cover_recent_changes_witness :
  St.eval (getActivePatterns 2000) tracking
  = ["typescript development"; "ts files"]
  /\ In "ts files" (St.eval (getActivePatterns 2000) tracking).
Proof.
  split; [reflexivity|].
  destruct (active_patterns_cover_recent_changes tracking 2000) as (H & _).
  cbv zeta in H.
  exact (proj2 (H (DocumentChange.mk "/work/app.ts"
                     [TextDocumentContentChangeEvent.mk 12 0 "x"] 1000
                     "typescript")
                  (or_introl eq_refl))).
Defined.

Lemma getLatestContext_eval (host : Host.t) (now : Z) (s : t) :
  St.eval (getLatestContext host now) s
  = LiveContext.mk
      (St.eval (ContextBuffer.getRecentChanges_default now) (contextBuffer s))
      (getCurrentFocus host)
      (match Host.workspaceFolders host with
       | [] => ProjectState.no_workspace
       | workspaceFolder :: _ =>
           ProjectState.project
             (WorkspaceFolder.name workspaceFolder)
             (WorkspaceFolder.fsPath workspaceFolder)
             (length (Host.textDocuments host))
             (getActiveLanguages host)
             (St.eval (ContextBuffer.getActivitySummary now) (contextBuffer s))
       end)
      (St.eval (getActivePatterns now) s).
Proof.
  destruct s as [b ds a timer calls].
  unfold getLatestContext, getProjectState, onBuffer.
  destruct (Host.workspaceFolders host); reflexivity.
Qed.

Lemma focus_names_the_editor (host : Host.t) :
  getCurrentFocus host = "No active file"
  <-> Host.activeTextEditor host = None.
Proof.
  unfold getCurrentFocus.
  destruct (Host.activeTextEditor host) as [editor|];
    [|split; reflexivity].
  split; [|discriminate].
  intros H. exfalso.
  assert (Js.includes "No active file" " file: " = false) as E
    by reflexivity.
  rewrite <- H in E.
  assert (Js.includes
            (String.concat EmptyString
               [TextDocument.languageId (TextEditor.document editor);
                " file: ";
                TextDocument.fileName (TextEditor.document editor);
                " (";
                NilEmpty.string_of_uint
                  (Nat.to_uint
                     (TextDocument.lineCount (TextEditor.document editor)));
                " lines)"])
            " file: " = true) as E'.
  { apply JsFacts.includes_iff.
    apply (JsFacts.occurs_concat EmptyString). cbn [In]. auto. }
  congruence.
Qed.

(** X14.  Taking a snapshot changes nothing, and neither does the periodic
    timer: [getLatestContext] and [updateContextPeriodically] leave the whole
    stream as it was.  The snapshot's recent changes are the buffer's
    10-minute window, its project state is [no-workspace] exactly when no
    folder is open, and its focus is [No active file] exactly when no editor
    is active. *)
Theorem snapshot_is_read_only (s : t) (host : Host.t) (now : Z) :
  let context := St.eval (getLatestContext host now) s in
  St.exec (getLatestContext host now) s = s
  /\ St.exec (updateContextPeriodically host now) s = s
  /\ LiveContext.recentChanges context
     = St.eval (ContextBuffer.getRecentChanges_default now) (contextBuffer s)
  /\ LiveContext.activePatterns context = St.eval (getActivePatterns now) s
  /\ (LiveContext.projectState context = ProjectState.no_workspace <->
      Host.workspaceFolders host = [])
  /\ (LiveContext.currentFocus context = "No active file" <->
      Host.activeTextEditor host = None).
Proof.
  cbv zeta. rewrite getLatestContext_eval.
  cbn [LiveContext.recentChanges LiveContext.activePatterns
       LiveContext.projectState LiveContext.currentFocus].
  split; [apply getLatestContext_exec|].
  split; [apply timer_exec|].
  split; [reflexivity|]. split; [reflexivity|].
  split; [|apply focus_names_the_editor].
  destruct (Host.workspaceFolders host); split;
    intros H; try reflexivity; discriminate.
Qed.

Lemma snapshot_is_read_only_witness :
  LiveContext.currentFocus (St.eval (getLatestContext empty_host 2000) tracking)
  = "No active file"
  /\ LiveContext.projectState
       (St.eval (getLatestContext empty_host 2000) tracking)
     = ProjectState.no_workspace.
Proof.
  destruct (snapshot_is_read_only tracking empty_host 2000)
    as (_ & _ & _ & _ & Hstate & Hfocus).
  cbv zeta in Hstate, Hfocus. split.
  - apply (proj2 Hfocus). reflexivity.
  - apply (proj2 Hstate). reflexivity.
Defined.

End SnapshotExtras.

(** ** More on the enhancement layer *)

Module EnhancementExtras.

Import AIEnhancementLayer Terms Examples.

Lemma git_branch_nonempty (host : Host.t) :
  getCurrentGitBranch host <> EmptyString.
Proof.
  unfold getCurrentGitBranch.
  destruct (Host.gitExtension host) as [git|]; [|discriminate].
  destruct (GitExtension.isActive git); [|discriminate].
  destruct (GitExtension.repositories git) as [repos|error]; [|discriminate].
  destruct repos as [|[[|c name]|] others]; discriminate.
Qed.

(** X15.  [getCurrentGitBranch] never fails and never answers the empty
    string: it answers the name of the first repository's head when the git
    extension is active, lists a repository and that head has a non-empty
    name, and [main] in every other case (no git extension, an inactive one,
    a failing API, no repository, a detached head). *)
Theorem git_branch_defaults_to_main (host : Host.t) :
  getCurrentGitBranch host <> EmptyString
  /\ (forall git c name others,
        Host.gitExtension host = Some git ->
        GitExtension.isActive git = true ->
        GitExtension.repositories git
        = Outcome.returned (Some (String c name) :: others) ->
        getCurrentGitBranch host = String c name)
  /\ ((forall git c name others,
         Host.gitExtension host = Some git ->
         GitExtension.isActive git = true ->
         GitExtension.repositories git
         <> Outcome.returned (Some (String c name) :: others)) ->
      getCurrentGitBranch host = "main").
Proof.
  unfold getCurrentGitBranch.
  destruct (Host.gitExtension host) as [git|];
    [|split; [discriminate | split; [intros; discriminate | reflexivity]]].
  destruct (GitExtension.isActive git) eqn:A;
    [|split; [discriminate
             | split; [intros g c name others [= <-] E; congruence
                      | reflexivity]]].
  destruct (GitExtension.repositories git) as [repos|error] eqn:R;
    [|split; [discriminate
             | split; [intros g c name others [= <-] _ E; congruence
                      | reflexivity]]].
  destruct repos as [|[[|c name]|] others]; cbn;
    (split; [discriminate|]); split;
    try (intros g c0 name0 others0 [= <-] _ E; congruence);
    try reflexivity.
  intros H. exfalso. apply (H git c name others eq_refl A R).
Qed.

Lemma git_branch_defaults_to_main_witness :
  getCurrentGitBranch on_feature_branch = "feature/login".
Proof.
  exact (proj1 (proj2 (git_branch_defaults_to_main on_feature_branch))
           (GitExtension.mk true (Outcome.returned [Some "feature/login"]))
           "f"%char "eature/login" [] eq_refl eq_refl eq_refl).
Defined.

(** X16.  [gatherVSCodeContext] throws exactly when an editor is active and
    reading its selected text throws, with that error.  When it returns, the
    recent changes are empty, the branch is not empty, the open files are the
    names of the open documents in order, and without an active editor the
    active file is the empty string and there is neither cursor nor selected
    text. *)
Theorem gathered_context_shape (host : Host.t) :
  (forall error,
     gatherVSCodeContext host = Outcome.thrown error <->
     exists editor,
       Host.activeTextEditor host = Some editor
       /\ TextEditor.getText_selection editor = Outcome.thrown error)
  /\ (forall vscodeContext,
        gatherVSCodeContext host = Outcome.returned vscodeContext ->
        VSCodeContext.recentChanges vscodeContext = []
        /\ VSCodeContext.gitBranch vscodeContext <> EmptyString
        /\ VSCodeContext.openFiles vscodeContext
           = map TextDocument.fileName (Host.textDocuments host)
        /\ (Host.activeTextEditor host = None ->
            VSCodeContext.activeFile vscodeContext = EmptyString
            /\ VSCodeContext.cursorPosition vscodeContext = None
            /\ VSCodeContext.selectedText vscodeContext = None)).
Proof.
  pose proof (git_branch_nonempty host) as Hbranch.
  unfold gatherVSCodeContext.
  destruct (Host.activeTextEditor host) as [editor|].
  - destruct (TextEditor.getText_selection editor) as [text|e] eqn:G; cbn.
    + split.
      * intros error. split; [discriminate|].
        intros (ed & [= <-] & H). congruence.
      * intros v [= <-]. cbn.
        split; [reflexivity|]. split; [exact Hbranch|].
        split; [reflexivity|]. discriminate.
    + split.
      * intros error. split.
        -- intros [= <-]. exists editor. auto.
        -- intros (ed & [= <-] & H). congruence.
      * intros v H. discriminate.
  - cbn. split.
    + intros error. split; [discriminate|]. intros (ed & H & _). discriminate.
    + intros v [= <-]. cbn.
      split; [reflexivity|]. split; [exact Hbranch|].
      split; [reflexivity|]. intros _. auto.
Qed.

Lemma gathered_context_shape_witness :
  gatherVSCodeContext (Host.mk (Some broken_editor) [] [] None)
  = Outcome.thrown "document closed".
Proof.
  apply (proj1 (gathered_context_shape
                  (Host.mk (Some broken_editor) [] [] None))).
  exists broken_editor. split; reflexivity.
Defined.

Lemma every_level_keeps_the_prompt (configured : option string)
  (originalPrompt : string) (knowledgeHubContext : EnhancedContext.t)
  (vscodeContext : VSCodeContext.t) :
  Js.includes
    (createEnhancedPrompt configured originalPrompt knowledgeHubContext
       vscodeContext)
    originalPrompt = true.
Proof.
  unfold createEnhancedPrompt.
  destruct (String.eqb _ "minimal"); [|destruct (String.eqb _ "standard")];
    apply JsFacts.includes_iff, EnhancementSpec.occurs_template;
    EnhancementSpec.in_pieces.
Qed.

(** X17.  When the layer is active, the editor context is gathered and the
    knowledge service answers, [enhanceAIRequest] returns the original
    request with the three enhancement fields added: the gathered context,
    the service's answer to a query made of the prompt, the active file, the
    workspace root and the recent changes, and an enhanced prompt that
    contains the original prompt whatever the configured level. *)
Theorem enhanced_request_carries_prompt (this : t) (host : Host.t)
  (configured : option string) (originalRequest : AIRequest.t)
  (vscodeContext : VSCodeContext.t) (knowledgeHubContext : EnhancedContext.t) :
  isActive this = true ->
  gatherVSCodeContext host = Outcome.returned vscodeContext ->
  knowledgeHub this
    (ContextQuery.mk (AIRequest.prompt originalRequest)
       (VSCodeContext.activeFile vscodeContext)
       (VSCodeContext.workspaceRoot vscodeContext)
       (VSCodeContext.recentChanges vscodeContext))
  = Outcome.returned knowledgeHubContext ->
  exists enhancedPrompt,
    enhanceAIRequest this host configured originalRequest
    = Outcome.returned
        (EnhancedAIRequest.mk originalRequest (Some enhancedPrompt)
           (Some knowledgeHubContext) (Some vscodeContext))
    /\ enhancedPrompt
       = createEnhancedPrompt configured (AIRequest.prompt originalRequest)
           knowledgeHubContext vscodeContext
    /\ Js.includes enhancedPrompt (AIRequest.prompt originalRequest) = true.
Proof.
  intros A G K. unfold enhanceAIRequest. rewrite A, G. cbn. rewrite K. cbn.
  eexists. split; [reflexivity|]. split; [reflexivity|].
  apply every_level_keeps_the_prompt.
Qed.

Lemma enhanced_request_carries_prompt_witness :
  exists enhancedPrompt,
    enhanceAIRequest (mk (fun _ => Outcome.returned example_context) true)
      empty_host (Some "standard") add_two_numbers
    = Outcome.returned
        (EnhancedAIRequest.mk add_two_numbers (Some enhancedPrompt)
           (Some example_context)
           (Some (VSCodeContext.mk EmptyString EmptyString "main" [] []
                    None None)))
    /\ enhancedPrompt
       = createEnhancedPrompt (Some "standard")
           "Create a function to add two numbers" example_context
           (VSCodeContext.mk EmptyString EmptyString "main" [] [] None None)
    /\ Js.includes enhancedPrompt "Create a function to add two numbers"
       = true.
Proof.
  exact (enhanced_request_carries_prompt
           (mk (fun _ => Outcome.returned example_context) true)
           empty_host (Some "standard") add_two_numbers
           (VSCodeContext.mk EmptyString EmptyString "main" [] [] None None)
           example_context eq_refl eq_refl eq_refl).
Defined.

Lemma last_char_append (a b : string) :
  b <> EmptyString -> last_char (a ++ b) = last_char b.
Proof.
  intros Hb. induction a as [|c a IH]; [reflexivity|].
  cbn [String.append]. cbn [last_char].
  destruct (a ++ b)%string eqn:E.
  - destruct a; [cbn in E; contradiction | discriminate].
  - exact IH.
Qed.

Lemma last_char_template (pieces : list string) (c : ascii) :
  last_char (template (pieces ++ [String c EmptyString])) = Some c.
Proof.
  unfold template. induction pieces as [|x pieces IH]; [reflexivity|].
  cbn [app String.concat].
  destruct (pieces ++ [String c EmptyString]) as [|y rest] eqn:E.
  - destruct pieces; discriminate.
  - rewrite last_char_append; [exact IH|].
    cbn [String.append]. intros H. rewrite H in IH. discriminate.
Qed.

(** X18.  The three levels give three different texts for the same request
    and context, whatever these are: the minimal prompt ends with a closing
    bracket while the other two end with a line break, and the standard and
    the maximum prompt differ in their heading. *)
Theorem levels_give_different_prompts (originalPrompt : string)
  (knowledgeHubContext : EnhancedContext.t) (vscodeContext : VSCodeContext.t) :
  let minimal :=
    createEnhancedPrompt (Some "minimal") originalPrompt
      knowledgeHubContext vscodeContext in
  let standard :=
    createEnhancedPrompt (Some "standard") originalPrompt
      knowledgeHubContext vscodeContext in
  let maximum :=
    createEnhancedPrompt (Some "maximum") originalPrompt
      knowledgeHubContext vscodeContext in
  minimal <> standard /\ minimal <> maximum /\ standard <> maximum.
Proof.
  cbv zeta.
  change (createEnhancedPrompt (Some "minimal") originalPrompt
            knowledgeHubContext vscodeContext)
    with (minimal_template originalPrompt vscodeContext).
  change (createEnhancedPrompt (Some "standard") originalPrompt
            knowledgeHubContext vscodeContext)
    with (standard_template originalPrompt knowledgeHubContext vscodeContext).
  change (createEnhancedPrompt (Some "maximum") originalPrompt
            knowledgeHubContext vscodeContext)
    with (maximum_template originalPrompt knowledgeHubContext vscodeContext).
  assert (last_char (minimal_template originalPrompt vscodeContext)
          = Some "]"%char) as Emin.
  { unfold minimal_template.
    exact (last_char_template
             [originalPrompt; nl; nl; "[Project: ";
              VSCodeContext.workspaceRoot vscodeContext] "]"%char). }
  assert (last_char
            (standard_template originalPrompt knowledgeHubContext vscodeContext)
          = Some (ascii_of_nat 10)) as Estd.
  { unfold standard_template.
    match goal with
    | |- last_char (template ?l) = _ =>
        change l with (removelast l ++ [nl])
    end.
    apply last_char_template. }
  assert (last_char
            (maximum_template originalPrompt knowledgeHubContext vscodeContext)
          = Some (ascii_of_nat 10)) as Emax.
  { unfold maximum_template.
    match goal with
    | |- last_char (template ?l) = _ =>
        change l with (removelast l ++ [nl])
    end.
    apply last_char_template. }
  split; [|split].
  - intros H. rewrite H, Estd in Emin. discriminate.
  - intros H. rewrite H, Emax in Emin. discriminate.
  - intros H.
    apply (f_equal (String.get 3)) in H.
    assert (String.get 3
              (standard_template originalPrompt knowledgeHubContext
                 vscodeContext) = Some "C"%char) as E1 by reflexivity.
    assert (String.get 3
              (maximum_template originalPrompt knowledgeHubContext
                 vscodeContext) = Some "E"%char) as E2 by reflexivity.
    rewrite E1, E2 in H. discriminate.
Qed.

Lemma levels_give_different_prompts_witness :
  createEnhancedPrompt (Some "minimal")
    "Create a user authentication function" example_context example_vscode
  <> createEnhancedPrompt (Some "standard")
       "Create a user authentication function" example_context example_vscode.
Proof.
  exact (proj1 (levels_give_different_prompts
                  "Create a user authentication function"
                  example_context example_vscode)).
Defined.

Import EnhancementLifecycle.

(** [start], with the guarded registrations resolved. *)
Lemma start_run (allExtensions : list Extension.t) (host : Registrar)
  (this : t) :
  start allExtensions host this
  = (registerInlineCompletionItemProvider host, set_isActive true this).
Proof.
  assert (forall s : t,
             registerCopilotInterceptor allExtensions host s
             = (Outcome.returned tt, s)) as Hcopilot.
  { intros s. unfold registerCopilotInterceptor, Se.try_catch.
    destruct (Activation.getExtension allExtensions "github.copilot")
      as [ext|]; [|reflexivity].
    destruct (Extension.isActive ext); [|reflexivity].
    unfold Se.call. destruct (registerCompletionItemProvider host) as [[]|e];
      reflexivity. }
  assert (forall s : t,
             registerClineInterceptor allExtensions s
             = (Outcome.returned tt, s)) as Hcline.
  { intros s. unfold registerClineInterceptor, Se.try_catch.
    destruct (Activation.getExtension allExtensions "continue.continue");
      reflexivity. }
  assert (forall s : t,
             registerClaudeDevInterceptor allExtensions s
             = (Outcome.returned tt, s)) as Hclaude.
  { intros s. unfold registerClaudeDevInterceptor, Se.try_catch.
    destruct (Activation.getExtension allExtensions "anthropic.claude-dev");
      reflexivity. }
  unfold start, Se.bind, Se.modify.
  rewrite Hcopilot, Hcline, Hclaude.
  unfold registerGenericAIInterceptor, Se.call. reflexivity.
Qed.

(** X19.  [start] switches the layer on before it registers anything, so the
    layer is active afterwards even when [start] throws; a failure while
    registering the Copilot interceptor is swallowed, and [start] throws
    exactly when the unguarded registration of the generic interceptor
    throws.  After [stop] every request comes back as it was. *)
Theorem layer_start_and_stop (this : t) (allExtensions : list Extension.t)
  (host : Registrar) :
  AIEnhancementLayer.isActive (Se.exec (start allExtensions host) this) = true
  /\ AIEnhancementLayer.knowledgeHub (Se.exec (start allExtensions host) this)
     = AIEnhancementLayer.knowledgeHub this
  /\ Se.eval (start allExtensions host) this
     = registerInlineCompletionItemProvider host
  /\ AIEnhancementLayer.isActive (St.exec stop this) = false
  /\ (forall editorHost configured originalRequest,
        enhanceAIRequest (St.exec stop this) editorHost configured
          originalRequest
        = Outcome.returned (as_enhanced originalRequest)).
Proof.
  unfold Se.exec, Se.eval. rewrite start_run. cbn [fst snd].
  repeat split.
Qed.

End EnhancementExtras.

(** ** Looking up a provider's API *)

Module ProviderAPIExtras.

Import ProviderAPI Examples.

(** X20.  [getProviderAPI] never throws.  It answers [null] exactly when the
    extension is not installed, or is inactive and fails to activate;
    otherwise it answers the extension's exports, and an extension that is
    already active is not activated again. *)
Theorem getProviderAPI_null_cases {A : Type}
  (allExtensions : list Extension.t) (providerId : string)
  (activate : Outcome.t unit) (exports : A) :
  (exists api,
     getProviderAPI allExtensions providerId activate exports
     = Outcome.returned api
     /\ (api = None \/ api = Some exports)
     /\ (api = None <->
         Activation.getExtension allExtensions providerId = None
         \/ exists extension error,
              Activation.getExtension allExtensions providerId = Some extension
              /\ Extension.isActive extension = false
              /\ activate = Outcome.thrown error))
  /\ (forall extension other,
        Activation.getExtension allExtensions providerId = Some extension ->
        Extension.isActive extension = true ->
        getProviderAPI allExtensions providerId other exports
        = Outcome.returned (Some exports)).
Proof.
  unfold getProviderAPI.
  destruct (Activation.getExtension allExtensions providerId) as [ext|].
  - destruct (Extension.isActive ext) eqn:Act; cbn.
    + split.
      * exists (Some exports). split; [reflexivity|]. split; [auto|].
        split; [discriminate|].
        intros [H|(e & err & [= <-] & H & _)]; [discriminate | congruence].
      * intros e other _ _. reflexivity.
    + split.
      * destruct activate as [[]|err]; cbn.
        -- exists (Some exports). split; [reflexivity|]. split; [auto|].
           split; [discriminate|].
           intros [H|(e & err & _ & _ & H)]; discriminate.
        -- exists None. split; [reflexivity|]. split; [auto|].
           split; [|reflexivity].
           intros _. right. exists ext, err. auto.
      * intros e other [= <-] H. congruence.
  - split.
    + exists None. split; [reflexivity|]. split; [auto|].
      split; auto.
    + intros e other H. discriminate.
Qed.

Lemma getProviderAPI_null_cases_witness :
  getProviderAPI installed "codeium.codeium"
    (Outcome.thrown "activation failed") Js.object
  = Outcome.returned (Some Js.object).
Proof.
  exact (proj2 (getProviderAPI_null_cases installed "codeium.codeium"
                  (Outcome.returned tt) Js.object)
           (Extension.mk "codeium.codeium" true
              (PackageJSON.mk None None None None (Some "1.2.3") None))
           (Outcome.thrown "activation failed") eq_refl eq_refl).
Defined.

End ProviderAPIExtras.

(** ** The context bridge *)

Module BridgeFacts.

Import ContextBridge Terms.

Lemma get_set_same {V : Type} (k : string) (v : V) (m : JsMap.t V) :
  JsMap.get k (JsMap.set k v m) = Some v.
Proof.
  induction m as [|[k' v'] m IH]; simpl.
  - now rewrite String.eqb_refl.
  - destruct (String.eqb k' k) eqn:E; simpl.
    + now rewrite String.eqb_refl.
    + now rewrite E.
Qed.

Lemma get_set_other {V : Type} (k q : string) (v : V) (m : JsMap.t V) :
  k <> q -> JsMap.get q (JsMap.set k v m) = JsMap.get q m.
Proof.
  intros Hne. induction m as [|[k' v'] m IH]; simpl.
  - apply String.eqb_neq in Hne. now rewrite Hne.
  - destruct (String.eqb_spec k' k) as [->|Hk]; simpl.
    + apply String.eqb_neq in Hne. now rewrite Hne.
    + destruct (String.eqb k' q); [reflexivity | exact IH].
Qed.

Lemma has_iff_key {V : Type} (k : string) (m : JsMap.t V) :
  JsMap.has k m = true <-> In k (JsMap.keys m).
Proof.
  unfold JsMap.has, JsMap.keys.
  induction m as [|[k' v'] m IH]; simpl.
  - split; [discriminate | contradiction].
  - destruct (String.eqb_spec k' k) as [->|Hk].
    + split; auto.
    + rewrite IH. split; [auto | intros [H|H]; [contradiction | exact H]].
Qed.

Lemma set_In {V : Type} (k : string) (v : V) (m : JsMap.t V) (q : string)
  (w : V) :
  In (q, w) (JsMap.set k v m) -> (q, w) = (k, v) \/ In (q, w) m.
Proof.
  induction m as [|[k' v'] m IH]; simpl.
  - intros [H|[]]. now left.
  - destruct (String.eqb k' k); simpl.
    + intros [H|H]; [now left | right; now right].
    + intros [H|H]; [right; now left|].
      destruct (IH H) as [H'|H']; [now left | right; now right].
Qed.

Lemma set_keys {V : Type} (k : string) (v : V) (m : JsMap.t V) :
  JsMap.keys (JsMap.set k v m)
  = if JsMap.has k m then JsMap.keys m else JsMap.keys m ++ [k].
Proof.
  unfold JsMap.has, JsMap.keys.
  induction m as [|[k' v'] m IH]; simpl; [reflexivity|].
  destruct (String.eqb_spec k' k) as [->|Hk]; simpl; [reflexivity|].
  rewrite IH. now destruct (JsMap.get k m).
Qed.

Lemma set_keys_NoDup {V : Type} (k : string) (v : V) (m : JsMap.t V) :
  NoDup (JsMap.keys m) -> NoDup (JsMap.keys (JsMap.set k v m)).
Proof.
  intros Hnd. rewrite set_keys.
  destruct (JsMap.has k m) eqn:H; [exact Hnd|].
  apply DetectorFacts.NoDup_app_disjoint; [exact Hnd | repeat constructor; auto|].
  intros x Hx [<-|[]].
  apply has_iff_key in Hx. congruence.
Qed.

Lemma set_length {V : Type} (k : string) (v : V) (m : JsMap.t V) :
  length (JsMap.set k v m) <= S (length m).
Proof.
  induction m as [|[k' v'] m IH]; simpl; [lia|].
  destruct (String.eqb k' k); simpl; lia.
Qed.

Lemma bridge_entry_id (providerName : string) (extension : Extension.t) :
  AIProviderExtension.id (bridge_entry providerName extension) = providerName
  /\ AIProviderExtension.extension (bridge_entry providerName extension)
     = extension.
Proof.
  unfold bridge_entry.
  destruct (String.eqb_spec providerName "github.copilot") as [->|];
    [split; reflexivity|].
  destruct (String.eqb_spec providerName "continue.continue") as [->|];
    [split; reflexivity|].
  destruct (String.eqb_spec providerName "anthropic.claude-dev") as [->|];
    split; reflexivity.
Qed.

(** [bridgeContextToAI], with its [try] blocks resolved. *)
Lemma bridgeContextToAI_run (host : BridgeHost.t) (providerName : string)
  (extension : Extension.t) (this : t) :
  bridgeContextToAI host providerName extension this
  = if host_accepts host providerName
    then (Outcome.returned true,
          set_bridged providerName (bridge_entry providerName extension) this)
    else (Outcome.returned false, this).
Proof.
  unfold bridgeContextToAI, host_accepts, bridge_entry.
  destruct (String.eqb_spec providerName "github.copilot") as [->|_].
  { unfold bridgeToCopilot, Se.try_catch, Se.bind, Se.call, Se.modify, Se.ret.
    destruct (BridgeHost.registerInlineCompletionItemProvider host) as [[]|e];
      reflexivity. }
  destruct (String.eqb_spec providerName "continue.continue") as [->|_].
  { unfold bridgeToCline, Se.try_catch, Se.bind, Se.call, Se.modify, Se.ret.
    destruct (BridgeHost.registerContextProvider host) as [[[]|e]|];
      reflexivity. }
  destruct (String.eqb_spec providerName "anthropic.claude-dev") as [->|_].
  { unfold bridgeToClaudeDev, Se.try_catch, Se.bind, Se.call, Se.modify, Se.ret.
    destruct (BridgeHost.addContextProvider host) as [[[]|e]|];
      reflexivity. }
  reflexivity.
Qed.

Lemma well_keyed_set (providerName : string) (extension : Extension.t)
  (this : t) :
  well_keyed this ->
  well_keyed (set_bridged providerName (bridge_entry providerName extension)
                this).
Proof.
  intros [Hnd Hid]. split.
  - now apply set_keys_NoDup.
  - intros k v Hin. apply set_In in Hin. destruct Hin as [[= -> ->]|Hin].
    + apply bridge_entry_id.
    + now apply Hid.
Qed.

Lemma isBridged_kept (providerName : string) (entry : AIProviderExtension.t)
  (this : t) (q : string) :
  isBridged this q = true ->
  isBridged (set_bridged providerName entry this) q = true.
Proof.
  unfold isBridged, set_bridged. cbn [bridgedProviders].
  rewrite !has_iff_key, set_keys.
  destruct (JsMap.has providerName (bridgedProviders this)); [auto|].
  intros H. apply in_or_app. now left.
Qed.

End BridgeFacts.

Module BridgeExtras.

Import ContextBridge Terms Examples BridgeFacts.

(** X21.  [bridgeContextToAI] never throws.  It answers [true] exactly when
    the host call made for that provider (if any) returns; the provider is
    then bridged under its own name, with an entry that carries that name as
    id and the given extension.  When it answers [false] the bridge is left as
    it was.  In both cases every provider bridged before is still bridged. *)
Theorem bridging_one_provider (host : BridgeHost.t) (providerName : string)
  (extension : Extension.t) (this : t) :
  let after := Se.exec (bridgeContextToAI host providerName extension) this in
  Se.eval (bridgeContextToAI host providerName extension) this
  = Outcome.returned (host_accepts host providerName)
  /\ (host_accepts host providerName = true ->
      isBridged after providerName = true
      /\ exists entry,
           JsMap.get providerName (bridgedProviders after) = Some entry
           /\ In entry (getBridgedProviders after)
           /\ AIProviderExtension.id entry = providerName
           /\ AIProviderExtension.extension entry = extension)
  /\ (host_accepts host providerName = false -> after = this)
  /\ (forall other, isBridged this other = true ->
                    isBridged after other = true).
Proof.
  cbv zeta. unfold Se.exec, Se.eval. rewrite bridgeContextToAI_run.
  destruct (host_accepts host providerName); cbn [fst snd].
  - split; [reflexivity|]. split; [|split; [discriminate|]].
    + intros _.
      assert (JsMap.get providerName
                (bridgedProviders
                   (set_bridged providerName
                      (bridge_entry providerName extension) this))
              = Some (bridge_entry providerName extension)) as Hget
        by apply get_set_same.
      split.
      * unfold isBridged, JsMap.has. now rewrite Hget.
      * exists (bridge_entry providerName extension).
        split; [exact Hget|]. split; [|apply bridge_entry_id].
        unfold getBridgedProviders, JsMap.values.
        apply in_map_iff. exists (providerName, bridge_entry providerName extension).
        split; [reflexivity|].
        clear Hget. unfold set_bridged. cbn [bridgedProviders].
        induction (bridgedProviders this) as [|[k v] m IH]; simpl.
        -- now left.
        -- destruct (String.eqb k providerName); simpl; auto.
    + intros other. apply isBridged_kept.
  - split; [reflexivity|]. split; [discriminate|]. split; auto.
Qed.

Lemma bridging_one_provider_witness :
  isBridged
    (Se.exec (bridgeContextToAI willing_host "acme.helper" two_text_fields) new)
    "acme.helper" = true
  /\ Se.exec (bridgeContextToAI refusing_host "github.copilot" copilot_installed)
       new = new.
Proof.
  split.
  - exact (proj1 (proj1 (proj2 (bridging_one_provider willing_host
                                  "acme.helper" two_text_fields new))
                    eq_refl)).
  - exact (proj1 (proj2 (proj2 (bridging_one_provider refusing_host
                                  "github.copilot" copilot_installed new)))
             eq_refl).
Defined.

Lemma bridge_run_snoc (cs : list bridge_call) (c : bridge_call) (this : t) :
  bridge_run (cs ++ [c]) this = bridge_step (bridge_run cs this) c.
Proof. unfold bridge_run. now rewrite fold_left_app. Qed.

Lemma bridge_step_well_keyed (this : t) (c : bridge_call) :
  well_keyed this -> well_keyed (bridge_step this c).
Proof.
  destruct c as [[host providerName] extension]. intros H.
  unfold bridge_step, Se.exec. rewrite bridgeContextToAI_run.
  destruct (host_accepts host providerName); cbn [snd];
    [now apply well_keyed_set | exact H].
Qed.

Lemma bridge_step_length (this : t) (c : bridge_call) :
  length (bridgedProviders (bridge_step this c))
  <= S (length (bridgedProviders this)).
Proof.
  destruct c as [[host providerName] extension].
  unfold bridge_step, Se.exec. rewrite bridgeContextToAI_run.
  destruct (host_accepts host providerName); cbn [snd]; [|lia].
  apply set_length.
Qed.

Lemma well_keyed_ids (this : t) :
  well_keyed this ->
  map AIProviderExtension.id (getBridgedProviders this)
  = JsMap.keys (bridgedProviders this).
Proof.
  intros [_ Hid]. unfold getBridgedProviders, JsMap.values, JsMap.keys.
  rewrite map_map. apply map_ext_in. intros [k v] Hin. cbn.
  now apply Hid.
Qed.

(** X22.  After any sequence of [bridgeContextToAI] calls on a new bridge,
    the bridged providers have pairwise distinct ids, [isBridged] answers
    [true] exactly for those ids, and there are at most as many of them as
    calls were made: bridging a provider again replaces its entry. *)
Theorem bridged_providers_are_distinct (cs : list bridge_call) :
  let this := bridge_run cs new in
  NoDup (map AIProviderExtension.id (getBridgedProviders this))
  /\ (forall providerId,
        isBridged this providerId = true <->
        In providerId (map AIProviderExtension.id (getBridgedProviders this)))
  /\ length (getBridgedProviders this) <= length cs.
Proof.
  cbv zeta.
  assert (well_keyed (bridge_run cs new)
          /\ length (bridgedProviders (bridge_run cs new)) <= length cs)
    as [Hwk Hlen].
  { induction cs as [|c cs IH] using rev_ind.
    - split; [split; [constructor | intros k v []] | reflexivity].
    - rewrite bridge_run_snoc, length_app. destruct IH as [Hwk Hlen].
      split; [now apply bridge_step_well_keyed|].
      pose proof (bridge_step_length (bridge_run cs new) c). cbn. lia. }
  rewrite (well_keyed_ids _ Hwk).
  split; [apply Hwk | split].
  - intros providerId. unfold isBridged. apply has_iff_key.
  - unfold getBridgedProviders, JsMap.values. now rewrite length_map.
Qed.

Lemma bridged_providers_are_distinct_witness :
  length
    (getBridgedProviders
       (bridge_run
          [ (willing_host, "acme.helper", two_text_fields);
            (refusing_host, "github.copilot", copilot_installed);
            (willing_host, "acme.helper", two_text_fields) ]
          new))
  = 1
  /\ isBridged
       (bridge_run
          [ (willing_host, "acme.helper", two_text_fields);
            (refusing_host, "github.copilot", copilot_installed);
            (willing_host, "acme.helper", two_text_fields) ]
          new)
       "acme.helper" = true.
Proof.
  split; [reflexivity|].
  apply (proj1 (proj2 (bridged_providers_are_distinct
                         [ (willing_host, "acme.helper", two_text_fields);
                           (refusing_host, "github.copilot", copilot_installed);
                           (willing_host, "acme.helper", two_text_fields) ]))).
  left. reflexivity.
Defined.

End BridgeExtras.

(** ** Activation and deactivation of the extension *)

Module ExtensionFacts.

Import KnowledgeHubExtension Terms.

Lemma bridge_provider_run (env : Environment) (bridge : ContextBridge.t)
  (provider : DetectedAIProvider.t) :
  bridge_provider env bridge provider
  = if host_accepts (bridgeHost env provider) (DetectedAIProvider.name provider)
    then ContextBridge.set_bridged (DetectedAIProvider.name provider)
           (bridge_entry (DetectedAIProvider.name provider)
              (DetectedAIProvider.extension provider))
           bridge
    else bridge.
Proof.
  unfold bridge_provider, Se.exec. rewrite BridgeFacts.bridgeContextToAI_run.
  now destruct (host_accepts _ _).
Qed.

(** The loop of [registerAIInterceptors] only folds the bridge. *)
Lemma bridgeAll_run (env : Environment) (providers : list DetectedAIProvider.t)
  (this : t) :
  bridgeAll env providers this
  = (Outcome.returned tt,
     set_contextBridge
       (fold_left (bridge_provider env) providers (contextBridge this))
       this).
Proof.
  revert this; induction providers as [|provider rest IH]; intros this.
  - destruct this. reflexivity.
  - cbn [bridgeAll fold_left]. rewrite bridge_provider_run.
    unfold Se.bind at 1.
    unfold Se.try_catch, Se.bind, onBridge, Se.zoom, Se.ret.
    rewrite BridgeFacts.bridgeContextToAI_run.
    destruct (host_accepts (bridgeHost env provider)
                (DetectedAIProvider.name provider));
      rewrite IH; destruct this; reflexivity.
Qed.

Lemma fold_bridge_keeps (env : Environment)
  (providers : list DetectedAIProvider.t) (bridge : ContextBridge.t)
  (q : string) :
  ContextBridge.isBridged bridge q = true ->
  ContextBridge.isBridged (fold_left (bridge_provider env) providers bridge) q
  = true.
Proof.
  revert bridge; induction providers as [|provider rest IH]; intros bridge H;
    [exact H|].
  cbn [fold_left]. apply IH. rewrite bridge_provider_run.
  destruct (host_accepts _ _);
    [now apply BridgeFacts.isBridged_kept | exact H].
Qed.

Lemma fold_bridge_covers (env : Environment)
  (providers : list DetectedAIProvider.t) (bridge : ContextBridge.t)
  (provider : DetectedAIProvider.t) :
  In provider providers ->
  host_accepts (bridgeHost env provider) (DetectedAIProvider.name provider)
  = true ->
  ContextBridge.isBridged (fold_left (bridge_provider env) providers bridge)
    (DetectedAIProvider.name provider) = true.
Proof.
  revert bridge; induction providers as [|p rest IH]; intros bridge Hin Hacc;
    [contradiction|].
  cbn [fold_left]. destruct Hin as [->|Hin]; [|now apply IH].
  apply fold_bridge_keeps. rewrite bridge_provider_run, Hacc.
  unfold ContextBridge.isBridged, ContextBridge.set_bridged, JsMap.has.
  cbn [ContextBridge.bridgedProviders].
  now rewrite BridgeFacts.get_set_same.
Qed.

Lemma fold_bridge_only (env : Environment)
  (providers : list DetectedAIProvider.t) (bridge : ContextBridge.t)
  (q : string) :
  ContextBridge.isBridged (fold_left (bridge_provider env) providers bridge) q
  = true ->
  ContextBridge.isBridged bridge q = true
  \/ exists provider,
       In provider providers /\ DetectedAIProvider.name provider = q.
Proof.
  revert bridge; induction providers as [|p rest IH]; intros bridge H;
    [now left|].
  cbn [fold_left] in H. apply IH in H. destruct H as [H|(d & Hd & E)].
  - rewrite bridge_provider_run in H.
    destruct (host_accepts _ _); [|now left].
    destruct (string_dec (DetectedAIProvider.name p) q) as [E|E].
    + right. exists p. split; [now left | exact E].
    + left. unfold ContextBridge.isBridged, ContextBridge.set_bridged,
        JsMap.has in *.
      cbn [ContextBridge.bridgedProviders] in H.
      now rewrite BridgeFacts.get_set_other in H.
  - right. exists d. split; [now right | exact E].
Qed.

End ExtensionFacts.

Module ExtensionExtras.

Import KnowledgeHubExtension Terms Examples ExtensionFacts.

(** X23.  [registerAIInterceptors] touches only the bridge.  It throws
    exactly when the detection pass it awaits throws (on a manifest field of
    a type the detector does not expect), with that error and without
    bridging anything.  Otherwise it returns: every detected provider whose
    own host call goes through is bridged afterwards, whatever happened to the
    others, and nothing is bridged that was not bridged before or is not the
    id of an installed extension. *)
Theorem interceptors_bridge_the_detected (env : Environment) (this : t) :
  let after := Se.exec (registerAIInterceptors env) this in
  aiEnhancementLayer after = aiEnhancementLayer this
  /\ liveContextStream after = liveContextStream this
  /\ (forall error,
        Se.eval (registerAIInterceptors env) this = Outcome.thrown error <->
        detectionFault env = Some error)
  /\ (forall error, detectionFault env = Some error -> after = this)
  /\ (detectionFault env = None ->
      Se.eval (registerAIInterceptors env) this = Outcome.returned tt
      /\ (forall provider,
            In provider
              (AIProviderDetector.detectProviders (localeCompare env)
                 (allExtensions env)) ->
            host_accepts (bridgeHost env provider)
              (DetectedAIProvider.name provider) = true ->
            ContextBridge.isBridged (contextBridge after)
              (DetectedAIProvider.name provider) = true)
      /\ (forall providerId,
            ContextBridge.isBridged (contextBridge after) providerId = true ->
            ContextBridge.isBridged (contextBridge this) providerId = true
            \/ exists extension,
                 In extension (allExtensions env)
                 /\ Extension.id extension = providerId)).
Proof.
  cbv zeta.
  unfold registerAIInterceptors, detectProviders_awaited, Se.exec, Se.eval,
    Se.bind, Se.call.
  destruct (detectionFault env) as [fault|].
  - cbn [fst snd]. split; [reflexivity|]. split; [reflexivity|]. split.
    + intros error. split; intros [= ->]; reflexivity.
    + split; [reflexivity | discriminate].
  - rewrite bridgeAll_run. cbn [fst snd].
    split; [reflexivity|]. split; [reflexivity|]. split.
    + intros error. split; discriminate.
    + split; [discriminate|]. intros _. split; [reflexivity|].
      cbn [contextBridge set_contextBridge]. split.
      * intros provider Hin Hacc. now apply fold_bridge_covers.
      * intros providerId H. apply fold_bridge_only in H.
        destruct H as [H|(d & Hd & E)]; [now left|]. right.
        destruct (DetectorExtras.detected_names_installed _ _ _ Hd)
          as (extension & Hin & Hid).
        exists extension. split; [exact Hin|]. congruence.
Qed.

Lemma interceptors_bridge_the_detected_witness :
  ContextBridge.isBridged
    (contextBridge
       (Se.exec (registerAIInterceptors friendly_environment)
          (new unreachable)))
    "acme.helper" = true
  /\ Se.eval (registerAIInterceptors wrong_typed_environment) (new unreachable)
     = Outcome.thrown "TypeError: commands.some is not a function".
Proof.
  split.
  - destruct (interceptors_bridge_the_detected friendly_environment
                (new unreachable)) as (_ & _ & _ & _ & H).
    cbv zeta in H. destruct (H eq_refl) as (_ & Hb & _).
    exact (Hb (AIProviderDetector.unknown_descriptor two_text_fields)
             ltac:(vm_compute; right; left; reflexivity) eq_refl).
  - destruct (interceptors_bridge_the_detected wrong_typed_environment
                (new unreachable)) as (_ & _ & H & _).
    cbv zeta in H. apply H. reflexivity.
Defined.

(** [activate], with its [try] resolved. *)
Lemma activate_run (env : Environment) (this : t) :
  activate env this
  = (Outcome.returned tt,
     if prelude_ok env
     then
       let layered :=
         if autoEnhance env
         then set_aiEnhancementLayer
                (EnhancementLifecycle.set_isActive true
                   (aiEnhancementLayer this))
                this
         else this in
       if layer_ok env
       then
         let tracking :=
           set_liveContextStream
             (St.exec LiveContextStream.startContextTracking
                (liveContextStream layered))
             layered in
         match detectionFault env with
         | Some _ => tracking
         | None =>
             set_contextBridge
               (fold_left (bridge_provider env)
                  (AIProviderDetector.detectProviders (localeCompare env)
                     (allExtensions env))
                  (contextBridge tracking))
               tracking
         end
       else layered
     else this).
Proof.
  unfold activate, prelude_ok, layer_ok, Se.try_catch.
  unfold initializeKnowledgeHub, registerCommands, startAIEnhancement,
    startContextTracking, registerAIInterceptors, detectProviders_awaited.
  unfold Se.bind. unfold Se.call, Se.throw.
  destruct (testConnection env) as [[|]|e]; cbn [negb returns andb];
    try reflexivity.
  destruct (initializeAISession env) as [[]|e]; cbn [returns andb];
    [|reflexivity].
  destruct (registerCommand env) as [[]|e]; cbn [returns andb];
    [|reflexivity].
  destruct (autoEnhance env); cbn [negb orb].
  - unfold onLayer, Se.zoom. rewrite EnhancementExtras.start_run.
    destruct (EnhancementLifecycle.registerInlineCompletionItemProvider
                (registrar env)) as [[]|e]; cbn [returns]; [|reflexivity].
    unfold onStream, Se.zoom, Se.total.
    destruct (LiveContextStream.startContextTracking _) as [[] stream] eqn:E.
    cbv zeta. unfold St.exec. rewrite E. cbn [snd].
    destruct (detectionFault env); [reflexivity|].
    rewrite bridgeAll_run. reflexivity.
  - unfold Se.ret, onStream, Se.zoom, Se.total.
    destruct (LiveContextStream.startContextTracking _) as [[] stream] eqn:E.
    cbv zeta. unfold St.exec. rewrite E. cbn [snd].
    destruct (detectionFault env); [reflexivity|].
    rewrite bridgeAll_run. reflexivity.
Qed.

(** X24.  [activate] never throws.  When the service cannot be reached, the
    session cannot be initialised or the commands cannot be registered, it
    leaves the extension as it was: no layer, no tracking, no bridge.  When
    the enhancement layer fails to start, the layer is left switched on while
    tracking and bridging are not started.  Otherwise the stream is tracking,
    the layer is on if auto-enhancement is configured, and every detected
    provider whose host call goes through is bridged; when the detection pass
    itself throws, the stream stays tracking and nothing is bridged. *)
Theorem activation_outcomes (env : Environment) (this : t) :
  let after := Se.exec (activate env) this in
  Se.eval (activate env) this = Outcome.returned tt
  /\ (prelude_ok env = false -> after = this)
  /\ (prelude_ok env = true -> layer_ok env = false ->
      AIEnhancementLayer.isActive (aiEnhancementLayer after) = true
      /\ liveContextStream after = liveContextStream this
      /\ contextBridge after = contextBridge this)
  /\ (prelude_ok env = true -> layer_ok env = true ->
      LiveContextStream.isActive (liveContextStream after) = true
      /\ AIEnhancementLayer.isActive (aiEnhancementLayer after)
         = (autoEnhance env
            || AIEnhancementLayer.isActive (aiEnhancementLayer this))
      /\ LiveContextStream.contextBuffer (liveContextStream after)
         = LiveContextStream.contextBuffer (liveContextStream this)
      /\ (detectionFault env = None ->
          forall provider,
            In provider
              (AIProviderDetector.detectProviders (localeCompare env)
                 (allExtensions env)) ->
            host_accepts (bridgeHost env provider)
              (DetectedAIProvider.name provider) = true ->
            ContextBridge.isBridged (contextBridge after)
              (DetectedAIProvider.name provider) = true)
      /\ (forall error,
            detectionFault env = Some error ->
            contextBridge after = contextBridge this)).
Proof.
  cbv zeta. unfold Se.exec, Se.eval. rewrite activate_run. cbn [fst snd].
  split; [reflexivity|]. split; [intros ->; reflexivity|]. split.
  - intros -> Hl. rewrite Hl. cbv zeta.
    unfold layer_ok in Hl. destruct (autoEnhance env); [|discriminate].
    destruct this. repeat split.
  - intros -> ->. cbv zeta.
    split; [|split; [|split; [|split]]].
    + destruct (detectionFault env);
        cbn [liveContextStream set_contextBridge set_liveContextStream];
        rewrite StreamFacts.start_exec;
        destruct (autoEnhance env); cbn [liveContextStream set_aiEnhancementLayer];
        destruct (LiveContextStream.isActive (liveContextStream this)) eqn:E;
        auto.
    + destruct (detectionFault env), (autoEnhance env); reflexivity.
    + destruct (detectionFault env);
        cbn [liveContextStream set_contextBridge set_liveContextStream];
        rewrite StreamFacts.start_exec;
        destruct (autoEnhance env); cbn [liveContextStream set_aiEnhancementLayer];
        destruct (LiveContextStream.isActive (liveContextStream this));
        reflexivity.
    + intros ->. cbn [contextBridge set_contextBridge].
      intros provider Hin Hacc. now apply fold_bridge_covers.
    + intros error ->. destruct (autoEnhance env); reflexivity.
Qed.

Lemma activation_outcomes_witness :
  Se.exec (activate offline_environment) (new unreachable) = new unreachable
  /\ (AIEnhancementLayer.isActive
        (aiEnhancementLayer
           (Se.exec (activate hostile_registrar_environment) (new unreachable)))
      = true
      /\ LiveContextStream.isActive
           (liveContextStream
              (Se.exec (activate hostile_registrar_environment)
                 (new unreachable)))
         = false)
  /\ LiveContextStream.isActive
       (liveContextStream
          (Se.exec (activate friendly_environment) (new unreachable)))
     = true
  /\ contextBridge
       (Se.exec (activate wrong_typed_environment) (new unreachable))
     = ContextBridge.new.
Proof.
  split; [|split; [split|split]].
  - exact (proj1 (proj2 (activation_outcomes offline_environment
                           (new unreachable))) eq_refl).
  - exact (proj1 (proj1 (proj2 (proj2 (activation_outcomes
                                         hostile_registrar_environment
                                         (new unreachable))))
                    eq_refl eq_refl)).
  - destruct (proj1 (proj2 (proj2 (activation_outcomes
                                     hostile_registrar_environment
                                     (new unreachable))))
                eq_refl eq_refl) as (_ & -> & _).
    reflexivity.
  - exact (proj1 (proj2 (proj2 (proj2 (activation_outcomes
                                         friendly_environment
                                         (new unreachable))))
                    eq_refl eq_refl)).
  - destruct (proj2 (proj2 (proj2 (activation_outcomes
                                     wrong_typed_environment
                                     (new unreachable))))
                eq_refl eq_refl) as (_ & _ & _ & _ & H).
    exact (H _ eq_refl).
Defined.

(** X25.  [deactivate] stops the stream and the layer and keeps what they
    hold: afterwards the stream has no listener and no timer and ignores
    every notification, every request comes back as it was, and the buffered
    history and the bridged providers are those from before. *)
Theorem deactivation_keeps_history (this : t) :
  let after := St.exec deactivate this in
  LiveContextStream.isActive (liveContextStream after) = false
  /\ LiveContextStream.disposables (liveContextStream after) = []
  /\ LiveContextStream.contextUpdateTimer (liveContextStream after) = None
  /\ LiveContextStream.contextBuffer (liveContextStream after)
     = LiveContextStream.contextBuffer (liveContextStream this)
  /\ AIEnhancementLayer.isActive (aiEnhancementLayer after) = false
  /\ contextBridge after = contextBridge this
  /\ (forall n,
        St.exec (LiveContextStream.deliver n) (liveContextStream after)
        = liveContextStream after)
  /\ (forall host configured originalRequest,
        AIEnhancementLayer.enhanceAIRequest (aiEnhancementLayer after) host
          configured originalRequest
        = Outcome.returned (AIEnhancementLayer.as_enhanced originalRequest)).
Proof.
  cbv zeta.
  assert (St.exec deactivate this
          = mk (EnhancementLifecycle.set_isActive false
                  (aiEnhancementLayer this))
               (contextBridge this)
               (St.exec LiveContextStream.stop (liveContextStream this)))
    as ->.
  { unfold deactivate. rewrite StreamFacts.exec_bind, !StreamFacts.exec_zoom.
    destruct this. reflexivity. }
  cbn [liveContextStream aiEnhancementLayer contextBridge].
  rewrite StreamSpec.stop_exec.
  repeat split.
  intros n. now apply StreamSpec.inactive_ignores.
Qed.

End ExtensionExtras.
